(** * Dashboard clients of the trading bots: a shallow embedding

    Two browser clients are embedded here, each from its source file:

    - [Vue]: the Vue application of [bot_6/static/js/app.js];
    - [Dash]: the plain-DOM dashboard script (the [dashboard.js] that
      [bot_cl3/web/templates/index.html] loads).

    JavaScript values are an inductive type, numbers are IEEE-754 binary64
    values ([spec_float] with [prec = 53], [emax = 1024]), [async] functions
    are computations in a state-and-exception monad over the client's
    in-memory state, and everything the client does to the outside (requests,
    console lines, notifications, dialogs, chart redraws) is appended to a
    trace.  The server and the user are an environment that answers from the
    trace so far, so every statement quantified over the environment covers
    every deterministic server and user.

    Left out: [formatTime] and [formatDuration] of the Vue client.  The
    inputs of the configuration form are no part of the document here:
    [saveConfig] takes them as a list. *)

From Stdlib Require Import List String Ascii ZArith QArith Qabs Bool Lia Lqa
  Arith.
From Stdlib Require Import SpecFloat Permutation DecimalString.
Import ListNotations.

Set Warnings "-register-all".

Local Close Scope Q_scope.
Local Open Scope list_scope.
Local Open Scope string_scope.

(* ================================================================== *)
(** * JavaScript values *)
(* ================================================================== *)

Module JS.

(** Numbers are binary64 floating-point values. *)
Definition number : Type := spec_float.
Definition prec : Z := 53.
Definition emax : Z := 1024.

Definition num_of_Z (z : Z) : number := binary_normalize prec emax z 0 false.
Definition num_add : number -> number -> number := SFadd prec emax.
Definition num_div : number -> number -> number := SFdiv prec emax.
Definition num_ltb : number -> number -> bool := SFltb.

(** A decimal literal [n / d] of the source text denotes the binary64 value
    nearest to it; the division of two exactly represented integers rounds
    correctly, so it computes that value. *)
Definition num_lit (n d : Z) : number := num_div (num_of_Z n) (num_of_Z d).

Definition is_nan (x : number) : bool :=
  match x with S754_nan => true | _ => false end.

Definition is_zero (x : number) : bool :=
  match x with S754_zero _ => true | _ => false end.

Inductive value : Type :=
| VUndef
| VNull
| VBool (b : bool)
| VNum (n : number)
| VStr (s : string)
| VArr (items : list value)
| VObj (fields : list (string * value)).

Inductive exn : Type :=
| TypeError      (* property of null/undefined, call of a non-function *)
| NetworkError   (* the promise of [fetch] rejected *)
| SyntaxError    (* [response.json()] rejected: the body is not JSON *)
| ReferenceError. (* a name that nothing declares *)

Inductive result (A : Type) : Type :=
| Ok (a : A)
| Throw (e : exn).
Arguments Ok {A} a.
Arguments Throw {A} e.

(** Own data properties of an object, in insertion order. *)
Fixpoint lookup (k : string) (fs : list (string * value)) : option value :=
  match fs with
  | [] => None
  | (k', v) :: fs' => if String.eqb k k' then Some v else lookup k fs'
  end.

Fixpoint assign (k : string) (v : value) (fs : list (string * value))
  : list (string * value) :=
  match fs with
  | [] => [(k, v)]
  | (k', v') :: fs' =>
      if String.eqb k k' then (k', v) :: fs' else (k', v') :: assign k v fs'
  end.

(** [o.k] for a data field [k].  Reading a property of [undefined] or [null]
    throws; a field that is absent reads as [undefined].  The field names of
    the two clients are never [length], an index or an inherited member, so
    arrays and primitives have none of them. *)
Definition get (o : value) (k : string) : result value :=
  match o with
  | VUndef | VNull => Throw TypeError
  | VObj fs => Ok match lookup k fs with Some v => v | None => VUndef end
  | _ => Ok VUndef
  end.

(** [o.k = v] (sloppy mode): throws on [undefined] and [null], writes the own
    property of an object, and is silently dropped on a primitive.  An array
    of this model has no place for a named property and drops it too. *)
Definition set (o : value) (k : string) (v : value) : result value :=
  match o with
  | VUndef | VNull => Throw TypeError
  | VObj fs => Ok (VObj (assign k v fs))
  | _ => Ok o
  end.

Definition truthy (v : value) : bool :=
  match v with
  | VUndef | VNull => false
  | VBool b => b
  | VNum n => negb (is_nan n || is_zero n)
  | VStr s => negb (String.eqb s "")
  | VArr _ | VObj _ => true
  end.

(** [v === 'lit'] for a string literal. *)
Definition strict_eq_str (v : value) (lit : string) : bool :=
  match v with VStr s => String.eqb s lit | _ => false end.

(** [a === b] for two values that are not one and the same object: numbers
    compare as numbers ([NaN] differs from itself and the two zeros are
    equal), and two objects, or two arrays, are never equal. *)
Definition strict_eq (a b : value) : bool :=
  match a, b with
  | VUndef, VUndef | VNull, VNull => true
  | VBool x, VBool y => Bool.eqb x y
  | VNum x, VNum y => SFeqb x y
  | VStr x, VStr y => String.eqb x y
  | _, _ => false
  end.

Definition join (sep : string) (l : list string) : string :=
  match l with
  | [] => ""
  | x :: xs => fold_left (fun acc y => acc ++ sep ++ y) xs x
  end.

(** What the platform does to numbers and that the clients only pass along:
    the decimal rendering of a number, [Number.prototype.toFixed], and the
    scanner of [parseFloat]. *)
Class Platform : Type := {
  number_to_string : number -> string;
  to_fixed : number -> nat -> string;
  parse_float_string : string -> number
}.

Section WithPlatform.
Context {P : Platform}.

(** [String(v)], as template literals and [+] on a string apply it. *)
Fixpoint to_str (v : value) : string :=
  match v with
  | VUndef => "undefined"
  | VNull => "null"
  | VBool true => "true"
  | VBool false => "false"
  | VNum n => number_to_string n
  | VStr s => s
  | VArr items =>
      join "," (map (fun x => match x with
                              | VUndef | VNull => ""
                              | _ => to_str x
                              end) items)
  | VObj _ => "[object Object]"
  end.

(** [parseFloat(v)] converts its argument to a string first. *)
Definition parseFloat (v : value) : number := parse_float_string (to_str v).

End WithPlatform.

End JS.
Export JS.

(* ================================================================== *)
(** * Requests, the environment and the trace *)
(* ================================================================== *)

Inductive http_method : Type := GET | POST.

Record request : Type := mkRequest {
  req_method : http_method;
  req_url : string;
  req_headers : list (string * string);
  req_body : option value   (* the value handed to [JSON.stringify] *)
}.

(** What [fetch] and then [response.json()] give: the promise of [fetch]
    rejects, or it resolves and the body parses to a value or does not.  The
    clients never read the HTTP status code. *)
Inductive response : Type :=
| Rejected
| Resolved (body : option value).

Inductive event : Type :=
| EFetch (r : request) (a : response)
| EConsoleError (msg : string) (err : option exn)
| EConsoleLog (msg : string)
| EShowError (msg : string)          (* [showError] of the Vue client *)
| EShowSuccess (msg : string)        (* [showSuccess] of the Vue client *)
| ENotify (msg : string) (type : string) (* [showNotification] *)
| EConfirm (msg : string) (answer : bool)
| EChartUpdate (chart : string).

(** The server and the user.  Both answer from everything that happened so
    far, which makes them arbitrary deterministic agents. *)
Record env : Type := mkEnv {
  respond : list event -> request -> response;
  answer : list event -> string -> bool
}.

Definition mk_get (url : string) : request := mkRequest GET url [] None.
Definition mk_post (url : string) : request := mkRequest POST url [] None.
Definition json_header : list (string * string) :=
  [("Content-Type", "application/json")].
Definition mk_post_json (url : string) (body : value) : request :=
  mkRequest POST url json_header (Some body).

(* ================================================================== *)
(** * The monad of client code *)
(* ================================================================== *)

Record world (S : Type) : Type := mkWorld {
  store : S;
  trace : list event
}.
Arguments mkWorld {S} store trace.
Arguments store {S} w.
Arguments trace {S} w.

Definition M (S A : Type) : Type := world S -> result A * world S.

Definition ret {S A} (a : A) : M S A := fun w => (Ok a, w).

Definition bind {S A B} (m : M S A) (k : A -> M S B) : M S B :=
  fun w => match m w with
           | (Ok a, w') => k a w'
           | (Throw e, w') => (Throw e, w')
           end.

Definition throw {S A} (e : exn) : M S A := fun w => (Throw e, w).

(** [try { body } catch (error) { handler(error) }] *)
Definition try_catch {S A} (body : M S A) (handler : exn -> M S A) : M S A :=
  fun w => match body w with
           | (Ok a, w') => (Ok a, w')
           | (Throw e, w') => handler e w'
           end.

Definition lift {S A} (r : result A) : M S A := fun w => (r, w).

Definition emit {S} (e : event) : M S unit :=
  fun w => (Ok tt, mkWorld (store w) (trace w ++ [e])%list).

Definition read {S} : M S S := fun w => (Ok (store w), w).

Definition modify {S} (f : S -> S) : M S unit :=
  fun w => (Ok tt, mkWorld (f (store w)) (trace w)).

Declare Scope js_scope.
Delimit Scope js_scope with js.
Notation "x <- c1 ;; c2" := (bind c1 (fun x => c2))
  (at level 61, c1 at next level, right associativity) : js_scope.
Notation "c1 ;; c2" := (bind c1 (fun _ => c2))
  (at level 61, right associativity) : js_scope.
Local Open Scope js_scope.

Section Effects.
Context (E : env) {S : Type}.

(** [await fetch(...)]: the request goes out, the environment answers, and a
    rejected promise is thrown at the [await]. *)
Definition fetch (r : request) : M S response :=
  fun w =>
    let a := respond E (trace w) r in
    let w' := mkWorld (store w) (trace w ++ [EFetch r a])%list in
    match a with
    | Rejected => (Throw NetworkError, w')
    | Resolved _ => (Ok a, w')
    end.

(** [await response.json()] *)
Definition json (a : response) : M S value :=
  match a with
  | Resolved (Some v) => ret v
  | Resolved None => throw SyntaxError
  | Rejected => throw NetworkError
  end.

Definition console_error (msg : string) (err : option exn) : M S unit :=
  emit (EConsoleError msg err).

Definition console_log (msg : string) : M S unit :=
  emit (EConsoleLog msg).

(** [confirm(msg)] *)
Definition confirm (msg : string) : M S bool :=
  fun w =>
    let b := answer E (trace w) msg in
    (Ok b, mkWorld (store w) (trace w ++ [EConfirm msg b])%list).

End Effects.

(** An async function that nobody awaits: the caller goes on whatever the
    callee does, and a rejection of its promise is lost.  The callee is run
    to completion at the call: operations whose requests are in flight at
    the same time are not interleaved in this model. *)
Definition spawn {S A} (m : M S A) : M S unit :=
  fun w => (Ok tt, snd (m w)).

(* ================================================================== *)
(** * [Intl.NumberFormat('en-US', ...)] *)
(* ================================================================== *)

(** The formatter of the platform, for the three option sets of the Vue
    client.  Each of them prints exactly two fraction digits: the percent
    and the plain style ask for [minimumFractionDigits: 2] and
    [maximumFractionDigits: 2], and US dollars have two by default.  The
    platform formats a number from its shortest decimal, the one that
    [String] prints: the decimal of the fewest digits that reads back as
    the same number.  The percent style multiplies that decimal by 100;
    the decimal is then rounded to two fraction digits, halves away from
    zero ([roundingMode: "halfExpand"]), the integer digits are grouped by
    three, and a negative number, negative zero included, gets a minus
    sign. *)
Module Intl.

Inductive style : Type := Decimal | Percent | CurrencyUSD.

(** A decimal: a count of units [10^-places]. *)
Record decimal : Type := mkDecimal {
  units : Z;
  places : Z
}.

(** The finite number [m * 2^e] between the points half-way to its two
    neighbours, all three as counts of units [10^-scale].  They are
    multiples of [2^(e-2)], since the neighbour below is half as far away
    as the one above when [m] is the least mantissa of its binade; and
    [2^(e-2)] is [5^(2-e)] units [10^-(2-e)] when [e < 2]. *)
Record span : Type := mkSpan {
  low : Z;
  mid : Z;
  high : Z;
  closed : bool;
  scale : Z
}.

Definition span_of (m : positive) (e : Z) : span :=
  let first :=
    (Zpos m =? 2 ^ (prec - 1))%Z && (emin prec emax <? e)%Z in
  let u := if (2 <=? e)%Z then (2 ^ (e - 2))%Z else (5 ^ (2 - e))%Z in
  {| low := ((4 * Zpos m - (if first then 1 else 2)) * u)%Z;
     mid := (4 * Zpos m * u)%Z;
     high := ((4 * Zpos m + 2) * u)%Z;
     closed := Z.even (Zpos m);
     scale := Z.max 0 (2 - e) |}.

(** The decimals that read back as the number are those between the two
    points; a point itself does when the mantissa is even. *)
Definition reads_back (sp : span) (d : Z) : bool :=
  if closed sp then (low sp <=? d)%Z && (d <=? high sp)%Z
  else (low sp <? d)%Z && (d <? high sp)%Z.

(** Of the multiples of [10^p] that read back as the number, the one
    nearest to it; of two equally near, the even one. *)
Definition nearest_multiple (sp : span) (p : nat) : option Z :=
  let step := (10 ^ Z.of_nat p)%Z in
  let below := (mid sp / step * step)%Z in
  let above := (below + step)%Z in
  match reads_back sp below, reads_back sp above with
  | true, true =>
      if (mid sp - below <? above - mid sp)%Z then Some below
      else if (above - mid sp <? mid sp - below)%Z then Some above
      else if Z.even (below / step) then Some below else Some above
  | true, false => Some below
  | false, true => Some above
  | false, false => None
  end.

(** The search for the shortest decimal, from one digit on: the first
    that is found as the digits get more.  With all the digits of the
    number itself there is one. *)
Fixpoint shortest_from (sp : span) (p : nat) : Z :=
  match nearest_multiple sp p with
  | Some d => d
  | None =>
      match p with
      | O => mid sp
      | Datatypes.S p' => shortest_from sp p'
      end
  end.

Definition digits_of (n : Z) : list ascii :=
  list_ascii_of_string (NilZero.string_of_uint (N.to_uint (Z.to_N n))).

Definition shortest (m : positive) (e : Z) : decimal :=
  let sp := span_of m e in
  {| units := shortest_from sp (List.length (digits_of (mid sp)) - 1);
     places := scale sp |}.

(** [d * k] rounded to an integer, halves away from zero, for a decimal
    that is not negative. *)
Definition scaled_round (k : Z) (d : decimal) : Z :=
  let one := (10 ^ places d)%Z in
  ((2 * (units d * k) + one) / (2 * one))%Z.

(** Commas between groups of three digits; [rev_digits] has the units
    first and [n] counts the digits since the last comma. *)
Fixpoint group_from_units (rev_digits : list ascii) (n : nat) : list ascii :=
  match rev_digits with
  | [] => []
  | c :: t =>
      match t with
      | [] => [c]
      | _ :: _ =>
          if Nat.eqb n 2 then c :: ","%char :: group_from_units t 0
          else c :: group_from_units t (Datatypes.S n)
      end
  end.

Definition grouped (n : Z) : string :=
  string_of_list_ascii (rev (group_from_units (rev (digits_of n)) 0)).

Definition two_digits (n : Z) : string :=
  string_of_list_ascii (digits_of (n / 10)) ++
  string_of_list_ascii (digits_of (n mod 10)).

(** The digits of a count of hundredths: [123456] prints as [1,234.56]. *)
Definition fixed2 (hundredths : Z) : string :=
  grouped (hundredths / 100) ++ "." ++ two_digits (hundredths mod 100).

Definition magnitude (st : style) (x : number) : string :=
  let k := match st with Percent => 10000%Z | _ => 100%Z end in
  match x with
  | S754_nan => "NaN"
  | S754_infinity _ => "∞"
  | S754_zero _ => fixed2 0
  | S754_finite _ m e => fixed2 (scaled_round k (shortest m e))
  end.

Definition negative (x : number) : bool :=
  match x with
  | S754_nan => false
  | S754_infinity s | S754_zero s | S754_finite s _ _ => s
  end.

Definition format (st : style) (x : number) : string :=
  let sign := if negative x then "-" else "" in
  match st with
  | Decimal => sign ++ magnitude st x
  | Percent => sign ++ magnitude st x ++ "%"
  | CurrencyUSD => sign ++ "$" ++ magnitude st x
  end.

End Intl.

(* ================================================================== *)
(** * The Vue client ([bot_6/static/js/app.js]) *)
(* ================================================================== *)

Module Vue.

(** The one function the component stores in [modalCallback]. *)
Inductive callback : Type := CreateStrategy.

Record data : Type := mkData {
  currentPage : string;
  sidebarCollapsed : bool;
  showModal : bool;
  modalTitle : string;
  modalConfirmText : string;
  modalCallback : option callback;
  accountStats : value;
  strategies : value;
  strategyFilter : value;
  positions : value;
  positionStats : value;
  riskMetrics : value;
  riskAlerts : value;
  riskSettings : value;
  exchanges : value;
  notificationSettings : value;
  systemSettings : value
}.

Definition set_currentPage (x : string) (d : data) : data :=
  mkData x (sidebarCollapsed d) (showModal d) (modalTitle d)
    (modalConfirmText d) (modalCallback d) (accountStats d) (strategies d)
    (strategyFilter d) (positions d) (positionStats d) (riskMetrics d)
    (riskAlerts d) (riskSettings d) (exchanges d) (notificationSettings d)
    (systemSettings d).

Definition set_sidebarCollapsed (x : bool) (d : data) : data :=
  mkData (currentPage d) x (showModal d) (modalTitle d) (modalConfirmText d)
    (modalCallback d) (accountStats d) (strategies d) (strategyFilter d)
    (positions d) (positionStats d) (riskMetrics d) (riskAlerts d)
    (riskSettings d) (exchanges d) (notificationSettings d)
    (systemSettings d).

Definition set_showModal (x : bool) (d : data) : data :=
  mkData (currentPage d) (sidebarCollapsed d) x (modalTitle d)
    (modalConfirmText d) (modalCallback d) (accountStats d) (strategies d)
    (strategyFilter d) (positions d) (positionStats d) (riskMetrics d)
    (riskAlerts d) (riskSettings d) (exchanges d) (notificationSettings d)
    (systemSettings d).

Definition set_modalTitle (x : string) (d : data) : data :=
  mkData (currentPage d) (sidebarCollapsed d) (showModal d) x
    (modalConfirmText d) (modalCallback d) (accountStats d) (strategies d)
    (strategyFilter d) (positions d) (positionStats d) (riskMetrics d)
    (riskAlerts d) (riskSettings d) (exchanges d) (notificationSettings d)
    (systemSettings d).

Definition set_modalConfirmText (x : string) (d : data) : data :=
  mkData (currentPage d) (sidebarCollapsed d) (showModal d) (modalTitle d) x
    (modalCallback d) (accountStats d) (strategies d) (strategyFilter d)
    (positions d) (positionStats d) (riskMetrics d) (riskAlerts d)
    (riskSettings d) (exchanges d) (notificationSettings d)
    (systemSettings d).

Definition set_modalCallback (x : option callback) (d : data) : data :=
  mkData (currentPage d) (sidebarCollapsed d) (showModal d) (modalTitle d)
    (modalConfirmText d) x (accountStats d) (strategies d)
    (strategyFilter d) (positions d) (positionStats d) (riskMetrics d)
    (riskAlerts d) (riskSettings d) (exchanges d) (notificationSettings d)
    (systemSettings d).

Definition set_accountStats (x : value) (d : data) : data :=
  mkData (currentPage d) (sidebarCollapsed d) (showModal d) (modalTitle d)
    (modalConfirmText d) (modalCallback d) x (strategies d)
    (strategyFilter d) (positions d) (positionStats d) (riskMetrics d)
    (riskAlerts d) (riskSettings d) (exchanges d) (notificationSettings d)
    (systemSettings d).

Definition set_strategies (x : value) (d : data) : data :=
  mkData (currentPage d) (sidebarCollapsed d) (showModal d) (modalTitle d)
    (modalConfirmText d) (modalCallback d) (accountStats d) x
    (strategyFilter d) (positions d) (positionStats d) (riskMetrics d)
    (riskAlerts d) (riskSettings d) (exchanges d) (notificationSettings d)
    (systemSettings d).

Definition set_strategyFilter (x : value) (d : data) : data :=
  mkData (currentPage d) (sidebarCollapsed d) (showModal d) (modalTitle d)
    (modalConfirmText d) (modalCallback d) (accountStats d) (strategies d)
    x (positions d) (positionStats d) (riskMetrics d) (riskAlerts d)
    (riskSettings d) (exchanges d) (notificationSettings d)
    (systemSettings d).

Definition set_positions (x : value) (d : data) : data :=
  mkData (currentPage d) (sidebarCollapsed d) (showModal d) (modalTitle d)
    (modalConfirmText d) (modalCallback d) (accountStats d) (strategies d)
    (strategyFilter d) x (positionStats d) (riskMetrics d) (riskAlerts d)
    (riskSettings d) (exchanges d) (notificationSettings d)
    (systemSettings d).

Definition set_positionStats (x : value) (d : data) : data :=
  mkData (currentPage d) (sidebarCollapsed d) (showModal d) (modalTitle d)
    (modalConfirmText d) (modalCallback d) (accountStats d) (strategies d)
    (strategyFilter d) (positions d) x (riskMetrics d) (riskAlerts d)
    (riskSettings d) (exchanges d) (notificationSettings d)
    (systemSettings d).

Definition set_riskMetrics (x : value) (d : data) : data :=
  mkData (currentPage d) (sidebarCollapsed d) (showModal d) (modalTitle d)
    (modalConfirmText d) (modalCallback d) (accountStats d) (strategies d)
    (strategyFilter d) (positions d) (positionStats d) x (riskAlerts d)
    (riskSettings d) (exchanges d) (notificationSettings d)
    (systemSettings d).

Definition set_riskAlerts (x : value) (d : data) : data :=
  mkData (currentPage d) (sidebarCollapsed d) (showModal d) (modalTitle d)
    (modalConfirmText d) (modalCallback d) (accountStats d) (strategies d)
    (strategyFilter d) (positions d) (positionStats d) (riskMetrics d) x
    (riskSettings d) (exchanges d) (notificationSettings d)
    (systemSettings d).

Definition set_exchanges (x : value) (d : data) : data :=
  mkData (currentPage d) (sidebarCollapsed d) (showModal d) (modalTitle d)
    (modalConfirmText d) (modalCallback d) (accountStats d) (strategies d)
    (strategyFilter d) (positions d) (positionStats d) (riskMetrics d)
    (riskAlerts d) (riskSettings d) x (notificationSettings d)
    (systemSettings d).

Definition set_notificationSettings (x : value) (d : data) : data :=
  mkData (currentPage d) (sidebarCollapsed d) (showModal d) (modalTitle d)
    (modalConfirmText d) (modalCallback d) (accountStats d) (strategies d)
    (strategyFilter d) (positions d) (positionStats d) (riskMetrics d)
    (riskAlerts d) (riskSettings d) (exchanges d) x (systemSettings d).

Definition set_systemSettings (x : value) (d : data) : data :=
  mkData (currentPage d) (sidebarCollapsed d) (showModal d) (modalTitle d)
    (modalConfirmText d) (modalCallback d) (accountStats d) (strategies d)
    (strategyFilter d) (positions d) (positionStats d) (riskMetrics d)
    (riskAlerts d) (riskSettings d) (exchanges d) (notificationSettings d) x.

Definition obj (fs : list (string * value)) : value := VObj fs.
Definition int (z : Z) : value := VNum (num_of_Z z).

(** The [data] option of the component. *)
Definition initial : data := {|
  currentPage := "dashboard";
  sidebarCollapsed := false;
  showModal := false;
  modalTitle := "";
  modalConfirmText := "确定";
  modalCallback := None;
  accountStats := obj [
    ("totalValue", int 0); ("dayChange", int 0); ("dayPnL", int 0);
    ("dayPnLPercent", int 0); ("totalPositions", int 0);
    ("availableMargin", int 0); ("riskLevel", VStr "low");
    ("leverage", int 0)];
  strategies := VArr [];
  strategyFilter := obj [
    ("type", VStr ""); ("status", VStr ""); ("search", VStr "")];
  positions := VArr [];
  positionStats := obj [
    ("totalValue", int 0); ("positionCount", int 0);
    ("unrealizedPnL", int 0); ("unrealizedPnLPercent", int 0);
    ("marginUsage", int 0); ("availableMargin", int 0);
    ("riskLevel", VStr "low"); ("leverage", int 0)];
  riskMetrics := obj [
    ("overall", obj [("score", int 0); ("level", VStr "low");
                     ("updateTime", VNull)]);
    ("position", obj [("leverage", int 0); ("concentration", int 0);
                      ("volatility", int 0)]);
    ("capital", obj [("marginUsage", int 0); ("dailyLoss", int 0);
                     ("drawdown", int 0)])];
  riskAlerts := VArr [];
  riskSettings := obj [
    ("maxLossPerTrade", int 2); ("maxDailyLoss", int 5);
    ("maxLeverage", int 5); ("maxSinglePosition", int 20);
    ("drawdownAlert", int 10); ("volatilityAlert", int 3)];
  exchanges := VArr [
    obj [("id", VStr "binance"); ("name", VStr "Binance");
         ("apiKey", VStr ""); ("secretKey", VStr "");
         ("enabled", VBool false); ("status", VStr "DISCONNECTED")];
    obj [("id", VStr "okx"); ("name", VStr "OKX");
         ("apiKey", VStr ""); ("secretKey", VStr "");
         ("enabled", VBool false); ("status", VStr "DISCONNECTED")]];
  notificationSettings := obj [
    ("smtp", obj [("server", VStr ""); ("email", VStr "");
                  ("password", VStr "")]);
    ("telegram", obj [("token", VStr ""); ("chatId", VStr "")])];
  systemSettings := obj [
    ("database", obj [("type", VStr "sqlite"); ("host", VStr "localhost");
                      ("port", int 3306); ("name", VStr "trading_bot");
                      ("username", VStr ""); ("password", VStr "")]);
    ("logging", obj [("level", VStr "INFO"); ("retention", int 30);
                     ("console", VBool true)])]
|}.

(** Element [i] of an array, [undefined] past its end. *)
Definition item (a : value) (i : nat) : value :=
  match a with
  | VArr l => nth i l VUndef
  | _ => VUndef
  end.

Fixpoint replace_nth {A} (i : nat) (x : A) (l : list A) : list A :=
  match l, i with
  | [], _ => []
  | _ :: t, O => x :: t
  | h :: t, Datatypes.S j => h :: replace_nth j x t
  end.

(** The array after its element [i] has been mutated into [x]. *)
Definition with_item (a : value) (i : nat) (x : value) : value :=
  match a with
  | VArr l => VArr (replace_nth i x l)
  | _ => a
  end.

(** The interval of the timer that [mounted] starts, in milliseconds. *)
Definition poll_interval : Z := 30000.

Section Methods.
Context (E : env) {P : Platform}.

Abbreviation Act := (M data).

(** [showError] and [showSuccess] are the component's notification hooks.
    Their bodies are placeholders that write to the console; the call itself
    is recorded too. *)
Definition showError (message : string) : Act unit :=
  emit (EShowError message) ;;
  console_error message None.

Definition showSuccess (message : string) : Act unit :=
  emit (EShowSuccess message) ;;
  console_log message.

Definition closeModal : Act unit :=
  modify (set_showModal false) ;;
  modify (set_modalCallback None).

Definition toggleSidebar : Act unit :=
  d <- read ;;
  modify (set_sidebarCollapsed (negb (sidebarCollapsed d))).

(** The component declares no [updateCharts] method, so the call
    [this.updateCharts(data)] is a call of [undefined]. *)
Definition updateCharts (data : value) : Act unit := throw TypeError.

Definition loadDashboardData : Act unit :=
  try_catch
    (response <- fetch E (mk_get "/api/dashboard") ;;
     data <- json response ;;
     stats <- lift (get data "accountStats") ;;
     modify (set_accountStats stats) ;;
     updateCharts data)
    (fun error =>
       console_error "加载仪表盘数据失败:" (Some error) ;;
       showError "加载仪表盘数据失败").

Definition loadStrategies : Act unit :=
  try_catch
    (response <- fetch E (mk_get "/api/strategies") ;;
     data <- json response ;;
     l <- lift (get data "strategies") ;;
     modify (set_strategies l))
    (fun error =>
       console_error "加载策略数据失败:" (Some error) ;;
       showError "加载策略数据失败").

Definition loadPositions : Act unit :=
  try_catch
    (response <- fetch E (mk_get "/api/positions") ;;
     data <- json response ;;
     l <- lift (get data "positions") ;;
     modify (set_positions l) ;;
     s <- lift (get data "stats") ;;
     modify (set_positionStats s))
    (fun error =>
       console_error "加载持仓数据失败:" (Some error) ;;
       showError "加载持仓数据失败").

Definition loadRiskData : Act unit :=
  try_catch
    (response <- fetch E (mk_get "/api/risk/metrics") ;;
     data <- json response ;;
     m <- lift (get data "metrics") ;;
     modify (set_riskMetrics m) ;;
     a <- lift (get data "alerts") ;;
     modify (set_riskAlerts a))
    (fun error =>
       console_error "加载风控数据失败:" (Some error) ;;
       showError "加载风控数据失败").

Definition loadSettings : Act unit :=
  try_catch
    (response <- fetch E (mk_get "/api/settings") ;;
     data <- json response ;;
     e <- lift (get data "exchanges") ;;
     modify (set_exchanges e) ;;
     n <- lift (get data "notification") ;;
     modify (set_notificationSettings n) ;;
     s <- lift (get data "system") ;;
     modify (set_systemSettings s))
    (fun error =>
       console_error "加载设置失败:" (Some error) ;;
       showError "加载设置失败").

(** The [switch] has no [default]: any other page loads nothing. *)
Definition loadPageData (page : string) : Act unit :=
  if String.eqb page "dashboard" then loadDashboardData
  else if String.eqb page "strategies" then loadStrategies
  else if String.eqb page "positions" then loadPositions
  else if String.eqb page "risk" then loadRiskData
  else if String.eqb page "settings" then loadSettings
  else ret tt.

Definition changePage (page : string) : Act unit :=
  modify (set_currentPage page) ;;
  spawn (loadPageData page).

Definition toggle_action (status : value) : string :=
  if strict_eq_str status "active" then "pause" else "start".

Definition toggleStrategy (strategy : value) : Act unit :=
  try_catch
    (status <- lift (get strategy "status") ;;
     let action := toggle_action status in
     id <- lift (get strategy "id") ;;
     fetch E (mk_post ("/api/strategies/" ++ to_str id ++ "/" ++ action)) ;;
     loadStrategies)
    (fun error =>
       console_error "策略操作失败:" (Some error) ;;
       showError "策略操作失败").

Definition showNewStrategyModal : Act unit :=
  modify (set_modalTitle "新增策略") ;;
  modify (set_modalConfirmText "创建") ;;
  modify (set_showModal true) ;;
  modify (set_modalCallback (Some CreateStrategy)).

Definition createStrategy (strategyData : value) : Act unit :=
  try_catch
    (fetch E (mk_post_json "/api/strategies" strategyData) ;;
     loadStrategies ;;
     closeModal)
    (fun error =>
       console_error "创建策略失败:" (Some error) ;;
       showError "创建策略失败").

Definition closePosition (position : value) : Act unit :=
  try_catch
    (id <- lift (get position "id") ;;
     fetch E (mk_post ("/api/positions/" ++ to_str id ++ "/close")) ;;
     loadPositions)
    (fun error =>
       console_error "平仓失败:" (Some error) ;;
       showError "平仓失败").

Definition handleAlert (alert : value) : Act unit :=
  try_catch
    (id <- lift (get alert "id") ;;
     fetch E (mk_post ("/api/risk/alerts/" ++ to_str id ++ "/handle")) ;;
     loadRiskData)
    (fun error =>
       console_error "处理警报失败:" (Some error) ;;
       showError "处理警报失败").

Definition saveRiskSettings : Act unit :=
  try_catch
    (d <- read ;;
     fetch E (mk_post_json "/api/risk/settings" (riskSettings d)) ;;
     showSuccess "风控设置保存成功")
    (fun error =>
       console_error "保存风控设置失败:" (Some error) ;;
       showError "保存风控设置失败").

(** The template calls [testExchangeConnection(exchange)] with an element of
    [this.exchanges]: the argument is that very object, here its index [i],
    and the assignment to [exchange.status] is a write into the array that
    the component holds. *)
Definition testExchangeConnection (i : nat) : Act unit :=
  try_catch
    (d <- read ;;
     let exchange := item (exchanges d) i in
     id <- lift (get exchange "id") ;;
     apiKey <- lift (get exchange "apiKey") ;;
     secretKey <- lift (get exchange "secretKey") ;;
     response <- fetch E (mk_post_json
                   ("/api/exchanges/" ++ to_str id ++ "/test")
                   (VObj [("apiKey", apiKey); ("secretKey", secretKey)])) ;;
     data <- json response ;;
     status <- lift (get data "status") ;;
     exchange' <- lift (set exchange "status" status) ;;
     modify (fun d => set_exchanges (with_item (exchanges d) i exchange') d) ;;
     name <- lift (get exchange' "name") ;;
     showSuccess (to_str name ++ " 连接测试" ++
                  (if strict_eq_str status "CONNECTED" then "成功" else "失败")))
    (fun error =>
       console_error "测试连接失败:" (Some error) ;;
       showError "测试连接失败").

Definition saveSettings : Act unit :=
  try_catch
    (d <- read ;;
     fetch E (mk_post_json "/api/settings"
                (VObj [("exchanges", exchanges d);
                       ("notification", notificationSettings d);
                       ("system", systemSettings d)])) ;;
     showSuccess "设置保存成功")
    (fun error =>
       console_error "保存设置失败:" (Some error) ;;
       showError "保存设置失败").

(** The formatting helpers.  They are methods like the others; none of them
    reads or writes the component. *)
Definition formatMoney (value : number) : Act string :=
  ret (Intl.format Intl.CurrencyUSD value).

Definition formatPercent (value : number) : Act string :=
  ret (Intl.format Intl.Percent value).

Definition formatNumber (value : number) : Act string :=
  ret (Intl.format Intl.Decimal value).

Definition getRiskClass (value : number) : Act string :=
  if num_ltb value (num_lit 5 10) then ret "low-risk"
  else if num_ltb value (num_lit 8 10) then ret "medium-risk"
  else ret "high-risk".

(** One firing of the timer of [mounted]. *)
Definition tick : Act unit :=
  d <- read ;;
  spawn (loadPageData (currentPage d)).

(** [mounted], up to the start of the timer. *)
Definition mounted : Act unit :=
  spawn (loadPageData "dashboard").

End Methods.

(** ** The computed property *)

(** [String.prototype.toLowerCase], which the platform defines on all of
    Unicode. *)
Class Casing : Type := {
  to_lower_case : string -> string
}.

(** [a.filter(f)] for a callback that may throw. *)
Fixpoint filterM {S A} (f : A -> M S bool) (l : list A) : M S (list A) :=
  match l with
  | [] => ret []
  | x :: t =>
      keep <- f x ;;
      rest <- filterM f t ;;
      ret (if keep then x :: rest else rest)
  end.

(** [v.filter]: only an array has it. *)
Definition items_of (v : value) : result (list value) :=
  match v with
  | VArr l => Ok l
  | _ => Throw TypeError
  end.

(** [s.includes(t)] *)
Fixpoint includes (s t : string) : bool :=
  String.prefix t s ||
  match s with
  | EmptyString => false
  | String _ s' => includes s' t
  end.

Section Computed.
Context {C : Casing}.

(** [v.toLowerCase()]: only a string has it. *)
Definition lower (v : value) : result string :=
  match v with
  | VStr s => Ok (to_lower_case s)
  | _ => Throw TypeError
  end.

(** The callback of [filteredStrategies], for one strategy of the list. *)
Definition keeps_strategy (strategy : value) : M data bool :=
  d <- read ;;
  wanted_type <- lift (get (strategyFilter d) "type") ;;
  other_type <-
    (if truthy wanted_type
     then type <- lift (get strategy "type") ;;
          ret (negb (strict_eq type wanted_type))
     else ret false) ;;
  if other_type then ret false
  else
    wanted_status <- lift (get (strategyFilter d) "status") ;;
    other_status <-
      (if truthy wanted_status
       then status <- lift (get strategy "status") ;;
            ret (negb (strict_eq status wanted_status))
       else ret false) ;;
    if other_status then ret false
    else
      search <- lift (get (strategyFilter d) "search") ;;
      if truthy search then
        searchTerm <- lift (lower search) ;;
        name <- lift (get strategy "name") ;;
        lowered <- lift (lower name) ;;
        ret (includes lowered searchTerm)
      else ret true.

Definition filteredStrategies : M data value :=
  d <- read ;;
  items <- lift (items_of (strategies d)) ;;
  kept <- filterM keeps_strategy items ;;
  ret (VArr kept).

End Computed.

End Vue.

(* ================================================================== *)
(** * The plain-DOM dashboard ([dashboard.js]) *)
(* ================================================================== *)

Module Dash.

(** ** The document *)

(** An element, as far as the script can tell elements apart: its tag,
    whether it stands inside [nav], its [id] and [href] attributes, its class
    tokens, and its content ([innerHTML] or [textContent], kept as text: the
    markup that the script writes is not parsed back into elements). *)
Record elem : Type := mkElem {
  el_tag : string;
  el_in_nav : bool;
  el_id : option string;
  el_href : option string;
  el_classes : list string;
  el_content : string
}.

Definition with_classes (cs : list string) (e : elem) : elem :=
  mkElem (el_tag e) (el_in_nav e) (el_id e) (el_href e) cs (el_content e).

Definition with_content (c : string) (e : elem) : elem :=
  mkElem (el_tag e) (el_in_nav e) (el_id e) (el_href e) (el_classes e) c.

Definition opt_eqb (o : option string) (s : string) : bool :=
  match o with Some x => String.eqb x s | None => false end.

Definition has_id (id : string) (e : elem) : bool := opt_eqb (el_id e) id.

Definition has_class (c : string) (e : elem) : bool :=
  existsb (String.eqb c) (el_classes e).

(** [e.classList.add(c)] and [e.classList.remove(c)] *)
Definition add_class (c : string) (e : elem) : elem :=
  if has_class c e then e else with_classes (el_classes e ++ [c])%list e.

Definition remove_class (c : string) (e : elem) : elem :=
  with_classes (filter (fun x => negb (String.eqb c x)) (el_classes e)) e.

(** The selectors of the script. *)
Definition is_panel (e : elem) : bool := has_class "panel" e.

Definition is_nav_link (e : elem) : bool :=
  String.eqb (el_tag e) "a" && el_in_nav e.

(** [nav a[href="#panelId"]], for a [panelId] that the quoted value of the
    selector can hold (no double quote, no backslash). *)
Definition is_nav_link_to (panelId : string) (e : elem) : bool :=
  is_nav_link e && opt_eqb (el_href e) ("#" ++ panelId).

(** [querySelectorAll(sel).forEach(f)] for an [f] that edits the element. *)
Definition for_each (sel : elem -> bool) (f : elem -> elem)
  (doc : list elem) : list elem :=
  map (fun e => if sel e then f e else e) doc.

(** The first element that [sel] selects, edited by [f]; [None] when there is
    none, where [getElementById] and [querySelector] return [null]. *)
Fixpoint edit_first (sel : elem -> bool) (f : elem -> elem)
  (doc : list elem) : option (list elem) :=
  match doc with
  | [] => None
  | e :: t =>
      if sel e then Some (f e :: t)
      else option_map (cons e) (edit_first sel f t)
  end.

Definition first_of (sel : elem -> bool) (doc : list elem) : option elem :=
  find sel doc.

(** The place of the first element that [sel] selects: the node that
    [querySelector] hands out, which stays the same node whatever is done to
    the classes afterwards. *)
Fixpoint place_of (sel : elem -> bool) (doc : list elem) : option nat :=
  match doc with
  | [] => None
  | e :: t =>
      if sel e then Some O else option_map Datatypes.S (place_of sel t)
  end.

Fixpoint edit_at (i : nat) (f : elem -> elem) (doc : list elem)
  : list elem :=
  match doc, i with
  | [], _ => []
  | e :: t, O => f e :: t
  | e :: t, Datatypes.S j => e :: edit_at j f t
  end.

(** ** The state of the script *)

(** A chart of Chart.js: [chart.data.labels] and
    [chart.data.datasets[0].data]. *)
Record chart : Type := mkChart {
  labels : list value;
  points : list value
}.

(** The globals [charts], [configData] and [updateInterval] (the timer, kept
    as its period), and the document. *)
Record state : Type := mkState {
  doc : list elem;
  chart_equity : option chart;
  chart_pnl : option chart;
  configData : value;
  updateInterval : option Z
}.

Definition set_doc (x : list elem) (s : state) : state :=
  mkState x (chart_equity s) (chart_pnl s) (configData s) (updateInterval s).
Definition set_chart_equity (x : option chart) (s : state) : state :=
  mkState (doc s) x (chart_pnl s) (configData s) (updateInterval s).
Definition set_chart_pnl (x : option chart) (s : state) : state :=
  mkState (doc s) (chart_equity s) x (configData s) (updateInterval s).
Definition set_configData (x : value) (s : state) : state :=
  mkState (doc s) (chart_equity s) (chart_pnl s) x (updateInterval s).
Definition set_updateInterval (x : option Z) (s : state) : state :=
  mkState (doc s) (chart_equity s) (chart_pnl s) (configData s) x.

(** The page that loads the script ([bot_cl3/web/templates/index.html]): the
    elements that the script selects, in document order. *)
Definition nav_link (href : string) (cs : list string) : elem :=
  mkElem "a" true None (Some href) cs "".

Definition by_id (tag id : string) (cs : list string) (c : string) : elem :=
  mkElem tag false (Some id) None cs c.

Definition page : list elem := [
  nav_link "#overview" ["active"];
  nav_link "#strategies" [];
  nav_link "#positions" [];
  nav_link "#config" [];
  mkElem "span" false None None ["status-dot"; "${bot_status}"] "";
  mkElem "span" false None None ["status-text"] "状态: ${bot_status}";
  by_id "section" "overview" ["panel"; "active"] "";
  by_id "div" "total-equity" ["stat-value"] "加载中...";
  by_id "div" "daily-pnl" ["stat-value"] "加载中...";
  by_id "div" "max-drawdown" ["stat-value"] "加载中...";
  by_id "div" "active-positions" ["stat-value"] "加载中...";
  by_id "canvas" "equity-chart" [] "";
  by_id "canvas" "pnl-chart" [] "";
  by_id "section" "strategies" ["panel"] "";
  by_id "div" "strategies-container" ["strategies-grid"] "";
  by_id "section" "positions" ["panel"] "";
  by_id "tbody" "positions-body" [] "";
  by_id "section" "config" ["panel"] "";
  by_id "button" "save-config" ["btn"; "btn-primary"] "保存配置";
  by_id "button" "reset-config" ["btn"; "btn-secondary"] "重置配置";
  by_id "div" "config-form" ["config-form"] ""
].

(** The script before any of it has run: [charts = {}], [configData = {}],
    no timer. *)
Definition initial : state := mkState page None None (VObj []) None.

(** The period of the update loop, in milliseconds. *)
Definition update_period : Z := 5000.

(** ** Text *)

Definition dq : string := String (ascii_of_nat 34) EmptyString.
Definition nl : string := String (ascii_of_nat 10) EmptyString.

Definition is_space (c : ascii) : bool :=
  let n := nat_of_ascii c in
  Nat.eqb n 32 || Nat.eqb n 9 || Nat.eqb n 10 || Nat.eqb n 12 || Nat.eqb n 13.

(** The class tokens of a [className] string. *)
Fixpoint tokens_from (cur : string) (s : string) : list string :=
  match s with
  | EmptyString => if String.eqb cur "" then [] else [cur]
  | String c t =>
      if is_space c then
        if String.eqb cur "" then tokens_from "" t
        else cur :: tokens_from "" t
      else tokens_from (cur ++ String c EmptyString) t
  end.

Definition tokens (s : string) : list string := tokens_from "" s.

(** [s.split('T')[0]]: the text before the first [T], all of it when there
    is none. *)
Fixpoint before_T (s : string) : string :=
  match s with
  | EmptyString => EmptyString
  | String c t => if Ascii.eqb c "T" then EmptyString else String c (before_T t)
  end.

(** [key.replace(/_/g, ' ')] *)
Fixpoint underscores_to_spaces (s : string) : string :=
  match s with
  | EmptyString => EmptyString
  | String c t =>
      String (if Ascii.eqb c "_" then " "%char else c) (underscores_to_spaces t)
  end.

Fixpoint mapM {S A B} (f : A -> M S B) (l : list A) : M S (list B) :=
  match l with
  | [] => ret []
  | x :: t => y <- f x ;; ys <- mapM f t ;; ret (y :: ys)
  end.

Fixpoint foldM {S A B} (f : B -> A -> M S B) (l : list A) (b : B) : M S B :=
  match l with
  | [] => ret b
  | x :: t => b' <- f b x ;; foldM f t b'
  end.

(** [v.map], [v.forEach]: only an array has them. *)
Definition as_array (v : value) : result (list value) :=
  match v with
  | VArr l => Ok l
  | _ => Throw TypeError
  end.

(** [trade.time.split]: only a string has it. *)
Definition as_string (v : value) : result string :=
  match v with
  | VStr s => Ok s
  | _ => Throw TypeError
  end.

(** ** Own keys of an object used as a map *)

Definition digit_of (c : ascii) : option N :=
  let n := N_of_ascii c in
  if ((48 <=? n) && (n <=? 57))%N then Some (n - 48)%N else None.

Fixpoint decimal_from (acc : N) (s : string) : option N :=
  match s with
  | EmptyString => Some acc
  | String c t =>
      match digit_of c with
      | Some d => decimal_from (10 * acc + d)%N t
      | None => None
      end
  end.

(** The array index that a key spells, if it spells one: a decimal numeral
    without a leading zero, below [2^32 - 1]. *)
Definition array_index (k : string) : option N :=
  match k with
  | EmptyString => None
  | String c t =>
      if Ascii.eqb c "0" && negb (String.eqb t "") then None
      else match decimal_from 0 k with
           | Some n => if (n <? 4294967295)%N then Some n else None
           | None => None
           end
  end.

Definition is_index (kv : string * value) : bool :=
  match array_index (fst kv) with Some _ => true | None => false end.

Definition index_of (kv : string * value) : N :=
  match array_index (fst kv) with Some n => n | None => 0%N end.

Fixpoint insert_by_index (kv : string * value) (l : list (string * value))
  : list (string * value) :=
  match l with
  | [] => [kv]
  | h :: t =>
      if (index_of kv <=? index_of h)%N then kv :: h :: t
      else h :: insert_by_index kv t
  end.

Definition sort_by_index (l : list (string * value)) : list (string * value) :=
  fold_right insert_by_index [] l.

(** The own properties in the order of [Object.keys], [Object.values] and
    [Object.entries]: array indices ascending, then the other keys as they
    were created. *)
Definition own_entries (fs : list (string * value)) : list (string * value) :=
  (sort_by_index (filter is_index fs) ++
   filter (fun kv => negb (is_index kv)) fs)%list.

Definition object_keys (fs : list (string * value)) : list string :=
  map fst (own_entries fs).

Definition object_values (fs : list (string * value)) : list value :=
  map snd (own_entries fs).

(** ** [JSON.stringify] *)

(** The value that the text of [JSON.stringify(v)] spells, with the
    properties of every object in the order of the text.  A number that is
    not finite is written as [null] and the negative zero as [0]; the
    properties of an object are written in the order of [Object.keys],
    those that are [undefined] left out; an item of an array that is
    [undefined] is written as [null]. *)
Fixpoint as_json (v : value) : value :=
  match v with
  | VNum (S754_finite _ _ _) => v
  | VNum (S754_zero _) => VNum (S754_zero false)
  | VNum _ => VNull
  | VArr items =>
      VArr (map (fun x => match x with
                          | VUndef => VNull
                          | _ => as_json x
                          end) items)
  | VObj fs =>
      VObj (own_entries
              (filter (fun kv => match snd kv with
                                 | VUndef => false
                                 | _ => true
                                 end)
                      (map (fun kv => (fst kv, as_json (snd kv))) fs)))
  | _ => v
  end.

(** What an object inherits from [Object.prototype], for the keys the script
    reads off an object that it uses as a map: the text that the inherited
    member converts to, [None] for a key that [Object.prototype] does not
    have. *)
Class Prototype : Type := {
  inherited_text : string -> option string
}.

(** ** The inputs of the configuration form *)

(** An [input] element as the browser holds it when the form is read: its
    [id], its [type], and what the user has left in it. *)
Record input : Type := mkInput {
  in_id : string;
  in_type : string;
  in_checked : bool;
  in_value : string
}.

(** [s.split('.')] *)
Fixpoint split_dots (s : string) : list string :=
  match s with
  | EmptyString => [""]
  | String c t =>
      if Ascii.eqb c "." then "" :: split_dots t
      else match split_dots t with
           | h :: r => String c h :: r
           | [] => [String c ""]
           end
  end.

Section Script.
Context (E : env) {P : Platform} {OP : Prototype}.

Abbreviation Act := (M state).

Definition num_mul : number -> number -> number := SFmul prec emax.
Definition zero : number := num_of_Z 0.

(** What a [textContent] setter shows for a value: nothing for [null] and
    [undefined]. *)
Definition text_of (v : value) : string :=
  match v with
  | VUndef | VNull => ""
  | _ => to_str v
  end.

(** [document.getElementById(id).innerHTML = html] (or [textContent]); a
    missing element is [null], whose property cannot be set. *)
Definition set_content (id : string) (c : string) : Act unit :=
  s <- read ;;
  match edit_first (has_id id) (with_content c) (doc s) with
  | Some d => modify (set_doc d)
  | None => throw TypeError
  end.

Definition edit_selected (sel : elem -> bool) (f : elem -> elem) : Act unit :=
  s <- read ;;
  match edit_first sel f (doc s) with
  | Some d => modify (set_doc d)
  | None => throw TypeError
  end.

(** [const node = document.querySelector(sel)], and a later write to a
    property of [node]; writing to [null] throws. *)
Definition query (sel : elem -> bool) : Act (option nat) :=
  s <- read ;;
  ret (place_of sel (doc s)).

Definition edit_node (node : option nat) (f : elem -> elem) : Act unit :=
  match node with
  | Some i => modify (fun s => set_doc (edit_at i f (doc s)) s)
  | None => throw TypeError
  end.

(** [showNotification]: a [div] with the classes [notification] and [type]
    is appended to the body and removed by a timer a little later.  It is
    kept in the trace; the document of the model holds the page's own
    elements only. *)
Definition showNotification (message type : string) : Act unit :=
  emit (ENotify message type).

(** *** Strategies *)

Definition strategy_card
  (name checked description successful_trades total_profit : string)
  : string :=
  String.concat "" [
    nl; "            <div class="; dq; "strategy-card"; dq; ">"; nl;
    "                <div class="; dq; "strategy-header"; dq; ">"; nl;
    "                    <h3>"; name; "</h3>"; nl;
    "                    <label class="; dq; "switch"; dq; ">"; nl;
    "                        <input type="; dq; "checkbox"; dq; " "; checked; nl;
    "                               onchange="; dq; "toggleStrategy('"; name;
    "')"; dq; ">"; nl;
    "                        <span class="; dq; "slider"; dq; "></span>"; nl;
    "                    </label>"; nl;
    "                </div>"; nl;
    "                <p>"; description; "</p>"; nl;
    "                <div class="; dq; "strategy-stats"; dq; ">"; nl;
    "                    <div>成功交易: "; successful_trades; "</div>"; nl;
    "                    <div>总收益: "; total_profit; "</div>"; nl;
    "                </div>"; nl;
    "            </div>"; nl;
    "        "
  ].

Definition render_strategy (strategy : value) : Act string :=
  name <- lift (get strategy "name") ;;
  is_active <- lift (get strategy "is_active") ;;
  description <- lift (get strategy "description") ;;
  performance <- lift (get strategy "performance") ;;
  successful_trades <- lift (get performance "successful_trades") ;;
  total_profit <- lift (get performance "total_profit") ;;
  ret (strategy_card (to_str name)
         (if truthy is_active then "checked" else "")
         (to_str description) (to_str successful_trades)
         (to_str total_profit)).

Definition loadStrategies : Act unit :=
  try_catch
    (response <- fetch E (mk_get "/api/strategy/list") ;;
     strategies <- json response ;;
     items <- lift (as_array strategies) ;;
     cards <- mapM render_strategy items ;;
     set_content "strategies-container" (String.concat "" cards))
    (fun error => console_error "加载策略失败:" (Some error)).

(** *** Configuration *)

Definition config_checkbox (fieldId fieldName checked : string) : string :=
  String.concat "" [
    nl; "            <div class="; dq; "config-field"; dq; ">"; nl;
    "                <label for="; dq; fieldId; dq; ">"; fieldName;
    "</label>"; nl;
    "                <input type="; dq; "checkbox"; dq; " id="; dq; fieldId;
    dq; " "; checked; ">"; nl;
    "            </div>"; nl;
    "        "
  ].

Definition config_number (fieldId fieldName shown : string) : string :=
  String.concat "" [
    nl; "            <div class="; dq; "config-field"; dq; ">"; nl;
    "                <label for="; dq; fieldId; dq; ">"; fieldName;
    "</label>"; nl;
    "                <input type="; dq; "number"; dq; " id="; dq; fieldId; dq;
    " value="; dq; shown; dq; ">"; nl;
    "            </div>"; nl;
    "        "
  ].

Definition config_text (fieldId fieldName shown : string) : string :=
  String.concat "" [
    nl; "            <div class="; dq; "config-field"; dq; ">"; nl;
    "                <label for="; dq; fieldId; dq; ">"; fieldName;
    "</label>"; nl;
    "                <input type="; dq; "text"; dq; " id="; dq; fieldId; dq;
    " value="; dq; shown; dq; ">"; nl;
    "            </div>"; nl;
    "        "
  ].

Definition renderConfigField (key : string) (v : value) (prefix : string)
  : string :=
  let fieldId :=
    if String.eqb prefix "" then key else prefix ++ "." ++ key in
  let fieldName := underscores_to_spaces key in
  match v with
  | VBool b => config_checkbox fieldId fieldName (if b then "checked" else "")
  | VNum _ => config_number fieldId fieldName (to_str v)
  | _ => config_text fieldId fieldName (to_str v)
  end.

(** [typeof value === 'object'] *)
Definition is_object (v : value) : bool :=
  match v with
  | VNull | VArr _ | VObj _ => true
  | _ => false
  end.

(** [Object.entries(config)] *)
Definition indexed {A} (f : A -> value) (l : list A) : list (string * value) :=
  map (fun p => (NilZero.string_of_uint (Nat.to_uint (fst p)), f (snd p)))
      (combine (seq 0 (List.length l)) l).

Definition object_entries (config : value) : result (list (string * value)) :=
  match config with
  | VUndef | VNull => Throw TypeError
  | VObj fs => Ok (own_entries fs)
  | VArr l => Ok (indexed (fun v => v) l)
  | VStr s =>
      Ok (indexed (fun c => VStr (String c EmptyString))
                  (list_ascii_of_string s))
  | VBool _ | VNum _ => Ok []
  end.

Definition append_content (id : string) (c : string) : Act unit :=
  edit_selected (has_id id) (fun e => with_content (el_content e ++ c) e).

(** The script calls [renderConfigSection] for a value that is an object,
    and defines no such function: the call throws before the section is
    appended. *)
Definition renderConfigForm (config : value) : Act unit :=
  set_content "config-form" "" ;;
  entries <- lift (object_entries config) ;;
  foldM (fun _ kv =>
           if is_object (snd kv) then throw ReferenceError
           else append_content "config-form"
                  (renderConfigField (fst kv) (snd kv) ""))
        entries tt.

Definition loadConfig : Act unit :=
  try_catch
    (response <- fetch E (mk_get "/api/config") ;;
     config <- json response ;;
     modify (set_configData config) ;;
     renderConfigForm config)
    (fun error => console_error "加载配置失败:" (Some error)).

(** *** Overview *)

Definition updateOverview : Act unit :=
  try_catch
    (response <- fetch E (mk_get "/api/monitor/overview") ;;
     data <- json response ;;
     total_equity <- lift (get data "total_equity") ;;
     okx <- lift (get total_equity "okx") ;;
     binance <- lift (get total_equity "binance") ;;
     set_content "total-equity"
       (number_to_string (num_add (parseFloat okx) (parseFloat binance))
        ++ " USDT") ;;
     daily_pnl <- lift (get data "daily_pnl") ;;
     set_content "daily-pnl" (to_fixed (parseFloat daily_pnl) 2 ++ " USDT") ;;
     max_drawdown <- lift (get data "max_drawdown") ;;
     set_content "max-drawdown"
       (to_fixed (num_mul (parseFloat max_drawdown) (num_of_Z 100)) 2
        ++ "%") ;;
     active_positions <- lift (get data "active_positions") ;;
     set_content "active-positions" (text_of active_positions) ;;
     statusDot <- query (has_class "status-dot") ;;
     statusText <- query (has_class "status-text") ;;
     status <- lift (get data "status") ;;
     edit_node statusDot
       (with_classes (tokens ("status-dot " ++ to_str status))) ;;
     edit_node statusText
       (with_content
          ("状态: " ++
           (if strict_eq_str status "running" then "运行中" else "已停止"))))
    (fun error => console_error "更新总览数据失败:" (Some error)).

(** *** Positions *)

Definition position_row
  (exchange symbol side_class side amount entry_price current_price
   pnl_class pnl : string) : string :=
  String.concat "" [
    nl; "            <tr>"; nl;
    "                <td>"; exchange; "</td>"; nl;
    "                <td>"; symbol; "</td>"; nl;
    "                <td class="; dq; side_class; dq; ">"; nl;
    "                    "; side; nl;
    "                </td>"; nl;
    "                <td>"; amount; "</td>"; nl;
    "                <td>"; entry_price; "</td>"; nl;
    "                <td>"; current_price; "</td>"; nl;
    "                <td class="; dq; pnl_class; dq; ">"; nl;
    "                    "; pnl; nl;
    "                </td>"; nl;
    "                <td>"; nl;
    "                    <button class="; dq; "btn btn-danger btn-sm"; dq;
    " "; nl;
    "                            onclick="; dq; "closePosition('"; exchange;
    "', '"; symbol; "')"; dq; ">"; nl;
    "                        平仓"; nl;
    "                    </button>"; nl;
    "                </td>"; nl;
    "            </tr>"; nl;
    "        "
  ].

(** [x >= 0] *)
Definition num_geb_zero (x : number) : bool := SFleb zero x.

Definition render_position (pos : value) : Act string :=
  exchange <- lift (get pos "exchange") ;;
  symbol <- lift (get pos "symbol") ;;
  side <- lift (get pos "side") ;;
  amount <- lift (get pos "amount") ;;
  entry_price <- lift (get pos "entry_price") ;;
  current_price <- lift (get pos "current_price") ;;
  pnl <- lift (get pos "pnl") ;;
  ret (position_row (to_str exchange) (to_str symbol)
         (if strict_eq_str side "long" then "text-success" else "text-danger")
         (to_str side)
         (to_fixed (parseFloat amount) 4)
         (to_fixed (parseFloat entry_price) 2)
         (to_fixed (parseFloat current_price) 2)
         (if num_geb_zero (parseFloat pnl)
          then "text-success" else "text-danger")
         (to_fixed (parseFloat pnl) 2)).

Definition updatePositions : Act unit :=
  try_catch
    (response <- fetch E (mk_get "/api/monitor/positions") ;;
     positions <- json response ;;
     items <- lift (as_array positions) ;;
     rows <- mapM render_position items ;;
     set_content "positions-body" (String.concat "" rows))
    (fun error => console_error "更新持仓数据失败:" (Some error)).

(** *** Charts *)

(** The canvas that [getElementById(id).getContext('2d')] needs. *)
Definition canvas_context (id : string) : Act unit :=
  s <- read ;;
  match first_of (has_id id) (doc s) with
  | Some e => if String.eqb (el_tag e) "canvas" then ret tt else throw TypeError
  | None => throw TypeError
  end.

Definition initializeCharts : Act unit :=
  canvas_context "equity-chart" ;;
  canvas_context "pnl-chart" ;;
  modify (set_chart_equity (Some (mkChart [] []))) ;;
  modify (set_chart_pnl (Some (mkChart [] []))).

Definition updateEquityChart (equityHistory : value) : Act unit :=
  s <- read ;;
  match chart_equity s with
  | Some _ =>
      if truthy equityHistory then
        items <- lift (as_array equityHistory) ;;
        times <- mapM (fun item => lift (get item "time")) items ;;
        equities <- mapM (fun item => lift (get item "equity")) items ;;
        modify (set_chart_equity (Some (mkChart times equities))) ;;
        emit (EChartUpdate "equity")
      else ret tt
  | None => ret tt
  end.

(** [(v || 0) + p] for an entry [v] of the map and a number [p]. *)
Definition or_zero (v : value) : value :=
  if truthy v then v else VNum zero.

Definition plus_number (v : value) (p : number) : value :=
  match v with
  | VNum n => VNum (num_add n p)
  | _ => VStr (to_str v ++ number_to_string p)
  end.

(** [dailyPnl[date] = (dailyPnl[date] || 0) + p].  A date that the map does
    not hold yet reads as [undefined], unless [Object.prototype] has a member
    of that name: the member is truthy and [+] appends the number to its
    text.  Writing a string to [__proto__] changes nothing. *)
Definition accumulate (dailyPnl : list (string * value)) (date : string)
  (p : number) : list (string * value) :=
  match lookup date dailyPnl with
  | Some v => assign date (plus_number (or_zero v) p) dailyPnl
  | None =>
      match inherited_text date with
      | None => assign date (VNum (num_add zero p)) dailyPnl
      | Some txt =>
          if String.eqb date "__proto__" then dailyPnl
          else assign date (VStr (txt ++ number_to_string p)) dailyPnl
      end
  end.

(** One round of [trades.forEach]. *)
Definition add_trade (dailyPnl : list (string * value)) (trade : value)
  : result (list (string * value)) :=
  match get trade "time" with
  | Throw e => Throw e
  | Ok time =>
      match as_string time with
      | Throw e => Throw e
      | Ok t =>
          match get trade "profit" with
          | Throw e => Throw e
          | Ok profit =>
              Ok (accumulate dailyPnl (before_T t) (parseFloat profit))
          end
      end
  end.

Fixpoint daily_pnl (trades : list value) (dailyPnl : list (string * value))
  : result (list (string * value)) :=
  match trades with
  | [] => Ok dailyPnl
  | trade :: rest =>
      match add_trade dailyPnl trade with
      | Ok d => daily_pnl rest d
      | Throw e => Throw e
      end
  end.

Definition updatePnlChart (trades : value) : Act unit :=
  s <- read ;;
  match chart_pnl s with
  | Some _ =>
      if truthy trades then
        items <- lift (as_array trades) ;;
        dailyPnl <- lift (daily_pnl items []) ;;
        modify (set_chart_pnl
                  (Some (mkChart (map VStr (object_keys dailyPnl))
                                 (object_values dailyPnl)))) ;;
        emit (EChartUpdate "pnl")
      else ret tt
  | None => ret tt
  end.

Definition updateCharts : Act unit :=
  try_catch
    (performanceResponse <- fetch E (mk_get "/api/monitor/performance") ;;
     performanceData <- json performanceResponse ;;
     tradesResponse <- fetch E (mk_get "/api/monitor/trades") ;;
     tradesData <- json tradesResponse ;;
     equity_history <- lift (get performanceData "equity_history") ;;
     updateEquityChart equity_history ;;
     updatePnlChart tradesData)
    (fun error => console_error "更新图表失败:" (Some error)).

(** *** Actions *)

Definition toggleStrategy (strategyName : string) : Act unit :=
  try_catch
    (response <- fetch E (mk_post
                   ("/api/strategy/" ++ strategyName ++ "/toggle")) ;;
     result <- json response ;;
     is_active <- lift (get result "is_active") ;;
     (if truthy is_active
      then showNotification (strategyName ++ " 策略已启用") "success"
      else showNotification (strategyName ++ " 策略已禁用") "warning") ;;
     loadStrategies)
    (fun error =>
       console_error "切换策略状态失败:" (Some error) ;;
       showNotification "操作失败，请重试" "error").

Definition resetConfig : Act unit :=
  ok <- confirm E "确定要重置所有配置吗？此操作不可撤销。" ;;
  if ok then
    try_catch
      (response <- fetch E (mk_post "/api/config/reset") ;;
       result <- json response ;;
       loadConfig ;;
       showNotification "配置已重置为默认值" "success")
      (fun error =>
         console_error "重置配置失败:" (Some error) ;;
         showNotification "重置配置失败，请重试" "error")
  else ret tt.

Definition switchPanel (panelId : string) : Act unit :=
  modify (fun s =>
            set_doc (for_each is_panel (remove_class "active") (doc s)) s) ;;
  modify (fun s =>
            set_doc (for_each is_nav_link (remove_class "active") (doc s))
                    s) ;;
  edit_selected (has_id panelId) (add_class "active") ;;
  edit_selected (is_nav_link_to panelId) (add_class "active").

(** The click on a link of the navigation, as [setupEventListeners] wires
    it: the panel is named by the link's [href] without its first
    character. *)
Definition nav_click (link : elem) : Act unit :=
  match el_href link with
  | Some href =>
      switchPanel (String.substring 1 (String.length href - 1) href)
  | None => throw TypeError
  end.

Definition closePosition (exchange symbol : string) : Act unit :=
  ok <- confirm E ("确定要平掉 " ++ exchange ++ " 的 " ++ symbol ++ " 仓位吗？") ;;
  if ok then
    try_catch
      (response <- fetch E (mk_post_json "/api/monitor/close-position"
                     (VObj [("exchange", VStr exchange);
                            ("symbol", VStr symbol)])) ;;
       result <- json response ;;
       status <- lift (get result "status") ;;
       if strict_eq_str status "success" then
         showNotification "平仓成功" "success" ;;
         updatePositions
       else
         message <- lift (get result "message") ;;
         showNotification ("平仓失败: " ++ to_str message) "error")
      (fun error =>
         console_error "平仓操作失败:" (Some error) ;;
         showNotification "平仓操作失败，请重试" "error")
  else ret tt.

(** *** Start-up and the update loop *)

(** [Promise.all] over five calls: each call is made, in this order, before
    any of them is awaited, so a failure of one does not stop the others;
    the promise of [initializeDashboard] rejects when one of them rejects. *)
Definition initializeDashboard : Act unit :=
  fun w =>
    let '(r, w1) := initializeCharts w in
    let w2 := snd (loadStrategies w1) in
    let w3 := snd (loadConfig w2) in
    let w4 := snd (updateOverview w3) in
    let w5 := snd (updatePositions w4) in
    (r, w5).

(** One firing of the timer of [startDataUpdates]. *)
Definition tick : Act unit :=
  spawn updateOverview ;;
  spawn updatePositions ;;
  spawn updateCharts.

Definition startDataUpdates : Act unit :=
  modify (set_updateInterval (Some update_period)).

(** *** Saving the configuration *)

(** The value that [saveConfig] takes from an input, by its [type]. *)
Definition input_value (i : input) : value :=
  if String.eqb (in_type i) "checkbox" then VBool (in_checked i)
  else if String.eqb (in_type i) "number"
       then VNum (parse_float_string (in_value i))
       else VStr (in_value i).

(** [current[k] = value] for a value that is no object.  Assigning to
    [__proto__], which an object inherits as an accessor, changes nothing
    then; any other key becomes, or stays, an own property. *)
Definition write (k : string) (v : value) (current : list (string * value))
  : list (string * value) :=
  match lookup k current, inherited_text k with
  | None, Some _ =>
      if String.eqb k "__proto__" then current else assign k v current
  | _, _ => assign k v current
  end.

(** One round of the [forEach] of [saveConfig], from the object [current]:
    the loop that walks down the path, putting an empty object wherever the
    key holds nothing truthy, and the assignment at the end of the path.
    The walk goes on into objects only.  Where the script would go on with
    something else as [current], a number, a string or [true] stored by an
    earlier input, or a member that objects inherit, the model stops with
    [None]. *)
Fixpoint put (path : list string) (v : value)
  (current : list (string * value)) : option (list (string * value)) :=
  match path with
  | [] => Some current
  | k :: rest =>
      match rest with
      | [] => Some (write k v current)
      | _ :: _ =>
          let into inner :=
            option_map (fun inner' => assign k (VObj inner') current)
                       (put rest v inner) in
          match lookup k current with
          | Some (VObj inner) => into inner
          | Some x => if truthy x then None else into []
          | None =>
              match inherited_text k with
              | Some _ => None
              | None => into []
              end
          end
      end
  end.

Definition collect (formData : option (list (string * value))) (i : input)
  : option (list (string * value)) :=
  match formData with
  | Some current => put (split_dots (in_id i)) (input_value i) current
  | None => None
  end.

(** [formData] once the [forEach] is through with the inputs of the form:
    the properties in the order in which they were created, which is not
    always the order in which [Object.keys] and [JSON.stringify] go
    through them (see [own_entries] and [as_json]). *)
Definition form_data (inputs : list input)
  : option (list (string * value)) :=
  fold_left collect inputs (Some []).

(** [saveConfig] from the point where [formData] is complete, with what
    is sent as the body.  The form is looked up first; without it there is
    nothing to go through. *)
Definition send_config (formData : value) : Act unit :=
  try_catch
    (s <- read ;;
     match first_of (has_id "config-form") (doc s) with
     | None => throw TypeError
     | Some _ =>
         response <- fetch E (mk_post_json "/api/config/update" formData) ;;
         result <- json response ;;
         showNotification "配置保存成功" "success"
     end)
    (fun error =>
       console_error "保存配置失败:" (Some error) ;;
       showNotification "保存配置失败，请重试" "error").

(** [saveConfig], for the inputs that [form.querySelectorAll('input')]
    finds, in document order.  [formData] holds its properties in the order
    in which the loop has created them; the body of the request is what
    [JSON.stringify] writes of it. *)
Definition saveConfig (inputs : list input) : option (Act unit) :=
  option_map (fun formData => send_config (as_json (VObj formData)))
             (form_data inputs).

(** *** Wiring *)

(** What a click can be wired to. *)
Inductive handler : Type :=
| OnNavClick
| OnSaveConfig
| OnResetConfig.

(** The places of the elements that [sel] selects. *)
Fixpoint places_from (n : nat) (sel : elem -> bool) (d : list elem)
  : list nat :=
  match d with
  | [] => []
  | e :: t =>
      if sel e then n :: places_from (Datatypes.S n) sel t
      else places_from (Datatypes.S n) sel t
  end.

(** [setupEventListeners] returns the listeners that it has added, each
    with the place of its element: one on every link of the navigation,
    then one on each of the two buttons.  A button that the page does not
    have is [null], and the call of its [addEventListener] throws: the
    result is then the exception, which does not show the listeners that
    had been added before it. *)
Definition setupEventListeners : Act (list (nat * handler)) :=
  s <- read ;;
  let links :=
    map (fun i => (i, OnNavClick)) (places_from 0 is_nav_link (doc s)) in
  match place_of (has_id "save-config") (doc s) with
  | None => throw TypeError
  | Some save =>
      match place_of (has_id "reset-config") (doc s) with
      | None => throw TypeError
      | Some reset =>
          ret (links ++ [(save, OnSaveConfig); (reset, OnResetConfig)])%list
      end
  end.

(** The handler of [DOMContentLoaded]. *)
Definition content_loaded : Act (list (nat * handler)) :=
  spawn initializeDashboard ;;
  listeners <- setupEventListeners ;;
  startDataUpdates ;;
  ret listeners.

End Script.

End Dash.

(* ================================================================== *)
(** * Observations and specifications *)
(* ================================================================== *)

(** ** What an operation emits *)

(** The events that running [m] from [w] appends to the trace. *)
Definition emitted {S A} (m : M S A) (w : world S) : list event :=
  skipn (List.length (trace w)) (trace (snd (m w))).

Definition is_get_to (url : string) (e : event) : bool :=
  match e with
  | EFetch (mkRequest GET u _ _) _ => String.eqb u url
  | _ => false
  end.

Definition is_fetch (e : event) : bool :=
  match e with
  | EFetch _ _ => true
  | _ => false
  end.

(** The requests of a trace, in the order they went out. *)
Fixpoint requests (t : list event) : list request :=
  match t with
  | [] => []
  | EFetch r _ :: t' => r :: requests t'
  | _ :: t' => requests t'
  end.

Definition posts (t : list event) : list request :=
  filter (fun r => match req_method r with POST => true | GET => false end)
         (requests t).

(** How many times a trace fetches [url] with GET. *)
Definition gets_to (url : string) (t : list event) : nat :=
  List.length (filter (is_get_to url) t).

(** The notifications of an error: [showError] in the Vue client,
    [showNotification(..., 'error')] in the dashboard. *)
Definition is_error_notification (e : event) : bool :=
  match e with
  | EShowError _ => true
  | ENotify _ type => String.eqb type "error"
  | _ => false
  end.

Definition error_notifications (t : list event) : nat :=
  List.length (filter is_error_notification t).

(** The lines that the client itself logs with [console.error(msg, error)]
    in a [catch]. *)
Definition is_error_log (e : event) : bool :=
  match e with
  | EConsoleError _ (Some _) => true
  | _ => false
  end.

Definition error_logs (t : list event) : nat :=
  List.length (filter is_error_log t).

(** An action that leaves the world as it found it. *)
Definition silent {S A} (m : M S A) : Prop := forall w, snd (m w) = w.

(** Events that are neither requests nor notifications: console lines and
    chart redraws. *)
Definition is_quiet (e : event) : bool :=
  match e with
  | EConsoleError _ _ | EConsoleLog _ | EChartUpdate _ => true
  | _ => false
  end.

Definition quiet (t : list event) : Prop := forallb is_quiet t = true.

(** An action that adds nothing but quiet events to the trace, whatever it
    does to the state and however it ends. *)
Definition quietly {S A} (m : M S A) : Prop :=
  forall w, exists x, trace (snd (m w)) = (trace w ++ x)%list /\ quiet x.

(** [undefined] and [null]: the values that have no properties. *)
Definition nullish (v : value) : bool :=
  match v with
  | VUndef | VNull => true
  | _ => false
  end.

(** What a failed load throws at its [await]. *)
Definition error_of (a : response) : exn :=
  match a with
  | Rejected => NetworkError
  | Resolved _ => SyntaxError
  end.

(** A failed load: the promise of [fetch] rejects, or the body is not
    JSON. *)
Definition failed (a : response) : bool :=
  match a with
  | Rejected | Resolved None => true
  | Resolved (Some _) => false
  end.

(** ** The views and their loads *)

Inductive vue_view : Type :=
  VDashboard | VStrategies | VPositions | VRisk | VSettings.

Definition vue_page (v : vue_view) : string :=
  match v with
  | VDashboard => "dashboard"
  | VStrategies => "strategies"
  | VPositions => "positions"
  | VRisk => "risk"
  | VSettings => "settings"
  end.

Definition vue_endpoint (v : vue_view) : string :=
  match v with
  | VDashboard => "/api/dashboard"
  | VStrategies => "/api/strategies"
  | VPositions => "/api/positions"
  | VRisk => "/api/risk/metrics"
  | VSettings => "/api/settings"
  end.

Inductive dash_view : Type :=
  DStrategies | DConfig | DOverview | DPositions | DCharts.

Definition dash_load (E : env) {P : Platform} {OP : Dash.Prototype}
  (v : dash_view) : M Dash.state unit :=
  match v with
  | DStrategies => Dash.loadStrategies E
  | DConfig => Dash.loadConfig E
  | DOverview => Dash.updateOverview E
  | DPositions => Dash.updatePositions E
  | DCharts => Dash.updateCharts E
  end.

(** A load fails when one of its requests fails. *)
Definition load_fails {S} (m : M S unit) (w : world S) : Prop :=
  exists r a, In (EFetch r a) (emitted m w) /\ failed a = true.

(** What the specification promises of a failed load: the state is as it
    was, and there is exactly one notification of the error. *)
Definition failed_load_contract {S} (m : M S unit) (w : world S) : Prop :=
  store (snd (m w)) = store w /\ error_notifications (emitted m w) = 1.

(** ** Concrete environments *)

(** A platform for running examples.  It prints every number as [0] and
    reads unsigned decimal integers; no statement depends on that. *)
Definition plain_platform : Platform := {|
  number_to_string := fun _ => "0";
  to_fixed := fun _ _ => "0";
  parse_float_string := fun s =>
    match s, Dash.decimal_from 0 s with
    | String _ _, Some n => num_of_Z (Z.of_N n)
    | _, _ => S754_nan
    end
|}.

(** An [Object.prototype] with the members of the language standard that
    could be taken for a data key. *)
Definition plain_prototype : Dash.Prototype := {|
  Dash.inherited_text := fun k =>
    if existsb (String.eqb k)
         ["constructor"; "toString"; "toLocaleString"; "valueOf";
          "hasOwnProperty"; "isPrototypeOf"; "propertyIsEnumerable";
          "__proto__"; "__defineGetter__"; "__defineSetter__";
          "__lookupGetter__"; "__lookupSetter__"]
    then Some "function () { [native code] }"
    else None
|}.

(** A server that cannot be reached, and a user who agrees. *)
Definition offline : env := mkEnv (fun _ _ => Rejected) (fun _ _ => true).

(** A server that answers every request with the same body. *)
Definition always (body : value) : env :=
  mkEnv (fun _ _ => Resolved (Some body)) (fun _ _ => true).

Definition vue_start : world Vue.data := mkWorld Vue.initial [].
Definition dash_start : world Dash.state := mkWorld Dash.initial [].

(** ** Loads of the dashboard *)

(** How a load of one request ends: it returns normally, and what it adds to
    the trace is its request followed by quiet events only; when the load
    failed, the state is the one it started from and the one event added is
    the log of the [catch]. *)
Definition load_outcome (E : env) (m : M Dash.state unit)
  (url msg : string) (w : world Dash.state) : Prop :=
  let a := respond E (trace w) (mk_get url) in
  exists s' tail,
    m w = (Ok tt, mkWorld s' (trace w ++ EFetch (mk_get url) a :: tail)) /\
    quiet tail /\
    (failed a = true ->
     s' = store w /\ tail = [EConsoleError msg (Some (error_of a))]).

Definition performance : request := mk_get "/api/monitor/performance".

Definition trades : request := mk_get "/api/monitor/trades".

(** How a load of two requests ends: the second request goes out only after
    the first has succeeded, and nothing is written before both have. *)
Definition load2_outcome (E : env) (m : M Dash.state unit) (msg : string)
  (w : world Dash.state) : Prop :=
  let a1 := respond E (trace w) performance in
  let a2 := respond E (trace w ++ [EFetch performance a1]) trades in
  exists s' tail,
    m w = (Ok tt, mkWorld s' (trace w ++ EFetch performance a1 :: tail)) /\
    if failed a1
    then s' = store w /\ tail = [EConsoleError msg (Some (error_of a1))]
    else exists tail2,
           tail = EFetch trades a2 :: tail2 /\ quiet tail2 /\
           (failed a2 = true ->
            s' = store w /\
            tail2 = [EConsoleError msg (Some (error_of a2))]).

(** ** Actions *)

(** The answer to a POST reports success: its body is JSON and its
    [status] is the string [success]. *)
Definition status_success (a : response) : bool :=
  match a with
  | Resolved (Some body) =>
      match get body "status" with
      | Ok status => strict_eq_str status "success"
      | Throw _ => false
      end
  | _ => false
  end.

(** An answer that a load can read from: JSON other than [null]. *)
Definition brings_data (a : response) : bool :=
  match a with
  | Resolved (Some body) => negb (nullish body)
  | _ => false
  end.

(** What the specification promises of an action that POSTs: a re-fetch of
    the view at [view_url] when the answer reports success; otherwise an
    error notification and the state as it was. *)
Definition action_contract {S} (m : M S unit) (w : world S)
  (view_url : string) : Prop :=
  forall r a,
    In (EFetch r a) (emitted m w) ->
    req_method r = POST ->
    if status_success a
    then 1 <= gets_to view_url (emitted m w)
    else 1 <= error_notifications (emitted m w) /\
         store (snd (m w)) = store w.

Definition close_request (exchange symbol : string) : request :=
  mk_post_json "/api/monitor/close-position"
    (VObj [("exchange", VStr exchange); ("symbol", VStr symbol)]).

Definition close_question (exchange symbol : string) : string :=
  "确定要平掉 " ++ exchange ++ " 的 " ++ symbol ++ " 仓位吗？".

Definition refusal : value :=
  VObj [("status", VStr "error"); ("message", VStr "market closed")].

Definition a_position : value :=
  VObj [("id", VStr "p1"); ("exchange", VStr "binance");
        ("symbol", VStr "BTCUSDT")].

(** ** Snapshots *)

(** [o.k] where [o] is known to have properties. *)
Definition field (o : value) (k : string) : value :=
  match get o k with
  | Ok v => v
  | Throw _ => VUndef
  end.

(** The part of the component that shows view [v]. *)
Definition slice (v : vue_view) (d : Vue.data) : list value :=
  match v with
  | VDashboard => [Vue.accountStats d]
  | VStrategies => [Vue.strategies d]
  | VPositions => [Vue.positions d; Vue.positionStats d]
  | VRisk => [Vue.riskMetrics d; Vue.riskAlerts d]
  | VSettings =>
      [Vue.exchanges d; Vue.notificationSettings d; Vue.systemSettings d]
  end.

(** The same part, as a body fetched from the view's endpoint gives it. *)
Definition snapshot (v : vue_view) (body : value) : list value :=
  match v with
  | VDashboard => [field body "accountStats"]
  | VStrategies => [field body "strategies"]
  | VPositions => [field body "positions"; field body "stats"]
  | VRisk => [field body "metrics"; field body "alerts"]
  | VSettings =>
      [field body "exchanges"; field body "notification";
       field body "system"]
  end.

(** A successful fetch of [url]: a GET that brought a JSON body with
    properties to read. *)
Definition fetched (url : string) (e : event) : option value :=
  match e with
  | EFetch (mkRequest GET u _ _) (Resolved (Some body)) =>
      if String.eqb u url && negb (nullish body) then Some body else None
  | _ => None
  end.

(** The body of the most recent successful fetch of [url] in a trace, [acc]
    when there is none. *)
Fixpoint last_body (url : string) (t : list event) (acc : option value)
  : option value :=
  match t with
  | [] => acc
  | e :: t' =>
      last_body url t'
        (match fetched url e with Some b => Some b | None => acc end)
  end.

(** The invariant of the specification: every view shows what its most
    recent successful fetch brought, whole, and the initial data before the
    first one. *)
Definition snapshot_inv (w : world Vue.data) : Prop :=
  forall v : vue_view,
    slice v (store w) =
    match last_body (vue_endpoint v) (trace w) None with
    | Some body => snapshot v body
    | None => slice v Vue.initial
    end.

(** The methods of the component that do something to it or to the
    server. *)
Inductive vue_op : Type :=
| OpMounted
| OpTick
| OpChangePage (page : string)
| OpToggleSidebar
| OpLoadPageData (page : string)
| OpToggleStrategy (strategy : value)
| OpShowNewStrategyModal
| OpCreateStrategy (strategyData : value)
| OpClosePosition (position : value)
| OpHandleAlert (alert : value)
| OpSaveRiskSettings
| OpTestExchangeConnection (i : nat)
| OpSaveSettings
| OpCloseModal.

Definition run_op (E : env) {P : Platform} (op : vue_op) : M Vue.data unit :=
  match op with
  | OpMounted => Vue.mounted E
  | OpTick => Vue.tick E
  | OpChangePage page => Vue.changePage E page
  | OpToggleSidebar => Vue.toggleSidebar
  | OpLoadPageData page => Vue.loadPageData E page
  | OpToggleStrategy strategy => Vue.toggleStrategy E strategy
  | OpShowNewStrategyModal => Vue.showNewStrategyModal
  | OpCreateStrategy strategyData => Vue.createStrategy E strategyData
  | OpClosePosition position => Vue.closePosition E position
  | OpHandleAlert alert => Vue.handleAlert E alert
  | OpSaveRiskSettings => Vue.saveRiskSettings E
  | OpTestExchangeConnection i => Vue.testExchangeConnection E i
  | OpSaveSettings => Vue.saveSettings E
  | OpCloseModal => Vue.closeModal
  end.

(** The operations run one after the other, each to its end; what one of
    them throws is lost, as it is for an event handler. *)
Fixpoint run_ops (E : env) {P : Platform} (ops : list vue_op)
  (w : world Vue.data) : world Vue.data :=
  match ops with
  | [] => w
  | op :: rest => run_ops E rest (snd (run_op E op w))
  end.

Definition tests_connection (op : vue_op) : bool :=
  match op with
  | OpTestExchangeConnection _ => true
  | _ => false
  end.

(** A server for the settings view: it serves one exchange, disconnected,
    and finds it connected when asked to test it. *)
Definition served_settings : value :=
  VObj [("exchanges",
         VArr [VObj [("id", VStr "binance"); ("name", VStr "Binance");
                     ("apiKey", VStr "k"); ("secretKey", VStr "s");
                     ("enabled", VBool true);
                     ("status", VStr "DISCONNECTED")]]);
        ("notification", VObj []);
        ("system", VObj [])].

Definition settings_server : env :=
  mkEnv (fun _ r =>
           match req_method r with
           | GET => Resolved (Some served_settings)
           | POST => Resolved (Some (VObj [("status", VStr "CONNECTED")]))
           end)
        (fun _ _ => true).

(** A run that ends normally in a world where the invariant holds. *)
Definition keeps_inv (m : M Vue.data unit) : Prop :=
  forall w, snapshot_inv w ->
    exists w', m w = (Ok tt, w') /\ snapshot_inv w'.

Definition a_session : list vue_op :=
  [OpMounted; OpChangePage "positions"; OpClosePosition a_position;
   OpChangePage "settings"; OpSaveSettings; OpTick].

(** ** Active views *)

(** The panels that are marked active, by their ids, in document order. *)
Definition active_panel (e : Dash.elem) : bool :=
  Dash.is_panel e && Dash.has_class "active" e.

Definition active_panels (d : list Dash.elem) : list (option string) :=
  map Dash.el_id (filter active_panel d).

(** No link of the navigation is itself a panel. *)
Definition links_are_not_panels (d : list Dash.elem) : bool :=
  forallb (fun e => negb (Dash.is_nav_link e && Dash.is_panel e)) d.

(** The view that the template of the Vue client shows: the one whose name
    is [currentPage]. *)
Definition vue_active (d : Vue.data) (v : vue_view) : bool :=
  String.eqb (Vue.currentPage d) (vue_page v).

(** An operation triggers a load when it sends a request. *)
Definition triggers_load {S} (m : M S unit) (w : world S) : Prop :=
  requests (emitted m w) <> [].

(** Two documents with the same elements up to the class [active]. *)
Definition alike (e e' : Dash.elem) : Prop :=
  Dash.el_tag e = Dash.el_tag e' /\
  Dash.el_in_nav e = Dash.el_in_nav e' /\
  Dash.el_id e = Dash.el_id e' /\
  Dash.el_href e = Dash.el_href e' /\
  Dash.is_panel e = Dash.is_panel e'.

(** ** Timers *)

(** [setInterval(f, period)] on an ideal clock: [f] fires at the times
    [period], [2 * period], ...  [firings period elapsed] is how many of
    these lie within the first [elapsed] milliseconds. *)
Definition firings (period elapsed : Z) : nat := Z.to_nat (elapsed / period).

(** [n] firings of a timer.  What a callback throws is lost. *)
Fixpoint ticks {S} (n : nat) (tick : M S unit) (w : world S) : world S :=
  match n with
  | O => w
  | Datatypes.S k => ticks k tick (snd (tick w))
  end.

Definition poll {S} (tick : M S unit) (period elapsed : Z) (w : world S)
  : world S :=
  ticks (firings period elapsed) tick w.

(** What a polling loop emits in [elapsed] milliseconds. *)
Definition polled {S} (tick : M S unit) (period elapsed : Z) (w : world S)
  : list event :=
  skipn (List.length (trace w)) (trace (poll tick period elapsed w)).

(** The request that shows a panel of the dashboard. *)
Definition panel_endpoint (panelId : string) : string :=
  if String.eqb panelId "overview" then "/api/monitor/overview"
  else if String.eqb panelId "strategies" then "/api/strategy/list"
  else if String.eqb panelId "positions" then "/api/monitor/positions"
  else "/api/config".

(** ** Trades by date *)

(** The calendar date of a time stamp, in the words of the claim: the
    substring before its first [T]; all of it when it has none. *)
Definition date_prefix (time : string) : string :=
  match String.index 0 "T" time with
  | Some n => String.substring 0 n time
  | None => time
  end.

(** The date of a trade: the date of its [time]. *)
Definition date_of (trade : value) : option string :=
  match get trade "time" with
  | Ok (VStr s) => Some (date_prefix s)
  | _ => None
  end.

(** The numeric profit of a trade. *)
Definition profit_of {P : Platform} (trade : value) : number :=
  parseFloat (field trade "profit").

Definition on_date (d : string) (trade : value) : bool :=
  match date_of trade with
  | Some d' => String.eqb d' d
  | None => false
  end.

(** The profits of the trades of one date, in the order of the list. *)
Definition profits_on {P : Platform} (d : string) (items : list value)
  : list number :=
  map profit_of (filter (on_date d) items).

(** The sum of a list of numbers, added up from the left, as a loop does. *)
Definition sum_profits (ps : list number) : number :=
  fold_left num_add ps (num_of_Z 0).

(** Equality of numbers as [===] has it for the two zeros. *)
Definition same_number (x y : number) : Prop :=
  x = y \/ (is_zero x = true /\ is_zero y = true).

(** A trade as the chart expects it: an object whose [time] is a string,
    with a date that is not the name of a member of [Object.prototype]. *)
Definition well_formed_trade {OP : Dash.Prototype} (trade : value) : bool :=
  match get trade "time" with
  | Ok (VStr s) =>
      match Dash.inherited_text (date_prefix s) with
      | None => true
      | Some _ => false
      end
  | _ => false
  end.

(** No running sum short of the last is [NaN]. *)
Definition running_ok (ps : list number) : bool :=
  forallb (fun n => negb (is_nan (sum_profits (firstn n ps))))
          (seq 0 (List.length ps)).

Definition steady_sums {P : Platform} (items : list value) : bool :=
  forallb (fun t => match date_of t with
                    | Some d => running_ok (profits_on d items)
                    | None => true
                    end) items.

(** What the map holds once the trades [done] have gone through the loop:
    one entry for each of their dates, with the sum of that date's
    profits. *)
Record tally {P : Platform} (done : list value)
  (dailyPnl : list (string * value))
  : Prop := mkTally {
  tally_nodup : NoDup (map fst dailyPnl);
  tally_keys : forall d,
    In d (map fst dailyPnl) <-> exists t, In t done /\ date_of t = Some d;
  tally_sums : forall d v,
    lookup d dailyPnl = Some v ->
    exists x, v = VNum x /\
              same_number x (sum_profits (profits_on d done))
}.

Definition a_trade (time profit : string) : value :=
  VObj [("time", VStr time); ("profit", VStr profit)].

Definition some_trades : list value :=
  [a_trade "2024-01-05T10:00:00" "120";
   a_trade "2024-01-06T09:00:00" "7";
   a_trade "2024-01-05T15:30:00" "30"].

Definition charts_ready : world Dash.state :=
  mkWorld (Dash.set_chart_pnl (Some (Dash.mkChart [] [])) Dash.initial) [].

(** ** The value of a number *)

(** The real numbers that a binary64 number can stand for, extended by the
    two infinities.  [NaN] stands for none. *)
Inductive ext : Type :=
| NegInf
| Fin (q : Q)
| PosInf.

(** The rational [(-1)^s * m * 2^e]. *)
Definition Q_of_finite (s : bool) (m : positive) (e : Z) : Q :=
  let n := cond_Zopp s (Zpos m) in
  if (0 <=? e)%Z then inject_Z (n * 2 ^ e) else n # Z.to_pos (2 ^ (- e)).

Definition real_of (x : number) : option ext :=
  match x with
  | S754_nan => None
  | S754_infinity true => Some NegInf
  | S754_infinity false => Some PosInf
  | S754_zero _ => Some (Fin 0%Q)
  | S754_finite s m e => Some (Fin (Q_of_finite s m e))
  end.

Definition ext_lt (a b : ext) : Prop :=
  match a, b with
  | NegInf, NegInf => False
  | NegInf, _ => True
  | Fin p, Fin q => (p < q)%Q
  | Fin _, PosInf => True
  | _, _ => False
  end.

Definition ext_le (a b : ext) : Prop :=
  match a, b with
  | NegInf, _ => True
  | _, PosInf => True
  | Fin p, Fin q => (p <= q)%Q
  | _, _ => False
  end.

(** A number as the platform holds it: a finite one has its one canonical
    pair of mantissa and exponent. *)
Definition valid (x : number) : bool := valid_binary prec emax x.

(** The number that a decimal reads as, the way [Number] and [parseFloat]
    read one: the quotient of the two integers, correctly rounded. *)
Definition read_decimal (d : Intl.decimal) : number :=
  SFdiv prec emax
    (S754_finite false (Z.to_pos (Intl.units d)) 0)
    (S754_finite false (Z.to_pos (10 ^ Intl.places d)) 0).

(** The shortest decimal of a number reads back as the number, and the
    points half-way to its neighbours do so when its mantissa is even. *)
Definition reads_back_ok (x : number) : bool :=
  match x with
  | S754_finite _ m e =>
      let sp := Intl.span_of m e in
      let at_point d := SFeqb (read_decimal (Intl.mkDecimal d (Intl.scale sp)))
                              (S754_finite false m e) in
      SFeqb (read_decimal (Intl.shortest m e)) (S754_finite false m e) &&
      Bool.eqb (at_point (Intl.low sp)) (Intl.closed sp) &&
      Bool.eqb (at_point (Intl.high sp)) (Intl.closed sp)
  | _ => true
  end.

(** A method returns [a] when it does so from every state, and leaves the
    state and the trace as they were. *)
Definition returns {S A} (m : M S A) (a : A) : Prop :=
  forall w, m w = (Ok a, w).

(** The order of the risk classes. *)
Definition risk_rank (class : string) : nat :=
  if String.eqb class "low-risk" then 0
  else if String.eqb class "medium-risk" then 1
  else 2.

(** The double [mc * 2^-53], between a half and one, is a threshold for the
    rational [q] when the doubles below it are the doubles below [q]: on
    its own binade that is a comparison of mantissas. *)
Definition threshold (mc : positive) (q : Q) : Prop :=
  (2 ^ 52 <= Zpos mc < 2 ^ 53)%Z /\
  (1 # 2 <= q)%Q /\ (q <= 1)%Q /\
  forall m : positive,
    (Zpos m < Zpos mc)%Z <-> (Q_of_finite false m (-53) < q)%Q.

Definition below (x : number) (q : Q) : Prop :=
  match real_of x with
  | Some v => ext_lt v (Fin q)
  | None => False
  end.

Definition sample_value : number := num_lit 65 100.

Definition sample_real : ext :=
  match real_of sample_value with
  | Some v => v
  | None => PosInf
  end.

(** A number is the double nearest to a rational when it is within half a
    unit in the last place of it. *)
Definition nearest (x : number) (q : Q) : Prop :=
  match x with
  | S754_finite s m e =>
      (Qabs (Q_of_finite s m e - q) <= Q_of_finite false 1 (e - 1))%Q
  | _ => False
  end.

(** ** Notifications, pages and lists *)

(** The notifications of a success: [showSuccess] in the Vue client,
    [showNotification(..., 'success')] in the dashboard. *)
Definition is_success_notification (e : event) : bool :=
  match e with
  | EShowSuccess _ => true
  | ENotify _ type => String.eqb type "success"
  | _ => false
  end.

Definition success_notifications (t : list event) : nat :=
  List.length (filter is_success_notification t).

(** What [showNotification] has shown, each message with its type. *)
Fixpoint notes (t : list event) : list (string * string) :=
  match t with
  | [] => []
  | ENotify message type :: t' => (message, type) :: notes t'
  | _ :: t' => notes t'
  end.

(** The pages that [loadPageData] has a case for. *)
Definition known_page (page : string) : bool :=
  existsb (String.eqb page)
          ["dashboard"; "strategies"; "positions"; "risk"; "settings"].

(** [l1] is [l2] with some of its elements left out. *)
Inductive subseq {A : Type} : list A -> list A -> Prop :=
| subseq_nil : subseq [] []
| subseq_keep (x : A) (l1 l2 : list A) :
    subseq l1 l2 -> subseq (x :: l1) (x :: l2)
| subseq_drop (x : A) (l1 l2 : list A) :
    subseq l1 l2 -> subseq l1 (x :: l2).

(** ** Parts of the dashboard's state *)

(** A relation that holds from the state before a run to the state after
    it, whatever the run started from. *)
Definition steps {S A} (R : S -> S -> Prop) (m : M S A) : Prop :=
  forall w, R (store w) (store (snd (m w))).

(** The charts are the same. *)
Definition same_charts (s s' : Dash.state) : Prop :=
  Dash.chart_equity s' = Dash.chart_equity s /\
  Dash.chart_pnl s' = Dash.chart_pnl s.

(** The text of the element with the given id. *)
Definition content_of (id : string) (d : list Dash.elem) : option string :=
  option_map Dash.el_content (Dash.first_of (Dash.has_id id) d).

(** The links of the navigation that are marked active. *)
Definition active_link (e : Dash.elem) : bool :=
  Dash.is_nav_link e && Dash.has_class "active" e.

(** The question of [resetConfig]. *)
Definition reset_question : string :=
  "确定要重置所有配置吗？此操作不可撤销。".

(** A user who declines, before a server that answers with [body]. *)
Definition declining (body : value) : env :=
  mkEnv (fun _ _ => Resolved (Some body)) (fun _ _ => false).

(** A chart has as many labels as it has points. *)
Definition aligned (c : option Dash.chart) : Prop :=
  match c with
  | Some ch => List.length (Dash.labels ch) = List.length (Dash.points ch)
  | None => True
  end.

Definition charts_aligned (s : Dash.state) : Prop :=
  aligned (Dash.chart_equity s) /\ aligned (Dash.chart_pnl s).

(** Alignment is kept from one state to the next. *)
Definition keeps_aligned (s s' : Dash.state) : Prop :=
  charts_aligned s -> charts_aligned s'.

(** What can happen on the page of the dashboard: the page has loaded, the
    timer fires, a load runs, the user clicks. *)
Inductive dash_op : Type :=
| DoContentLoaded
| DoTick
| DoLoad (v : dash_view)
| DoInitializeCharts
| DoToggleStrategy (strategyName : string)
| DoResetConfig
| DoSendConfig (formData : value)
| DoSwitchPanel (panelId : string)
| DoNavClick (link : Dash.elem)
| DoClosePosition (exchange symbol : string).

Definition run_dash_op (E : env) {P : Platform} {OP : Dash.Prototype}
  (op : dash_op) : M Dash.state unit :=
  match op with
  | DoContentLoaded => spawn (Dash.content_loaded E)
  | DoTick => Dash.tick E
  | DoLoad v => dash_load E v
  | DoInitializeCharts => Dash.initializeCharts
  | DoToggleStrategy strategyName => Dash.toggleStrategy E strategyName
  | DoResetConfig => Dash.resetConfig E
  | DoSendConfig formData => Dash.send_config E formData
  | DoSwitchPanel panelId => Dash.switchPanel panelId
  | DoNavClick link => Dash.nav_click link
  | DoClosePosition exchange symbol => Dash.closePosition E exchange symbol
  end.

(** The operations run one after the other, each to its end; what one of
    them throws is lost, as it is for an event handler. *)
Fixpoint run_dash_ops (E : env) {P : Platform} {OP : Dash.Prototype}
  (ops : list dash_op) (w : world Dash.state) : world Dash.state :=
  match ops with
  | [] => w
  | op :: rest => run_dash_ops E rest (snd (run_dash_op E op w))
  end.

(** ** What a load may touch *)

(** The same node of the page: its tag, its place in the navigation, its
    [id] and its [href] are what they were. *)
Definition same_node (e e' : Dash.elem) : Prop :=
  Dash.el_tag e' = Dash.el_tag e /\
  Dash.el_in_nav e' = Dash.el_in_nav e /\
  Dash.el_id e' = Dash.el_id e /\
  Dash.el_href e' = Dash.el_href e.

(** The elements that a load writes to. *)
Definition touches (v : dash_view) (e : Dash.elem) : bool :=
  match v with
  | DStrategies => Dash.has_id "strategies-container" e
  | DConfig => Dash.has_id "config-form" e
  | DOverview =>
      Dash.has_id "total-equity" e || Dash.has_id "daily-pnl" e ||
      Dash.has_id "max-drawdown" e || Dash.has_id "active-positions" e ||
      Dash.has_class "status-dot" e || Dash.has_class "status-text" e
  | DPositions => Dash.has_id "positions-body" e
  | DCharts => false
  end.

Definition untouched (v : dash_view) (e e' : Dash.elem) : Prop :=
  same_node e e' /\ (touches v e = false -> e' = e).

(** The state after a load of view [v], next to the state before it: the
    page has the same nodes, those that the load does not write to are as
    they were, and so are the timer, the charts unless the load is that of
    the charts, and the configuration unless the load is that of the
    configuration. *)
Definition within (v : dash_view) (s s' : Dash.state) : Prop :=
  Forall2 (untouched v) (Dash.doc s) (Dash.doc s') /\
  Dash.updateInterval s' = Dash.updateInterval s /\
  match v with
  | DCharts => True
  | _ => same_charts s s'
  end /\
  match v with
  | DConfig => True
  | _ => Dash.configData s' = Dash.configData s
  end.

(** The page has the same nodes and the timer is as it was. *)
Definition same_page (s s' : Dash.state) : Prop :=
  Forall2 same_node (Dash.doc s) (Dash.doc s') /\
  Dash.updateInterval s' = Dash.updateInterval s.

(** A write to a node that [querySelector] has handed out, or to none when
    it found none. *)
Definition edit_found (node : option nat) (f : Dash.elem -> Dash.elem)
  (d : list Dash.elem) : list Dash.elem :=
  match node with
  | Some i => Dash.edit_at i f d
  | None => d
  end.

(** What [switchPanel] takes the mark off: the panels and the links of the
    navigation. *)
Definition unmarked (e : Dash.elem) : Dash.elem :=
  if Dash.is_panel e || Dash.is_nav_link e
  then Dash.remove_class "active" e
  else e.

Definition at_place (node : option nat) (k : nat) : bool :=
  match node with
  | Some i => Nat.eqb k i
  | None => false
  end.

(** The element at place [k] after [switchPanel], given the places of the
    panel and of its link. *)
Definition marked (panel link : option nat) (k : nat) (e : Dash.elem)
  : Dash.elem :=
  let e1 := unmarked e in
  let e2 := if at_place panel k then Dash.add_class "active" e1 else e1 in
  if at_place link k then Dash.add_class "active" e2 else e2.

(** The link is looked for only once the panel has been found. *)
Definition link_place (panelId : string) (d : list Dash.elem) : option nat :=
  match Dash.place_of (Dash.has_id panelId) d with
  | Some _ => Dash.place_of (Dash.is_nav_link_to panelId) d
  | None => None
  end.

(** The page has the form of the configuration. *)
Definition has_form (s : Dash.state) : Prop :=
  Dash.first_of (Dash.has_id "config-form") (Dash.doc s) <> None.

(** The page has the places that [updateOverview] writes to. *)
Definition overview_ids : list string :=
  ["total-equity"; "daily-pnl"; "max-drawdown"; "active-positions"].

Definition has_overview (d : list Dash.elem) : Prop :=
  (forall id, In id overview_ids ->
     Dash.first_of (Dash.has_id id) d <> None) /\
  Dash.place_of (Dash.has_class "status-dot") d <> None /\
  Dash.place_of (Dash.has_class "status-text") d <> None.

(** A load that has logged an error has changed nothing. *)
Definition all_or_nothing (m : M Dash.state unit) (w : world Dash.state)
  : Prop :=
  error_logs (emitted m w) <> 0 -> store (snd (m w)) = store w.

(** ** The data of the configuration form *)

Fixpoint has_dot (s : string) : bool :=
  match s with
  | EmptyString => false
  | String c t => Ascii.eqb c "." || has_dot t
  end.

(** [v[k1][k2]...] along a path of keys. *)
Fixpoint at_path (path : list string) (v : value) : value :=
  match path with
  | [] => v
  | k :: rest => at_path rest (field v k)
  end.

(** A form as [renderConfigForm] writes it: a checkbox, a number and a
    text field. *)
Definition some_inputs : list Dash.input :=
  [Dash.mkInput "enabled" "checkbox" true "on";
   Dash.mkInput "max_positions" "number" false "5";
   Dash.mkInput "exchange" "text" false "okx"].

(** A form with ids that spell array indices, and a number field that the
    user has emptied. *)
Definition numbered_inputs : list Dash.input :=
  [Dash.mkInput "b" "checkbox" true "on";
   Dash.mkInput "2" "number" false "";
   Dash.mkInput "10" "text" false "okx"].

(** ** Concrete inputs for the operations above *)

(** Lower case for the letters of ASCII, for running examples; no statement
    depends on it. *)
Definition ascii_lower (c : ascii) : ascii :=
  let n := nat_of_ascii c in
  if Nat.leb 65 n && Nat.leb n 90 then ascii_of_nat (n + 32) else c.

Fixpoint string_lower (s : string) : string :=
  match s with
  | EmptyString => EmptyString
  | String c t => String (ascii_lower c) (string_lower t)
  end.

Definition plain_casing : Vue.Casing := {|
  Vue.to_lower_case := string_lower
|}.

(** Two strategies, the second of them without a name. *)
Definition two_strategies : list value :=
  [VObj [("id", VStr "grid-1"); ("name", VStr "Grid BTC");
         ("type", VStr "grid"); ("status", VStr "active")];
   VObj [("id", VStr "arb-1"); ("type", VStr "arbitrage");
         ("status", VStr "paused")]].

Definition vue_listing : world Vue.data :=
  mkWorld (Vue.set_strategies (VArr two_strategies) Vue.initial) [].

(** The same component once the user has typed into the search box. *)
Definition vue_searching : world Vue.data :=
  mkWorld (Vue.set_strategyFilter
             (VObj [("type", VStr ""); ("status", VStr "");
                    ("search", VStr "grid")])
             (store vue_listing)) [].

(** A server that has the performance data and fails on the trades. *)
Definition an_equity_history : list value :=
  [VObj [("time", VStr "2024-01-05T10:00:00"); ("equity", VStr "1000")];
   VObj [("time", VStr "2024-01-06T10:00:00"); ("equity", VStr "1010")]].

Definition charts_server : env :=
  mkEnv (fun _ r =>
           if String.eqb (req_url r) "/api/monitor/performance"
           then Resolved (Some (VObj [("equity_history",
                                       VArr an_equity_history)]))
           else Resolved (Some (VObj [("error", VStr "no trades table")])))
        (fun _ _ => true).

(** The dashboard once both charts have been created. *)
Definition both_charts : world Dash.state :=
  mkWorld (Dash.set_chart_equity (Some (Dash.mkChart [] []))
             (Dash.set_chart_pnl (Some (Dash.mkChart [] [])) Dash.initial))
          [].

(** A configuration with a section. *)
Definition a_config : list (string * value) :=
  [("trading", VObj [("enabled", VBool true)]); ("debug", VBool false)].

(** ** What the loads of the Vue client leave alone *)

(** What the component holds besides the data of the five views. *)
Definition ui_state (d : Vue.data)
  : string * bool * bool * string * string * option Vue.callback *
    value * value :=
  (Vue.currentPage d, Vue.sidebarCollapsed d, Vue.showModal d,
   Vue.modalTitle d, Vue.modalConfirmText d, Vue.modalCallback d,
   Vue.strategyFilter d, Vue.riskSettings d).

(** The two forms that the user fills in and that no endpoint feeds. *)
Definition same_forms (d d' : Vue.data) : Prop :=
  Vue.riskSettings d' = Vue.riskSettings d /\
  Vue.strategyFilter d' = Vue.strategyFilter d.

(** The state after a load of view [v]: everything but the data of that
    view is as it was. *)
Definition only_view (v : vue_view) (d d' : Vue.data) : Prop :=
  ui_state d' = ui_state d /\
  forall v', v' <> v -> slice v' d' = slice v' d.

(* ================================================================== *)
(** * Lemmas on the monad and on traces *)
(* ================================================================== *)

Lemma skipn_length_app {A} (l x : list A) :
  skipn (List.length l) (l ++ x)%list = x.
Proof.
  induction l as [|a l IH]; simpl; auto.
Qed.

Lemma emitted_of_trace {S A} (m : M S A) (w : world S) (x : list event) :
  trace (snd (m w)) = (trace w ++ x)%list -> emitted m w = x.
Proof.
  unfold emitted. intros ->. apply skipn_length_app.
Qed.

Lemma world_eta_snd {S} (w : world S) :
  snd (@read S w) = w.
Proof. reflexivity. Qed.

Lemma silent_emits_nothing {S A} (m : M S A) (w : world S) :
  silent m -> emitted m w = [].
Proof.
  intros H. apply emitted_of_trace. rewrite H, app_nil_r. reflexivity.
Qed.

Lemma lift_silent {S A} (r : result A) : silent (@lift S A r).
Proof. intros w. reflexivity. Qed.

Lemma mapM_silent {S A B} (f : A -> M S B) (l : list A) :
  (forall x, silent (f x)) -> silent (Dash.mapM f l).
Proof.
  intros Hf. induction l as [|x l IH]; intros w; simpl.
  - reflexivity.
  - unfold bind. specialize (Hf x w).
    destruct (f x w) as [[y|e] w1]; simpl in Hf; subst w1; simpl; auto.
    specialize (IH w).
    destruct (Dash.mapM f l w) as [[ys|e] w2]; simpl in IH; subst w2;
      reflexivity.
Qed.

Lemma silent_run {S A} (m : M S A) (w : world S) :
  silent m -> m w = (fst (m w), w).
Proof.
  intros H. specialize (H w). destruct (m w) as [r w']. simpl in *.
  congruence.
Qed.

Lemma quiet_no_requests (t : list event) : quiet t -> requests t = [].
Proof.
  unfold quiet. induction t as [|e t IH]; simpl; auto.
  intros H. apply andb_prop in H. destruct H as [He Ht].
  destruct e; try discriminate; auto.
Qed.

Lemma quiet_filter (f : event -> bool) (t : list event) :
  (forall e, f e = true -> is_quiet e = false) ->
  quiet t -> filter f t = [].
Proof.
  intros Hf. unfold quiet. induction t as [|e t IH]; simpl; auto.
  intros H. apply andb_prop in H. destruct H as [He Ht].
  destruct (f e) eqn:Fe; auto.
  apply Hf in Fe. congruence.
Qed.

Lemma quiet_no_gets (url : string) (t : list event) :
  quiet t -> gets_to url t = 0.
Proof.
  intros H. unfold gets_to. rewrite quiet_filter; auto.
  intros [r a| | | | | | |]; simpl; try discriminate; auto.
Qed.

Lemma gets_to_cons (url : string) (e : event) (t : list event) :
  gets_to url (e :: t) =
  (if is_get_to url e then 1 else 0) + gets_to url t.
Proof.
  unfold gets_to. simpl. destruct (is_get_to url e); reflexivity.
Qed.

Lemma not_fetch_not_get (url : string) (e : event) :
  is_fetch e = false -> is_get_to url e = false.
Proof.
  destruct e; simpl; intros H; try discriminate; reflexivity.
Qed.

Lemma gets_to_app (url : string) (t u : list event) :
  gets_to url (t ++ u) = gets_to url t + gets_to url u.
Proof.
  unfold gets_to. rewrite filter_app, length_app. reflexivity.
Qed.

Lemma error_notifications_cons (e : event) (t : list event) :
  error_notifications (e :: t) =
  (if is_error_notification e then 1 else 0) + error_notifications t.
Proof.
  unfold error_notifications. simpl.
  destruct (is_error_notification e); reflexivity.
Qed.

Lemma error_notifications_app (t u : list event) :
  error_notifications (t ++ u) =
  error_notifications t + error_notifications u.
Proof.
  unfold error_notifications. rewrite filter_app, length_app. reflexivity.
Qed.

Lemma quiet_no_notifications (t : list event) :
  quiet t -> error_notifications t = 0.
Proof.
  intros H. unfold error_notifications. rewrite quiet_filter; auto.
  intros [r a| | | | | | |]; simpl; try discriminate; auto.
Qed.

Lemma quiet_app (t u : list event) : quiet t -> quiet u -> quiet (t ++ u).
Proof.
  unfold quiet. intros Ht Hu. rewrite forallb_app, Ht, Hu. reflexivity.
Qed.

Lemma silent_quietly {S A} (m : M S A) : silent m -> quietly m.
Proof.
  intros H w. exists []. rewrite H, app_nil_r. split; reflexivity.
Qed.

Lemma quietly_ret {S A} (a : A) : quietly (@ret S A a).
Proof. apply silent_quietly. intros w. reflexivity. Qed.

Lemma quietly_throw {S A} (e : exn) : quietly (@throw S A e).
Proof. apply silent_quietly. intros w. reflexivity. Qed.

Lemma quietly_lift {S A} (r : result A) : quietly (@lift S A r).
Proof. apply silent_quietly, lift_silent. Qed.

Lemma quietly_read {S} : quietly (@read S).
Proof. apply silent_quietly. intros w. apply world_eta_snd. Qed.

Lemma quietly_modify {S} (f : S -> S) : quietly (modify f).
Proof.
  intros w. exists []. simpl. rewrite app_nil_r. split; reflexivity.
Qed.

Lemma quietly_emit {S} (e : event) : is_quiet e = true -> quietly (@emit S e).
Proof.
  intros H w. exists [e]. simpl. split; auto.
  unfold quiet. simpl. rewrite H. reflexivity.
Qed.

Lemma quietly_bind {S A B} (m : M S A) (k : A -> M S B) :
  quietly m -> (forall a, quietly (k a)) -> quietly (bind m k).
Proof.
  intros Hm Hk w. unfold bind.
  destruct (Hm w) as [x [Hx Qx]].
  destruct (m w) as [[a|e] w1]; simpl in Hx.
  - destruct (Hk a w1) as [y [Hy Qy]].
    exists (x ++ y)%list. rewrite Hy, Hx, app_assoc.
    split; auto using quiet_app.
  - exists x. simpl. auto.
Qed.

Lemma quietly_try_catch {S A} (m : M S A) (h : exn -> M S A) :
  quietly m -> (forall e, quietly (h e)) -> quietly (try_catch m h).
Proof.
  intros Hm Hh w. unfold try_catch.
  destruct (Hm w) as [x [Hx Qx]].
  destruct (m w) as [[a|e] w1]; simpl in Hx.
  - exists x. simpl. auto.
  - destruct (Hh e w1) as [y [Hy Qy]].
    exists (x ++ y)%list. rewrite Hy, Hx, app_assoc.
    split; auto using quiet_app.
Qed.

Lemma quietly_mapM {S A B} (f : A -> M S B) (l : list A) :
  (forall x, quietly (f x)) -> quietly (Dash.mapM f l).
Proof.
  intros Hf. induction l as [|x l IH]; simpl.
  - apply quietly_ret.
  - apply quietly_bind; auto. intros y.
    apply quietly_bind; auto. intros ys. apply quietly_ret.
Qed.

Lemma quietly_foldM {S A B} (f : B -> A -> M S B) (l : list A) (b : B) :
  (forall b x, quietly (f b x)) -> quietly (Dash.foldM f l b).
Proof.
  intros Hf. revert b. induction l as [|x l IH]; intros b; simpl.
  - apply quietly_ret.
  - apply quietly_bind; auto.
Qed.

(** The world is a pair of its two fields. *)
Lemma world_eta {S} (w : world S) : mkWorld (store w) (trace w) = w.
Proof. destruct w; reflexivity. Qed.

Ltac run :=
  cbv [bind ret throw try_catch lift emit read modify fetch json
       console_error console_log confirm spawn];
  cbn [store trace fst snd].

(** Traces grow at the right end; [trace_norm] puts the nested appends of a
    run into the form [trace w ++ [e1; ...; en]]. *)
Ltac trace_norm :=
  repeat rewrite <- app_assoc; cbn [app].

(** Runs an operation symbolically: every answer of the environment and every
    property read that the run depends on is split into its cases. *)
Ltac split_env :=
  match goal with
  | |- context [match respond ?E ?t ?r with _ => _ end] =>
      let R := fresh "R" in
      destruct (respond E t r) as [|[?|]] eqn:R
  | |- context [match answer ?E ?t ?m with _ => _ end] =>
      let R := fresh "R" in
      destruct (answer E t m) eqn:R
  | |- context [if answer ?E ?t ?m then _ else _] =>
      let R := fresh "R" in
      destruct (answer E t m) eqn:R
  | |- context [match get ?v ?k with _ => _ end] =>
      let G := fresh "G" in
      destruct (get v k) eqn:G
  end.

Ltac run_cases := run; repeat (split_env; run).

Ltac eval_emitted :=
  unfold emitted; run_cases; trace_norm; rewrite ?skipn_length_app.

(* ================================================================== *)
(** * Toggling a strategy *)
(* ================================================================== *)

Section ToggleStrategy.
Context (E : env) {P : Platform} {OP : Dash.Prototype}.

Lemma toggle_action_pause (status : value) :
  Vue.toggle_action status = "pause" <-> strict_eq_str status "active" = true.
Proof.
  unfold Vue.toggle_action.
  destruct (strict_eq_str status "active"); split; intros H;
    try reflexivity; discriminate.
Qed.

Lemma toggle_action_start (status : value) :
  Vue.toggle_action status = "start" <-> strict_eq_str status "active" = false.
Proof.
  unfold Vue.toggle_action.
  destruct (strict_eq_str status "active"); split; intros H;
    try reflexivity; discriminate.
Qed.

(** C9.  The only POST that [toggleStrategy] of the Vue client sends goes to
    [/api/strategies/<id>/<action>], where the action is [pause] exactly when
    [strategy.status === 'active'] and [start] for every other status; when
    the status or the id cannot be read, no POST goes out at all. *)
Theorem vue_toggleStrategy_action (strategy : value) (w : world Vue.data) :
  match get strategy "status", get strategy "id" with
  | Ok status, Ok id =>
      posts (emitted (Vue.toggleStrategy E strategy) w) =
        [mk_post ("/api/strategies/" ++ to_str id ++ "/" ++
                  Vue.toggle_action status)] /\
      (Vue.toggle_action status = "pause" <->
       strict_eq_str status "active" = true) /\
      (Vue.toggle_action status = "start" <->
       strict_eq_str status "active" = false)
  | _, _ => posts (emitted (Vue.toggleStrategy E strategy) w) = []
  end.
Proof.
  destruct (get strategy "status") as [status|e1] eqn:G1.
  - destruct (get strategy "id") as [id|e2] eqn:G2.
    + split; [|split].
      * unfold Vue.toggleStrategy, Vue.loadStrategies, Vue.showError.
        unfold emitted. run. rewrite G1. run. rewrite G2.
        run_cases; trace_norm; rewrite ?skipn_length_app; reflexivity.
      * apply toggle_action_pause.
      * apply toggle_action_start.
    + unfold Vue.toggleStrategy, Vue.showError.
      unfold emitted. run. rewrite G1. run. rewrite G2.
      run_cases; trace_norm; rewrite ?skipn_length_app; reflexivity.
  - unfold Vue.toggleStrategy, Vue.showError.
    unfold emitted. run. rewrite G1.
    run_cases; trace_norm; rewrite ?skipn_length_app; reflexivity.
Qed.

End ToggleStrategy.

(* ================================================================== *)
(** * The loads of the dashboard *)
(* ================================================================== *)

Section DashLoads.
Context (E : env) {P : Platform} {OP : Dash.Prototype}.

Lemma render_strategy_silent (x : value) : silent (Dash.render_strategy x).
Proof.
  intros w. unfold Dash.render_strategy. run_cases; reflexivity.
Qed.

Lemma render_position_silent (x : value) : silent (Dash.render_position x).
Proof.
  intros w. unfold Dash.render_position. run_cases; reflexivity.
Qed.

(** Every load of the dashboard has one shape: fetch, parse, and a rest that
    renders; a rest that is quiet gives the outcome above. *)
Lemma load_shape (url msg : string) (rest : value -> M Dash.state unit)
  (w : world Dash.state) :
  (forall v, quietly (rest v)) ->
  load_outcome E
    (try_catch
       (bind (fetch E (mk_get url)) (fun response =>
        bind (json response) (fun data => rest data)))
       (fun error => console_error msg (Some error)))
    url msg w.
Proof.
  intros Hrest. unfold load_outcome. run.
  destruct (respond E (trace w) (mk_get url)) as [|[v|]] eqn:R; run.
  - exists (store w), [EConsoleError msg (Some NetworkError)].
    trace_norm. repeat split; reflexivity.
  - destruct (Hrest v (mkWorld (store w)
                 (trace w ++ [EFetch (mk_get url) (Resolved (Some v))])))
      as [x [Hx Qx]].
    destruct (rest v _) as [[[]|e] [s2 t2]]; simpl in Hx; subst t2.
    + exists s2, x. run. trace_norm.
      split; [reflexivity|]. split; [assumption|discriminate].
    + exists s2, (x ++ [EConsoleError msg (Some e)])%list. run. trace_norm.
      split; [reflexivity|]. split; [|discriminate].
      apply quiet_app; [assumption|reflexivity].
  - exists (store w), [EConsoleError msg (Some SyntaxError)].
    trace_norm. repeat split; reflexivity.
Qed.

Create HintDb quietly.
#[local] Hint Resolve quietly_ret quietly_throw quietly_lift quietly_read
  quietly_modify quietly_bind quietly_try_catch quietly_mapM quietly_foldM
  : quietly.

Lemma quietly_set_content (id c : string) : quietly (Dash.set_content id c).
Proof.
  unfold Dash.set_content. apply quietly_bind; auto with quietly.
  intros s. destruct (Dash.edit_first _ _ _); auto with quietly.
Qed.

Lemma quietly_edit_selected (sel : Dash.elem -> bool)
  (f : Dash.elem -> Dash.elem) : quietly (Dash.edit_selected sel f).
Proof.
  unfold Dash.edit_selected. apply quietly_bind; auto with quietly.
  intros s. destruct (Dash.edit_first _ _ _); auto with quietly.
Qed.

Lemma quietly_query (sel : Dash.elem -> bool) : quietly (Dash.query sel).
Proof. unfold Dash.query. auto with quietly. Qed.

Lemma quietly_edit_node (node : option nat) (f : Dash.elem -> Dash.elem) :
  quietly (Dash.edit_node node f).
Proof. destruct node; simpl; auto with quietly. Qed.

#[local] Hint Resolve quietly_set_content quietly_edit_selected
  quietly_query quietly_edit_node : quietly.
#[local] Hint Extern 1 (quietly (emit _)) =>
  apply quietly_emit; reflexivity : quietly.

Ltac quietly_steps :=
  repeat first
    [ solve [auto with quietly]
    | apply quietly_bind; [solve [auto with quietly]|intros ?] ].

Lemma dash_loadStrategies_outcome (w : world Dash.state) :
  load_outcome E (Dash.loadStrategies E) "/api/strategy/list" "加载策略失败:" w.
Proof.
  unfold Dash.loadStrategies. apply load_shape. intros v.
  apply quietly_bind; auto with quietly. intros items.
  apply quietly_bind; auto with quietly.
  apply quietly_mapM. intros x. apply silent_quietly, render_strategy_silent.
Qed.

Lemma dash_updatePositions_outcome (w : world Dash.state) :
  load_outcome E (Dash.updatePositions E) "/api/monitor/positions"
    "更新持仓数据失败:" w.
Proof.
  unfold Dash.updatePositions. apply load_shape. intros v.
  apply quietly_bind; auto with quietly. intros items.
  apply quietly_bind; auto with quietly.
  apply quietly_mapM. intros x. apply silent_quietly, render_position_silent.
Qed.

Lemma dash_updateOverview_outcome (w : world Dash.state) :
  load_outcome E (Dash.updateOverview E) "/api/monitor/overview"
    "更新总览数据失败:" w.
Proof.
  unfold Dash.updateOverview. apply load_shape. intros v. quietly_steps.
Qed.

Lemma quietly_renderConfigForm (config : value) :
  quietly (Dash.renderConfigForm config).
Proof.
  unfold Dash.renderConfigForm. quietly_steps.
  apply quietly_foldM. intros [] kv.
  destruct (Dash.is_object (snd kv)); auto with quietly.
  unfold Dash.append_content. auto with quietly.
Qed.

Lemma dash_loadConfig_outcome (w : world Dash.state) :
  load_outcome E (Dash.loadConfig E) "/api/config" "加载配置失败:" w.
Proof.
  unfold Dash.loadConfig. apply load_shape. intros v.
  apply quietly_bind; auto with quietly. intros _.
  apply quietly_renderConfigForm.
Qed.

Lemma quietly_updateEquityChart (h : value) :
  quietly (Dash.updateEquityChart h).
Proof.
  unfold Dash.updateEquityChart. apply quietly_bind; auto with quietly.
  intros s. destruct (Dash.chart_equity s); auto with quietly.
  destruct (truthy h); quietly_steps.
Qed.

Lemma quietly_updatePnlChart (trades : value) :
  quietly (Dash.updatePnlChart trades).
Proof.
  unfold Dash.updatePnlChart. apply quietly_bind; auto with quietly.
  intros s. destruct (Dash.chart_pnl s); auto with quietly.
  destruct (truthy trades); quietly_steps.
Qed.

#[local] Hint Resolve quietly_updateEquityChart quietly_updatePnlChart
  : quietly.

Lemma load2_shape (msg : string) (rest : value -> value -> M Dash.state unit)
  (w : world Dash.state) :
  (forall v1 v2, quietly (rest v1 v2)) ->
  load2_outcome E
    (try_catch
       (bind (fetch E performance) (fun r1 =>
        bind (json r1) (fun d1 =>
        bind (fetch E trades) (fun r2 =>
        bind (json r2) (fun d2 => rest d1 d2)))))
       (fun error => console_error msg (Some error)))
    msg w.
Proof.
  intros Hrest. unfold load2_outcome. run.
  destruct (respond E (trace w) performance) as [|[v1|]] eqn:R1; run.
  - exists (store w). eexists. trace_norm. split; [reflexivity|].
    simpl. split; reflexivity.
  - destruct (respond E _ trades) as [|[v2|]] eqn:R2; run.
    + exists (store w). eexists. trace_norm. split; [reflexivity|].
      simpl. eexists. split; [reflexivity|]. split; [reflexivity|].
      intros _. split; reflexivity.
    + match goal with
      | |- context [rest v1 v2 ?w0] =>
          destruct (Hrest v1 v2 w0) as [x [Hx Qx]];
          destruct (rest v1 v2 w0) as [[[]|e] [s2 t2]]
      end; simpl in Hx; subst t2; run.
      * exists s2. eexists. trace_norm. split; [reflexivity|].
        simpl. eexists. split; [reflexivity|]. split; [assumption|].
        discriminate.
      * exists s2. eexists. trace_norm. split; [reflexivity|].
        simpl. eexists. split; [reflexivity|].
        split; [|discriminate].
        apply quiet_app; [assumption|reflexivity].
    + exists (store w). eexists. trace_norm. split; [reflexivity|].
      simpl. eexists. split; [reflexivity|]. split; [reflexivity|].
      intros _. split; reflexivity.
  - exists (store w). eexists. trace_norm. split; [reflexivity|].
    simpl. split; reflexivity.
Qed.

Lemma dash_updateCharts_outcome (w : world Dash.state) :
  load2_outcome E (Dash.updateCharts E) "更新图表失败:" w.
Proof.
  unfold Dash.updateCharts.
  apply (load2_shape "更新图表失败:"
           (fun d1 d2 =>
              bind (lift (get d1 "equity_history")) (fun h =>
              bind (Dash.updateEquityChart h) (fun _ =>
              Dash.updatePnlChart d2)))).
  intros v1 v2. quietly_steps.
Qed.

End DashLoads.

(* ================================================================== *)
(** * Failed loads *)
(* ================================================================== *)

Section FailedLoads.
Context (E : env) {P : Platform} {OP : Dash.Prototype}.

Ltac no_failed_fetch :=
  let r := fresh "r" in
  let a := fresh "a" in
  let Hin := fresh "Hin" in
  let Hf := fresh "Hf" in
  intros [r [a [Hin Hf]]]; exfalso; simpl in Hin;
  repeat (destruct Hin as [Hin|Hin];
          [try discriminate; injection Hin as <- <-; discriminate|]);
  exact Hin.

Ltac vue_failed_load :=
  unfold load_fails, emitted; run_cases; trace_norm;
  rewrite ?skipn_length_app;
  first [ no_failed_fetch | intros _; repeat split; reflexivity ].

(** A failed load of the Vue client changes nothing in the component, logs
    the error once and calls [showError] once. *)
Lemma vue_failed_load_outcome (v : vue_view) (w : world Vue.data) :
  let m := Vue.loadPageData E (vue_page v) in
  load_fails m w ->
  store (snd (m w)) = store w /\
  error_notifications (emitted m w) = 1 /\
  error_logs (emitted m w) = 1.
Proof.
  destruct v; cbn [vue_page]; unfold Vue.loadPageData;
    cbn [String.eqb Ascii.eqb Bool.eqb]; cbv zeta.
  - unfold Vue.loadDashboardData, Vue.updateCharts, Vue.showError.
    vue_failed_load.
  - unfold Vue.loadStrategies, Vue.showError. vue_failed_load.
  - unfold Vue.loadPositions, Vue.showError. vue_failed_load.
  - unfold Vue.loadRiskData, Vue.showError. vue_failed_load.
  - unfold Vue.loadSettings, Vue.showError. vue_failed_load.
Qed.

Lemma quiet_no_fetch (t : list event) (r : request) (a : response) :
  quiet t -> ~ In (EFetch r a) t.
Proof.
  unfold quiet. intros Q Hin.
  rewrite forallb_forall in Q. apply Q in Hin. discriminate.
Qed.

Lemma load_outcome_failed (m : M Dash.state unit) (url msg : string)
  (w : world Dash.state) :
  load_outcome E m url msg w ->
  load_fails m w ->
  store (snd (m w)) = store w /\
  error_notifications (emitted m w) = 0 /\
  error_logs (emitted m w) = 1.
Proof.
  intros [s' [tail [Hrun [Q Hfail]]]] [r [a [Hin Hf]]].
  rewrite (emitted_of_trace m w (EFetch (mk_get url)
             (respond E (trace w) (mk_get url)) :: tail)) in *
    by (rewrite Hrun; reflexivity).
  assert (F : failed (respond E (trace w) (mk_get url)) = true).
  { destruct Hin as [Heq|Hin].
    - injection Heq as <- <-. exact Hf.
    - exfalso. exact (quiet_no_fetch _ _ _ Q Hin). }
  destruct (Hfail F) as [-> ->]. rewrite Hrun. repeat split; reflexivity.
Qed.

Lemma load2_outcome_failed (m : M Dash.state unit) (msg : string)
  (w : world Dash.state) :
  load2_outcome E m msg w ->
  load_fails m w ->
  store (snd (m w)) = store w /\
  error_notifications (emitted m w) = 0 /\
  error_logs (emitted m w) = 1.
Proof.
  intros [s' [tail [Hrun Hcases]]] [r [a [Hin Hf]]].
  rewrite (emitted_of_trace m w (EFetch performance
             (respond E (trace w) performance) :: tail)) in *
    by (rewrite Hrun; reflexivity).
  destruct (failed (respond E (trace w) performance)) eqn:F1.
  - destruct Hcases as [-> ->]. rewrite Hrun. repeat split; reflexivity.
  - destruct Hcases as [tail2 [-> [Q Hfail]]].
    assert (F : failed (respond E
                  (trace w ++ [EFetch performance
                                 (respond E (trace w) performance)])
                  trades) = true).
    { destruct Hin as [Heq|[Heq|Hin]].
      - injection Heq as <- <-. congruence.
      - injection Heq as <- <-. exact Hf.
      - exfalso. exact (quiet_no_fetch _ _ _ Q Hin). }
    destruct (Hfail F) as [-> ->]. rewrite Hrun. repeat split; reflexivity.
Qed.

(** A failed load of the dashboard changes nothing in the page, the charts
    and the configuration, logs the error once, and notifies nobody. *)
Lemma dash_failed_load_outcome (v : dash_view) (w : world Dash.state) :
  let m := dash_load E v in
  load_fails m w ->
  store (snd (m w)) = store w /\
  error_notifications (emitted m w) = 0 /\
  error_logs (emitted m w) = 1.
Proof.
  destruct v; cbn [dash_load].
  - eapply load_outcome_failed, dash_loadStrategies_outcome.
  - eapply load_outcome_failed, dash_loadConfig_outcome.
  - eapply load_outcome_failed, dash_updateOverview_outcome.
  - eapply load_outcome_failed, dash_updatePositions_outcome.
  - eapply load2_outcome_failed, dash_updateCharts_outcome.
Qed.

End FailedLoads.

(** The load of the dashboard page reports an error even when it succeeds:
    once [accountStats] is replaced, the call of the missing [updateCharts]
    throws into the [catch]. *)
Lemma loadDashboardData_succeeds_with_error (E : env) (w : world Vue.data)
  (body : value) :
  respond E (trace w) (mk_get "/api/dashboard") = Resolved (Some body) ->
  nullish body = false ->
  let m := Vue.loadDashboardData E in
  Vue.accountStats (store (snd (m w))) = field body "accountStats" /\
  error_notifications (emitted m w) = 1.
Proof.
  intros R N m. subst m.
  unfold Vue.loadDashboardData, Vue.updateCharts, Vue.showError, emitted,
    field.
  run. rewrite R. run.
  destruct (get body "accountStats") eqn:G; run.
  - split; [reflexivity|]. trace_norm. rewrite skipn_length_app. reflexivity.
  - destruct body; simpl in *; discriminate.
Qed.

(** C1, as amended.  In both clients a failed load (the promise of [fetch]
    rejects, or the body is not JSON) leaves the state of every view as it
    was and logs the error exactly once.  The Vue client then calls
    [showError] exactly once; the dashboard script calls [showNotification]
    for none of its loads. *)
Theorem failed_load_keeps_state (E : env) (P : Platform)
  (OP : Dash.Prototype) :
  (forall (v : vue_view) (w : world Vue.data),
     let m := Vue.loadPageData E (vue_page v) in
     load_fails m w ->
     store (snd (m w)) = store w /\
     error_logs (emitted m w) = 1 /\
     error_notifications (emitted m w) = 1) /\
  (forall (v : dash_view) (w : world Dash.state),
     let m := dash_load E v in
     load_fails m w ->
     store (snd (m w)) = store w /\
     error_logs (emitted m w) = 1 /\
     error_notifications (emitted m w) = 0).
Proof.
  split; intros v w m H.
  - destruct (vue_failed_load_outcome E v w H) as [Hs [Hn Hl]]. auto.
  - destruct (dash_failed_load_outcome E v w H) as [Hs [Hn Hl]]. auto.
Qed.

Lemma failed_load_keeps_state_witness :
  (let m := Vue.loadPageData offline (vue_page VPositions) in
   store (snd (m vue_start)) = store vue_start /\
   error_logs (emitted m vue_start) = 1 /\
   error_notifications (emitted m vue_start) = 1) /\
  (let m := @dash_load offline plain_platform plain_prototype DCharts in
   store (snd (m dash_start)) = store dash_start /\
   error_logs (emitted m dash_start) = 1 /\
   error_notifications (emitted m dash_start) = 0).
Proof.
  split.
  - apply (proj1 (failed_load_keeps_state offline plain_platform
                    plain_prototype) VPositions vue_start).
    exists (mk_get "/api/positions"), Rejected. split.
    + vm_compute. left. reflexivity.
    + reflexivity.
  - apply (proj2 (failed_load_keeps_state offline plain_platform
                    plain_prototype) DCharts dash_start).
    exists (mk_get "/api/monitor/performance"), Rejected. split.
    + vm_compute. left. reflexivity.
    + reflexivity.
Defined.

(** C1 as stated fails on the dashboard script: with the server out of
    reach, [loadStrategies] fails and no error notification appears. *)
Lemma failed_load_without_notification :
  let m := @Dash.loadStrategies offline plain_platform in
  load_fails m dash_start /\ ~ failed_load_contract m dash_start.
Proof.
  split.
  - exists (mk_get "/api/strategy/list"), Rejected. split.
    + vm_compute. left. reflexivity.
    + reflexivity.
  - intros [_ H]. vm_compute in H. discriminate.
Qed.

(* ================================================================== *)
(** * The re-fetch after a toggle *)
(* ================================================================== *)

Section ToggleRefetch.
Context (E : env) {P : Platform} {OP : Dash.Prototype}.

Ltac in_cases Hin :=
  simpl in Hin;
  repeat (destruct Hin as [Hin|Hin];
          [try discriminate; try (injection Hin as <- <-)|]);
  try contradiction.

Lemma vue_toggleStrategy_refetch (strategy : value) (w : world Vue.data)
  (r : request) (a : response) :
  In (EFetch r a) (emitted (Vue.toggleStrategy E strategy) w) ->
  req_method r = POST ->
  a <> Rejected ->
  gets_to "/api/strategies" (emitted (Vue.toggleStrategy E strategy) w) = 1.
Proof.
  unfold Vue.toggleStrategy, Vue.loadStrategies, Vue.showError.
  eval_emitted; intros Hin Hm Ha; try reflexivity; exfalso;
    in_cases Hin; try discriminate; congruence.
Qed.

(** What [toggleStrategy] of the dashboard emits, by the answer to its
    POST. *)
Lemma dash_toggleStrategy_emitted (name : string) (w : world Dash.state) :
  let post := mk_post ("/api/strategy/" ++ name ++ "/toggle") in
  let a := respond E (trace w) post in
  exists tail,
    emitted (Dash.toggleStrategy E name) w = EFetch post a :: tail /\
    match a with
    | Resolved (Some result) =>
        if nullish result
        then requests tail = []
        else exists note a2 tail2,
               tail = note :: EFetch (mk_get "/api/strategy/list") a2 :: tail2
               /\ is_fetch note = false /\ quiet tail2
    | _ => requests tail = []
    end.
Proof.
  intros post a. subst a post.
  unfold Dash.toggleStrategy, Dash.showNotification, emitted. run.
  destruct (respond E (trace w) _) as [|[result|]] eqn:R; run.
  - trace_norm. rewrite skipn_length_app. eexists. split; reflexivity.
  - destruct (get result "is_active") as [v|e] eqn:G; run.
    + assert (N : nullish result = false)
        by (destruct result; try discriminate; reflexivity).
      rewrite N.
      destruct (truthy v); run;
        match goal with
        | |- context [Dash.loadStrategies E ?w0] =>
            destruct (dash_loadStrategies_outcome E w0)
              as [s' [tail [Hrun [Q _]]]];
            rewrite Hrun
        end; run; trace_norm; rewrite skipn_length_app;
        eexists; (split; [reflexivity|]);
        eexists; eexists; eexists; (split; [reflexivity|]);
        (split; [reflexivity|exact Q]).
    + assert (N : nullish result = true)
        by (destruct result; try discriminate; reflexivity).
      rewrite N. trace_norm. rewrite skipn_length_app.
      eexists. split; reflexivity.
  - trace_norm. rewrite skipn_length_app. eexists. split; reflexivity.
Qed.

Lemma dash_toggleStrategy_refetch (name : string) (w : world Dash.state)
  (r : request) (result : value) :
  In (EFetch r (Resolved (Some result)))
     (emitted (Dash.toggleStrategy E name) w) ->
  req_method r = POST ->
  nullish result = false ->
  gets_to "/api/strategy/list" (emitted (Dash.toggleStrategy E name) w) = 1.
Proof.
  intros Hin Hm Hn.
  destruct (dash_toggleStrategy_emitted name w) as [tail [Hem Hcase]].
  cbv zeta in Hem, Hcase.
  remember (respond E (trace w)
              (mk_post ("/api/strategy/" ++ name ++ "/toggle"))) as a.
  remember (mk_post ("/api/strategy/" ++ name ++ "/toggle")) as post.
  rewrite Hem in *. clear Hem Heqa.
  assert (no_requests_no_fetch : forall t, requests t = [] ->
            ~ In (EFetch r (Resolved (Some result))) t).
  { induction t as [|e t IH]; simpl; auto.
    destruct e; intros Hr; try discriminate;
      intros [Heq|Hin']; try discriminate; exact (IH Hr Hin'). }
  destruct Hin as [Heq|Hin].
  - injection Heq as <- ->. rewrite Hn in Hcase.
    destruct Hcase as [note [a2 [tail2 [-> [Hnote Q]]]]].
    subst post. rewrite !gets_to_cons, (quiet_no_gets _ _ Q).
    rewrite (not_fetch_not_get _ _ Hnote). reflexivity.
  - exfalso.
    destruct a as [|[result'|]].
    + exact (no_requests_no_fetch _ Hcase Hin).
    + destruct (nullish result').
      * exact (no_requests_no_fetch _ Hcase Hin).
      * destruct Hcase as [note [a2 [tail2 [-> [Hnote Q]]]]].
        destruct Hin as [Heq|[Heq|Hin]].
        -- subst note. discriminate.
        -- injection Heq as <- _. discriminate.
        -- exact (quiet_no_fetch _ _ _ Q Hin).
    + exact (no_requests_no_fetch _ Hcase Hin).
Qed.

End ToggleRefetch.

(** C3.  A call of [toggleStrategy] whose POST resolves successfully is
    followed by exactly one GET of the strategy list.  The Vue client does
    not look at the answer, so its POST has succeeded once the promise of
    [fetch] resolves; the dashboard script reads [result.is_active], so its
    POST has succeeded once the body is JSON other than [null]. *)
Theorem toggleStrategy_refetches_once (E : env) (P : Platform)
  (OP : Dash.Prototype) :
  (forall (strategy : value) (w : world Vue.data) r a,
     In (EFetch r a) (emitted (Vue.toggleStrategy E strategy) w) ->
     req_method r = POST ->
     a <> Rejected ->
     gets_to "/api/strategies"
       (emitted (Vue.toggleStrategy E strategy) w) = 1) /\
  (forall (strategyName : string) (w : world Dash.state) r result,
     In (EFetch r (Resolved (Some result)))
        (emitted (Dash.toggleStrategy E strategyName) w) ->
     req_method r = POST ->
     nullish result = false ->
     gets_to "/api/strategy/list"
       (emitted (Dash.toggleStrategy E strategyName) w) = 1).
Proof.
  split.
  - intros. eapply vue_toggleStrategy_refetch; eauto.
  - intros. eapply dash_toggleStrategy_refetch; eauto.
Qed.

Lemma toggleStrategy_refetches_once_witness :
  let s := VObj [("id", VStr "grid-1"); ("status", VStr "active")] in
  let E := always (VObj [("is_active", VBool true)]) in
  gets_to "/api/strategies"
    (emitted (@Vue.toggleStrategy E plain_platform s) vue_start) = 1
  /\
  gets_to "/api/strategy/list"
    (emitted (@Dash.toggleStrategy E plain_platform "grid-1") dash_start) = 1.
Proof.
  intros s E. split.
  - apply (proj1 (toggleStrategy_refetches_once E plain_platform
                    plain_prototype) s vue_start
             (mk_post "/api/strategies/grid-1/pause")
             (Resolved (Some (VObj [("is_active", VBool true)])))).
    + vm_compute. left. reflexivity.
    + reflexivity.
    + discriminate.
  - apply (proj2 (toggleStrategy_refetches_once E plain_platform
                    plain_prototype) "grid-1" dash_start
             (mk_post "/api/strategy/grid-1/toggle")
             (VObj [("is_active", VBool true)])).
    + vm_compute. left. reflexivity.
    + reflexivity.
    + reflexivity.
Defined.

(* ================================================================== *)
(** * Closing a position *)
(* ================================================================== *)

Section ClosePosition.
Context (E : env) {P : Platform} {OP : Dash.Prototype}.

(** What [closePosition] of the dashboard does, by the user's answer and
    the server's. *)
Lemma dash_closePosition_run (exchange symbol : string)
  (w : world Dash.state) :
  let q := close_question exchange symbol in
  let post := close_request exchange symbol in
  let ok := answer E (trace w) q in
  let a := respond E (trace w ++ [EConfirm q ok]) post in
  let m := Dash.closePosition E exchange symbol in
  if ok then
    if status_success a then
      exists a2 tail,
        emitted m w =
          EConfirm q true :: EFetch post a :: ENotify "平仓成功" "success"
          :: EFetch (mk_get "/api/monitor/positions") a2 :: tail /\
        quiet tail
    else
      exists logs note,
        emitted m w =
          EConfirm q true :: EFetch post a
          :: (logs ++ [ENotify note "error"])%list
        /\ quiet logs /\ store (snd (m w)) = store w
  else emitted m w = [EConfirm q false] /\ store (snd (m w)) = store w.
Proof.
  intros q post ok a m. subst q post ok a m.
  unfold Dash.closePosition, Dash.showNotification, close_question,
    close_request, emitted. run.
  destruct (answer E (trace w) _) eqn:A; run.
  2: { trace_norm. rewrite skipn_length_app. split; reflexivity. }
  destruct (respond E _ _) as [|[result|]] eqn:R; run;
    cbn [status_success].
  - trace_norm. rewrite skipn_length_app.
    exists [EConsoleError "平仓操作失败:" (Some NetworkError)]. eexists.
    repeat split; reflexivity.
  - destruct (get result "status") as [status|e] eqn:G; run.
    + destruct (strict_eq_str status "success") eqn:S; run.
      * match goal with
        | |- context [Dash.updatePositions E ?w0] =>
            destruct (dash_updatePositions_outcome E w0)
              as [s' [tail [Hrun [Q _]]]];
            rewrite Hrun
        end.
        run. trace_norm. rewrite skipn_length_app.
        eexists. exists tail. split; [reflexivity|exact Q].
      * destruct (get result "message") as [message|e] eqn:G2; run;
          trace_norm; rewrite skipn_length_app.
        -- exists []. eexists. repeat split; reflexivity.
        -- exists [EConsoleError "平仓操作失败:" (Some e)]. eexists.
           repeat split; reflexivity.
    + trace_norm. rewrite skipn_length_app.
      exists [EConsoleError "平仓操作失败:" (Some e)]. eexists.
      repeat split; reflexivity.
  - trace_norm. rewrite skipn_length_app.
    exists [EConsoleError "平仓操作失败:" (Some SyntaxError)]. eexists.
    repeat split; reflexivity.
Qed.

End ClosePosition.

Section ActionContract.
Context (E : env) {P : Platform} {OP : Dash.Prototype}.

Lemma dash_closePosition_contract (exchange symbol : string)
  (w : world Dash.state) (r : request) (a : response) :
  let m := Dash.closePosition E exchange symbol in
  In (EFetch r a) (emitted m w) ->
  req_method r = POST ->
  if status_success a
  then gets_to "/api/monitor/positions" (emitted m w) = 1 /\
       error_notifications (emitted m w) = 0
  else gets_to "/api/monitor/positions" (emitted m w) = 0 /\
       error_notifications (emitted m w) = 1 /\
       store (snd (m w)) = store w.
Proof.
  intros m Hin Hm. subst m.
  pose proof (dash_closePosition_run E exchange symbol w) as H.
  cbv zeta in H.
  destruct (answer E (trace w) _).
  2: { destruct H as [Hem _]. rewrite Hem in Hin.
       destruct Hin as [Heq|[]]. discriminate. }
  remember (respond E _ (close_request exchange symbol)) as a0.
  clear Heqa0.
  destruct (status_success a0) eqn:S0.
  - destruct H as [a2 [tail [Hem Q]]]. rewrite Hem in *.
    assert (a = a0).
    { destruct Hin as [Heq|[Heq|[Heq|[Heq|Hin]]]]; try discriminate.
      - injection Heq as _ <-. reflexivity.
      - injection Heq as <- _. discriminate.
      - exfalso. exact (quiet_no_fetch _ _ _ Q Hin). }
    subst a0. rewrite S0. split.
    + rewrite !gets_to_cons, (quiet_no_gets _ _ Q). reflexivity.
    + rewrite !error_notifications_cons, (quiet_no_notifications _ Q).
      reflexivity.
  - destruct H as [logs [note [Hem [Q Hs]]]]. rewrite Hem in *.
    assert (a = a0).
    { destruct Hin as [Heq|[Heq|Hin]]; try discriminate.
      - injection Heq as _ <-. reflexivity.
      - exfalso. apply in_app_or in Hin. destruct Hin as [Hin|[Heq|[]]].
        + exact (quiet_no_fetch _ _ _ Q Hin).
        + discriminate. }
    subst a0. rewrite S0. repeat split.
    + rewrite !gets_to_cons, gets_to_app, (quiet_no_gets _ _ Q).
      reflexivity.
    + rewrite !error_notifications_cons, error_notifications_app,
        (quiet_no_notifications _ Q).
      reflexivity.
    + exact Hs.
Qed.

(** What [closePosition] of the Vue client does, by what it can read of the
    position, the answer to its POST and the answer to the re-fetch. *)
Lemma vue_closePosition_run (position : value) (w : world Vue.data) :
  let m := Vue.closePosition E position in
  match get position "id" with
  | Throw _ =>
      requests (emitted m w) = [] /\
      error_notifications (emitted m w) = 1 /\
      store (snd (m w)) = store w
  | Ok id =>
      let post := mk_post ("/api/positions/" ++ to_str id ++ "/close") in
      let a := respond E (trace w) post in
      match a with
      | Rejected =>
          requests (emitted m w) = [post] /\
          error_notifications (emitted m w) = 1 /\
          store (snd (m w)) = store w
      | Resolved _ =>
          let a2 := respond E (trace w ++ [EFetch post a])
                      (mk_get "/api/positions") in
          requests (emitted m w) = [post; mk_get "/api/positions"] /\
          error_notifications (emitted m w) =
            (if brings_data a2 then 0 else 1) /\
          (brings_data a2 = false -> store (snd (m w)) = store w)
      end
  end.
Proof.
  cbv zeta.
  unfold Vue.closePosition, Vue.loadPositions, Vue.showError, emitted.
  run.
  destruct (get position "id") as [id|e] eqn:G; run.
  2: { trace_norm. rewrite skipn_length_app. repeat split. }
  destruct (respond E (trace w) _) as [|b] eqn:R; run.
  { trace_norm. rewrite skipn_length_app. repeat split. }
  destruct (respond E _ (mk_get "/api/positions")) as [|[body|]] eqn:R2;
    run; cbn [brings_data].
  - trace_norm. rewrite skipn_length_app. repeat split.
  - destruct (get body "positions") as [l|e] eqn:G1; run.
    + assert (N : nullish body = false)
        by (destruct body; try discriminate; reflexivity).
      assert (G2 : exists s, get body "stats" = Ok s)
        by (destruct body; try discriminate; eexists; reflexivity).
      destruct G2 as [s G2]. rewrite G2, N. run.
      trace_norm. rewrite skipn_length_app.
      repeat split. discriminate.
    + assert (N : nullish body = true)
        by (destruct body; try discriminate; reflexivity).
      rewrite N. trace_norm. rewrite skipn_length_app. repeat split.
  - trace_norm. rewrite skipn_length_app. repeat split.
Qed.
End ActionContract.

(** C2, as amended.  [closePosition] of the dashboard script does what the
    claim says: when the answer to its POST is JSON with
    [status === "success"] it re-fetches the positions, once, and shows no
    error; on any other answer (another status, a body that is not JSON, a
    rejected promise) it shows exactly one error notification, sends nothing
    more and leaves the state as it was.  [closePosition] of the Vue client
    does not read the answer.  Whenever the promise of its POST resolves it
    re-fetches the positions, once, and sends nothing else; the one error it
    can show then is that of the re-fetch: [showError] is called once when
    the re-fetch brings nothing to read (its promise rejects, or the body is
    not JSON or is [null]), with the state as it was, and not at all when it
    does.  When the promise of the POST rejects, and when the position has
    no [id] to read so that no POST goes out, nothing more is sent,
    [showError] is called once and the state is as it was. *)
Theorem closePosition_contract (E : env) (P : Platform)
  (OP : Dash.Prototype) :
  (forall (exchange symbol : string) (w : world Dash.state) r a,
     let m := Dash.closePosition E exchange symbol in
     In (EFetch r a) (emitted m w) ->
     req_method r = POST ->
     if status_success a
     then gets_to "/api/monitor/positions" (emitted m w) = 1 /\
          error_notifications (emitted m w) = 0
     else gets_to "/api/monitor/positions" (emitted m w) = 0 /\
          error_notifications (emitted m w) = 1 /\
          store (snd (m w)) = store w) /\
  (forall (position : value) (w : world Vue.data),
     let m := Vue.closePosition E position in
     match get position "id" with
     | Throw _ =>
         requests (emitted m w) = [] /\
         error_notifications (emitted m w) = 1 /\
         store (snd (m w)) = store w
     | Ok id =>
         let post := mk_post ("/api/positions/" ++ to_str id ++ "/close") in
         let a := respond E (trace w) post in
         match a with
         | Rejected =>
             requests (emitted m w) = [post] /\
             error_notifications (emitted m w) = 1 /\
             store (snd (m w)) = store w
         | Resolved _ =>
             let a2 := respond E (trace w ++ [EFetch post a])
                         (mk_get "/api/positions") in
             requests (emitted m w) = [post; mk_get "/api/positions"] /\
             error_notifications (emitted m w) =
               (if brings_data a2 then 0 else 1) /\
             (brings_data a2 = false -> store (snd (m w)) = store w)
         end
     end).
Proof.
  split.
  - intros. eapply dash_closePosition_contract; eauto.
  - intros position w. exact (vue_closePosition_run E position w).
Qed.

Lemma closePosition_contract_witness :
  (let m := @Dash.closePosition (always refusal) plain_platform
              "binance" "BTCUSDT" in
   gets_to "/api/monitor/positions" (emitted m dash_start) = 0 /\
   error_notifications (emitted m dash_start) = 1 /\
   store (snd (m dash_start)) = store dash_start) /\
  (let m := @Vue.closePosition (always refusal) plain_platform a_position in
   requests (emitted m vue_start) =
     [mk_post "/api/positions/p1/close"; mk_get "/api/positions"] /\
   error_notifications (emitted m vue_start) = 0).
Proof.
  split.
  - apply (proj1 (closePosition_contract (always refusal) plain_platform
                    plain_prototype) "binance" "BTCUSDT" dash_start
             (close_request "binance" "BTCUSDT")
             (Resolved (Some refusal))).
    + vm_compute. right. left. reflexivity.
    + reflexivity.
  - pose proof (proj2 (closePosition_contract (always refusal)
                         plain_platform plain_prototype)
                  a_position vue_start) as H.
    cbv zeta in H. destruct H as [Hr [Hn _]]. split; [exact Hr|exact Hn].
Defined.

(** C2 as stated fails on the Vue client: the server refuses to close the
    position, and the client re-fetches all the same, overwrites the
    positions it held, and shows no error. *)
Lemma refused_close_is_refetched :
  ~ action_contract
      (@Vue.closePosition (always refusal) plain_platform a_position)
      vue_start "/api/positions".
Proof.
  intros H.
  specialize (H (mk_post "/api/positions/p1/close")
                (Resolved (Some refusal))).
  cbn [status_success refusal get lookup String.eqb Ascii.eqb Bool.eqb
       strict_eq_str] in H.
  destruct H as [Hn _].
  - vm_compute. left. reflexivity.
  - reflexivity.
  - vm_compute in Hn. lia.
Qed.

(* ================================================================== *)
(** * Snapshots *)
(* ================================================================== *)

Section Snapshots.
Context (E : env) {P : Platform}.

Lemma last_body_app (url : string) (t x : list event) (acc : option value) :
  last_body url (t ++ x) acc = last_body url x (last_body url t acc).
Proof.
  revert acc. induction t as [|e t IH]; intros acc; simpl; auto.
Qed.

Lemma get_ok_not_nullish (v : value) (k : string) (x : value) :
  get v k = Ok x -> nullish v = false.
Proof. destruct v; simpl; intros H; try discriminate; reflexivity. Qed.

Lemma get_throw_nullish (v : value) (k : string) (e : exn) :
  get v k = Throw e -> nullish v = true.
Proof. destruct v; simpl; intros H; try discriminate; reflexivity. Qed.

Lemma get_ok_field (v : value) (k : string) (x : value) :
  get v k = Ok x -> field v k = x.
Proof. unfold field. intros ->. reflexivity. Qed.

Ltac get_facts :=
  repeat match goal with
  | G : get ?v ?k = Ok ?x |- _ =>
      pose proof (get_ok_not_nullish _ _ _ G);
      pose proof (get_ok_field _ _ _ G);
      clear G
  | G : get ?v ?k = Throw ?e |- _ =>
      pose proof (get_throw_nullish _ _ _ G);
      clear G
  end.

Ltac inv_goal Inv :=
  let v := fresh "v" in
  intros v; specialize (Inv v); revert Inv; get_facts;
  destruct v;
  cbn [slice snapshot vue_endpoint store trace Vue.set_accountStats
       Vue.set_strategies Vue.set_positions Vue.set_positionStats
       Vue.set_riskMetrics Vue.set_riskAlerts Vue.set_exchanges
       Vue.set_notificationSettings Vue.set_systemSettings
       Vue.set_currentPage Vue.set_sidebarCollapsed Vue.set_showModal
       Vue.set_modalTitle Vue.set_modalConfirmText Vue.set_modalCallback
       Vue.accountStats Vue.strategies Vue.positions Vue.positionStats
       Vue.riskMetrics Vue.riskAlerts Vue.exchanges
       Vue.notificationSettings Vue.systemSettings];
  rewrite ?last_body_app;
  cbn [last_body fetched mk_get mk_post mk_post_json String.eqb Ascii.eqb
       Bool.eqb andb negb];
  repeat match goal with
         | H : nullish ?x = _ |- _ => rewrite ?H; clear H
         end;
  cbn [negb andb];
  intros Inv; subst; try congruence; try exact Inv.

Ltac keeps :=
  let w := fresh "w" in
  let Inv := fresh "Inv" in
  intros w Inv; run_cases; eexists; (split; [reflexivity|]);
  try (exfalso; get_facts; congruence);
  inv_goal Inv.

Lemma loadDashboardData_keeps : keeps_inv (Vue.loadDashboardData E).
Proof.
  unfold Vue.loadDashboardData, Vue.updateCharts, Vue.showError. keeps.
Qed.

Lemma loadStrategies_keeps : keeps_inv (Vue.loadStrategies E).
Proof. unfold Vue.loadStrategies, Vue.showError. keeps. Qed.

Lemma loadPositions_keeps : keeps_inv (Vue.loadPositions E).
Proof. unfold Vue.loadPositions, Vue.showError. keeps. Qed.

Lemma loadRiskData_keeps : keeps_inv (Vue.loadRiskData E).
Proof. unfold Vue.loadRiskData, Vue.showError. keeps. Qed.

Lemma loadSettings_keeps : keeps_inv (Vue.loadSettings E).
Proof. unfold Vue.loadSettings, Vue.showError. keeps. Qed.

Lemma loadPageData_keeps (page : string) : keeps_inv (Vue.loadPageData E page).
Proof.
  unfold Vue.loadPageData.
  destruct (String.eqb page "dashboard"); [apply loadDashboardData_keeps|].
  destruct (String.eqb page "strategies"); [apply loadStrategies_keeps|].
  destruct (String.eqb page "positions"); [apply loadPositions_keeps|].
  destruct (String.eqb page "risk"); [apply loadRiskData_keeps|].
  destruct (String.eqb page "settings"); [apply loadSettings_keeps|].
  intros w Inv. exists w. split; [reflexivity|exact Inv].
Qed.

(** Runs the load that an action ends with, by its lemma. *)
Ltac then_load lemma Inv :=
  match goal with
  | |- context [match ?L ?w1 with _ => _ end] =>
      let Inv1 := fresh "Inv" in
      let w' := fresh "w'" in
      let Hrun := fresh "Hrun" in
      let Inv' := fresh "Inv'" in
      assert (Inv1 : snapshot_inv w1) by (inv_goal Inv);
      destruct (lemma w1 Inv1) as [w' [Hrun Inv']];
      rewrite Hrun; run
  end.

Ltac unchanged Inv := run; inv_goal Inv.

Lemma toggleStrategy_keeps (strategy : value) (w : world Vue.data) :
  snapshot_inv w -> snapshot_inv (snd (Vue.toggleStrategy E strategy w)).
Proof.
  intros Inv. unfold Vue.toggleStrategy, Vue.showError. run.
  destruct (get strategy "status"); run; [|unchanged Inv].
  destruct (get strategy "id"); run; [|unchanged Inv].
  destruct (respond E _ _) as [|b]; run; [unchanged Inv|].
  then_load loadStrategies_keeps Inv. exact Inv'.
Qed.

Lemma createStrategy_keeps (strategyData : value) (w : world Vue.data) :
  snapshot_inv w -> snapshot_inv (snd (Vue.createStrategy E strategyData w)).
Proof.
  intros Inv. unfold Vue.createStrategy, Vue.closeModal, Vue.showError. run.
  destruct (respond E _ _) as [|b]; run; [unchanged Inv|].
  then_load loadStrategies_keeps Inv. destruct w'. inv_goal Inv'.
Qed.

Lemma closePosition_keeps (position : value) (w : world Vue.data) :
  snapshot_inv w -> snapshot_inv (snd (Vue.closePosition E position w)).
Proof.
  intros Inv. unfold Vue.closePosition, Vue.showError. run.
  destruct (get position "id"); run; [|unchanged Inv].
  destruct (respond E _ _) as [|b]; run; [unchanged Inv|].
  then_load loadPositions_keeps Inv. exact Inv'.
Qed.

Lemma handleAlert_keeps (alert : value) (w : world Vue.data) :
  snapshot_inv w -> snapshot_inv (snd (Vue.handleAlert E alert w)).
Proof.
  intros Inv. unfold Vue.handleAlert, Vue.showError. run.
  destruct (get alert "id"); run; [|unchanged Inv].
  destruct (respond E _ _) as [|b]; run; [unchanged Inv|].
  then_load loadRiskData_keeps Inv. exact Inv'.
Qed.

Lemma spawn_load_keeps (page : string) (w : world Vue.data) :
  snapshot_inv w -> snapshot_inv (snd (spawn (Vue.loadPageData E page) w)).
Proof.
  intros Inv. destruct (loadPageData_keeps page w Inv) as [w' [Hrun Inv']].
  unfold spawn. rewrite Hrun. exact Inv'.
Qed.

(** Every method but [testExchangeConnection] keeps the invariant. *)
Lemma run_op_keeps (op : vue_op) (w : world Vue.data) :
  tests_connection op = false ->
  snapshot_inv w -> snapshot_inv (snd (run_op E op w)).
Proof.
  intros Hop Inv. destruct op; try discriminate Hop; cbn [run_op].
  - apply spawn_load_keeps, Inv.
  - unfold Vue.tick. run. apply spawn_load_keeps.
    destruct w; exact Inv.
  - unfold Vue.changePage. run. apply spawn_load_keeps. inv_goal Inv.
  - unfold Vue.toggleSidebar. unchanged Inv.
  - destruct (loadPageData_keeps page w Inv) as [w' [Hrun Inv']].
    rewrite Hrun. exact Inv'.
  - apply toggleStrategy_keeps, Inv.
  - unfold Vue.showNewStrategyModal. unchanged Inv.
  - apply createStrategy_keeps, Inv.
  - apply closePosition_keeps, Inv.
  - apply handleAlert_keeps, Inv.
  - unfold Vue.saveRiskSettings, Vue.showSuccess, Vue.showError.
    run. destruct (respond E _ _) as [|b]; unchanged Inv.
  - unfold Vue.saveSettings, Vue.showSuccess, Vue.showError.
    run. destruct (respond E _ _) as [|b]; unchanged Inv.
  - unfold Vue.closeModal. unchanged Inv.
Qed.

Lemma snapshot_inv_start : snapshot_inv vue_start.
Proof. intros v. reflexivity. Qed.

Lemma run_ops_keeps (ops : list vue_op) (w : world Vue.data) :
  forallb (fun op => negb (tests_connection op)) ops = true ->
  snapshot_inv w -> snapshot_inv (run_ops E ops w).
Proof.
  revert w. induction ops as [|op ops IH]; intros w Hops Inv; simpl; auto.
  simpl in Hops. apply andb_prop in Hops. destruct Hops as [Hop Hops].
  apply IH; auto. apply run_op_keeps; auto.
  destruct (tests_connection op); [discriminate|reflexivity].
Qed.

(** [testExchangeConnection] writes one field of one exchange, or
    nothing. *)
Lemma testExchangeConnection_writes (i : nat) (w : world Vue.data) :
  let d := store w in
  let d' := store (snd (Vue.testExchangeConnection E i w)) in
  d' = d \/
  exists body status exchange',
    In (EFetch (mk_post_json
                  ("/api/exchanges/" ++
                   to_str (field (Vue.item (Vue.exchanges d) i) "id") ++
                   "/test")
                  (VObj [("apiKey",
                          field (Vue.item (Vue.exchanges d) i) "apiKey");
                         ("secretKey",
                          field (Vue.item (Vue.exchanges d) i) "secretKey")]))
               (Resolved (Some body)))
       (emitted (Vue.testExchangeConnection E i) w) /\
    get body "status" = Ok status /\
    set (Vue.item (Vue.exchanges d) i) "status" status = Ok exchange' /\
    d' = Vue.set_exchanges (Vue.with_item (Vue.exchanges d) i exchange') d.
Proof.
  cbv zeta.
  unfold Vue.testExchangeConnection, Vue.showSuccess, Vue.showError, emitted.
  run.
  destruct (get (Vue.item (Vue.exchanges (store w)) i) "id") eqn:G1; run;
    [|left; reflexivity].
  destruct (get (Vue.item (Vue.exchanges (store w)) i) "apiKey") eqn:G2; run;
    [|left; reflexivity].
  destruct (get (Vue.item (Vue.exchanges (store w)) i) "secretKey") eqn:G3;
    run; [|left; reflexivity].
  rewrite (get_ok_field _ _ _ G1), (get_ok_field _ _ _ G2),
    (get_ok_field _ _ _ G3).
  destruct (respond E _ _) as [|[body|]] eqn:R; run;
    try (left; reflexivity).
  destruct (get body "status") as [status|] eqn:G4; run;
    [|left; reflexivity].
  destruct (set (Vue.item (Vue.exchanges (store w)) i) "status" status)
    as [exchange'|] eqn:S; run; [|left; reflexivity].
  right. exists body, status, exchange'.
  split; [|split; [exact G4|split; [exact S|]]].
  - destruct (get exchange' "name"); run; trace_norm;
      rewrite skipn_length_app; left; reflexivity.
  - destruct (get exchange' "name"); run; reflexivity.
Qed.

End Snapshots.

(** C6, as amended.  In the Vue client every method except
    [testExchangeConnection] keeps each view's data equal to what the most
    recent successful fetch of the view's endpoint brought, taken whole (the
    initial data before the first such fetch); this holds after any sequence
    of those methods from the start.  [testExchangeConnection] is the one
    method that writes a single field into what a view holds: the [status]
    of the tested exchange, taken from the answer to the test, with the rest
    of the component unchanged. *)
Theorem views_hold_last_snapshot (E : env) (P : Platform) :
  (forall (op : vue_op) (w : world Vue.data),
     tests_connection op = false ->
     snapshot_inv w -> snapshot_inv (snd (run_op E op w))) /\
  (forall ops : list vue_op,
     forallb (fun op => negb (tests_connection op)) ops = true ->
     snapshot_inv (run_ops E ops vue_start)) /\
  (forall (i : nat) (w : world Vue.data),
     let d := store w in
     let exchange := Vue.item (Vue.exchanges d) i in
     let d' := store (snd (Vue.testExchangeConnection E i w)) in
     d' = d \/
     exists body status exchange',
       In (EFetch (mk_post_json
                     ("/api/exchanges/" ++ to_str (field exchange "id") ++
                      "/test")
                     (VObj [("apiKey", field exchange "apiKey");
                            ("secretKey", field exchange "secretKey")]))
                  (Resolved (Some body)))
          (emitted (Vue.testExchangeConnection E i) w) /\
       get body "status" = Ok status /\
       set exchange "status" status = Ok exchange' /\
       d' = Vue.set_exchanges
              (Vue.with_item (Vue.exchanges d) i exchange') d).
Proof.
  split; [|split].
  - intros op w. apply run_op_keeps.
  - intros ops Hops. apply run_ops_keeps; auto. apply snapshot_inv_start.
  - intros i w. apply testExchangeConnection_writes.
Qed.

Lemma views_hold_last_snapshot_witness :
  snapshot_inv
    (snd (@run_op offline plain_platform (OpChangePage "risk") vue_start)) /\
  snapshot_inv (@run_ops (always refusal) plain_platform a_session vue_start).
Proof.
  split.
  - apply (proj1 (views_hold_last_snapshot offline plain_platform)
             (OpChangePage "risk") vue_start).
    + reflexivity.
    + intros v. reflexivity.
  - apply (proj1 (proj2 (views_hold_last_snapshot (always refusal)
                           plain_platform)) a_session).
    reflexivity.
Defined.

(** C6 as stated fails on the Vue client: after the settings have been
    loaded and the first exchange tested, the settings view holds a status
    that no fetch of the settings brought. *)
Lemma tested_exchange_is_no_snapshot :
  ~ snapshot_inv
      (@run_ops settings_server plain_platform
         [OpLoadPageData "settings"; OpTestExchangeConnection 0] vue_start).
Proof.
  intros H. specialize (H VSettings). vm_compute in H. discriminate H.
Qed.

(* ================================================================== *)
(** * Switching views *)
(* ================================================================== *)

Section SwitchPanel.

Lemma has_class_remove_other (c c' : string) (e : Dash.elem) :
  String.eqb c' c = false ->
  Dash.has_class c (Dash.remove_class c' e) = Dash.has_class c e.
Proof.
  intros Hc. unfold Dash.has_class, Dash.remove_class. simpl.
  induction (Dash.el_classes e) as [|x l IH]; simpl; auto.
  destruct (String.eqb c' x) eqn:X; simpl.
  - rewrite IH. apply String.eqb_eq in X. subst x.
    rewrite String.eqb_sym, Hc. reflexivity.
  - rewrite IH. reflexivity.
Qed.

Lemma has_class_remove_same (c : string) (e : Dash.elem) :
  Dash.has_class c (Dash.remove_class c e) = false.
Proof.
  unfold Dash.has_class, Dash.remove_class. simpl.
  induction (Dash.el_classes e) as [|x l IH]; simpl; auto.
  destruct (String.eqb c x) eqn:X; simpl; auto.
  rewrite X. exact IH.
Qed.

Lemma has_class_add_same (c : string) (e : Dash.elem) :
  Dash.has_class c (Dash.add_class c e) = true.
Proof.
  unfold Dash.add_class. destruct (Dash.has_class c e) eqn:H; auto.
  unfold Dash.has_class. simpl. rewrite existsb_app. simpl.
  rewrite String.eqb_refl. apply orb_true_r.
Qed.

Lemma has_class_add_other (c c' : string) (e : Dash.elem) :
  String.eqb c c' = false ->
  Dash.has_class c (Dash.add_class c' e) = Dash.has_class c e.
Proof.
  intros Hc. unfold Dash.add_class.
  destruct (Dash.has_class c' e); auto.
  unfold Dash.has_class. simpl. rewrite existsb_app. simpl.
  rewrite Hc. rewrite !orb_false_r. reflexivity.
Qed.

Lemma alike_refl (e : Dash.elem) : alike e e.
Proof. repeat split. Qed.

Lemma alike_trans (a b c : Dash.elem) : alike a b -> alike b c -> alike a c.
Proof.
  unfold alike. intros [? [? [? [? ?]]]] [? [? [? [? ?]]]].
  repeat split; congruence.
Qed.

Lemma alike_remove_active (e : Dash.elem) :
  alike e (Dash.remove_class "active" e).
Proof.
  repeat split. unfold Dash.is_panel.
  symmetry. apply has_class_remove_other. reflexivity.
Qed.

Lemma alike_add_active (e : Dash.elem) :
  alike e (Dash.add_class "active" e).
Proof.
  unfold alike, Dash.is_panel.
  rewrite has_class_add_other by reflexivity.
  unfold Dash.add_class. destruct (Dash.has_class "active" e);
    repeat split.
Qed.

Lemma for_each_alike (sel : Dash.elem -> bool) (d : list Dash.elem) :
  Forall2 alike d (Dash.for_each sel (Dash.remove_class "active") d).
Proof.
  induction d as [|e d IH]; simpl; constructor; auto.
  destruct (sel e); [apply alike_remove_active|apply alike_refl].
Qed.

Lemma for_each_no_new_active (sel : Dash.elem -> bool) (d : list Dash.elem) :
  filter active_panel d = [] ->
  filter active_panel (Dash.for_each sel (Dash.remove_class "active") d) = [].
Proof.
  induction d as [|e d IH]; simpl; auto.
  destruct (active_panel e) eqn:A; [discriminate|]. intros H.
  assert (active_panel (if sel e then Dash.remove_class "active" e else e)
          = false) as ->.
  { destruct (sel e); auto. unfold active_panel.
    rewrite has_class_remove_same. apply andb_false_r. }
  auto.
Qed.

Lemma deactivated_panels (d : list Dash.elem) :
  filter active_panel
    (Dash.for_each Dash.is_panel (Dash.remove_class "active") d) = [].
Proof.
  induction d as [|e d IH]; simpl; auto.
  assert (active_panel
            (if Dash.is_panel e then Dash.remove_class "active" e else e)
          = false) as ->.
  { destruct (Dash.is_panel e) eqn:Pn; unfold active_panel.
    - rewrite has_class_remove_same. apply andb_false_r.
    - rewrite Pn. reflexivity. }
  exact IH.
Qed.

Lemma first_of_alike (id : string) (d d' : list Dash.elem) :
  Forall2 alike d d' ->
  match Dash.first_of (Dash.has_id id) d,
        Dash.first_of (Dash.has_id id) d' with
  | Some e, Some e' => alike e e'
  | None, None => True
  | _, _ => False
  end.
Proof.
  unfold Dash.first_of.
  induction 1 as [|e e' d d' He Hd IH]; simpl; auto.
  assert (Hid : Dash.has_id id e' = Dash.has_id id e).
  { unfold Dash.has_id. destruct He as [_ [_ [Hi _]]]. rewrite Hi.
    reflexivity. }
  rewrite Hid. destruct (Dash.has_id id e); auto.
Qed.

(** Activating the element with the given id in a document without an
    active panel. *)
Lemma activate_by_id (id : string) (d : list Dash.elem) (e : Dash.elem) :
  filter active_panel d = [] ->
  Dash.first_of (Dash.has_id id) d = Some e ->
  Dash.is_panel e = true ->
  exists d',
    Dash.edit_first (Dash.has_id id) (Dash.add_class "active") d = Some d' /\
    active_panels d' = [Some id] /\
    Forall2 alike d d'.
Proof.
  unfold Dash.first_of.
  induction d as [|x d IH]; simpl; [discriminate|].
  destruct (active_panel x) eqn:A; [discriminate|]. intros Hno.
  destruct (Dash.has_id id x) eqn:Hid.
  - intros Hx Hp. injection Hx as ->.
    eexists. split; [reflexivity|]. split.
    + unfold active_panels. simpl.
      assert (active_panel (Dash.add_class "active" e) = true) as ->.
      { unfold active_panel, Dash.is_panel.
        rewrite has_class_add_other by reflexivity.
        unfold Dash.is_panel in Hp. rewrite Hp, has_class_add_same.
        reflexivity. }
      rewrite Hno. simpl.
      destruct (alike_add_active e) as [_ [_ [Hi _]]]. rewrite <- Hi.
      unfold Dash.has_id, Dash.opt_eqb in Hid.
      destruct (Dash.el_id e); [|discriminate].
      apply String.eqb_eq in Hid. subst. reflexivity.
    + constructor; [apply alike_add_active|].
      clear. induction d; constructor; auto using alike_refl.
  - intros Hx Hp. destruct (IH Hno Hx Hp) as [d' [He [Ha Hal]]].
    rewrite He. eexists. split; [reflexivity|]. split.
    + unfold active_panels in *. simpl. rewrite A. exact Ha.
    + constructor; [apply alike_refl|exact Hal].
Qed.

(** Activating a link changes no panel. *)
Lemma activate_link (sel : Dash.elem -> bool) (d d' : list Dash.elem) :
  (forall e, In e d -> sel e = true -> Dash.is_panel e = false) ->
  Dash.edit_first sel (Dash.add_class "active") d = Some d' ->
  active_panels d' = active_panels d.
Proof.
  revert d'. induction d as [|x d IH]; simpl; intros d' Hsel; [discriminate|].
  destruct (sel x) eqn:Sx.
  - intros H. injection H as <-. unfold active_panels. simpl.
    assert (Px : Dash.is_panel x = false) by (apply Hsel; auto).
    assert (active_panel x = false) as ->
      by (unfold active_panel; rewrite Px; reflexivity).
    assert (active_panel (Dash.add_class "active" x) = false) as ->.
    { unfold active_panel, Dash.is_panel in *.
      rewrite has_class_add_other by reflexivity. rewrite Px. reflexivity. }
    reflexivity.
  - destruct (Dash.edit_first sel _ d) as [d1|] eqn:Ed; [|discriminate].
    intros H. injection H as <-. unfold active_panels in *. simpl.
    assert (IH' : map Dash.el_id (filter active_panel d1) =
                  map Dash.el_id (filter active_panel d))
      by (apply IH; auto).
    destruct (active_panel x); simpl; rewrite IH'; reflexivity.
Qed.

Lemma links_not_panels_alike (d d' : list Dash.elem) :
  Forall2 alike d d' ->
  links_are_not_panels d = true ->
  forall e panelId, In e d' -> Dash.is_nav_link_to panelId e = true ->
    Dash.is_panel e = false.
Proof.
  unfold links_are_not_panels.
  induction 1 as [|x x' d d' Hx Hd IH]; simpl; [contradiction|].
  intros H. apply andb_prop in H. destruct H as [Hx0 Hd0].
  intros e panelId [<-|Hin] Hl.
  - destruct Hx as [Ht [Hn [Hi [Hh Hp]]]].
    unfold Dash.is_nav_link_to, Dash.is_nav_link in Hl.
    unfold Dash.is_nav_link in Hx0.
    rewrite <- Ht, <- Hn in Hl. rewrite <- Hp.
    destruct (String.eqb (Dash.el_tag x) "a" && Dash.el_in_nav x);
      [|discriminate].
    destruct (Dash.is_panel x); [discriminate|reflexivity].
  - eapply IH; eauto.
Qed.

Lemma Forall2_alike_trans (a b c : list Dash.elem) :
  Forall2 alike a b -> Forall2 alike b c -> Forall2 alike a c.
Proof.
  intros H. revert c. induction H; intros c Hc; inversion Hc; subst;
    constructor; eauto using alike_trans.
Qed.

(** [switchPanel] on a page that has the panel: afterwards that panel, and
    no other, is marked active, and nothing was sent. *)
Lemma switchPanel_outcome (panelId : string) (w : world Dash.state)
  (e : Dash.elem) :
  Dash.first_of (Dash.has_id panelId) (Dash.doc (store w)) = Some e ->
  Dash.is_panel e = true ->
  links_are_not_panels (Dash.doc (store w)) = true ->
  let w' := snd (Dash.switchPanel panelId w) in
  active_panels (Dash.doc (store w')) = [Some panelId] /\
  trace w' = trace w.
Proof.
  intros Hfirst Hpanel Hlinks.
  unfold Dash.switchPanel, Dash.edit_selected. run.
  cbn [Dash.set_doc Dash.doc].
  set (d1 := Dash.for_each Dash.is_panel (Dash.remove_class "active")
               (Dash.doc (store w))).
  set (d2 := Dash.for_each Dash.is_nav_link (Dash.remove_class "active") d1).
  assert (A1 : Forall2 alike (Dash.doc (store w)) d1)
    by apply for_each_alike.
  assert (A2 : Forall2 alike d1 d2) by apply for_each_alike.
  assert (A02 := Forall2_alike_trans _ _ _ A1 A2).
  assert (N2 : filter active_panel d2 = [])
    by (apply for_each_no_new_active, deactivated_panels).
  pose proof (first_of_alike panelId _ _ A02) as F. rewrite Hfirst in F.
  destruct (Dash.first_of (Dash.has_id panelId) d2) as [e2|] eqn:F2;
    [|contradiction].
  assert (P2 : Dash.is_panel e2 = true)
    by (destruct F as [_ [_ [_ [_ Hp]]]]; congruence).
  destruct (activate_by_id panelId d2 e2 N2 F2 P2) as [d3 [E3 [Act A23]]].
  cbn [Dash.set_doc Dash.doc]. rewrite E3. run. cbn [Dash.set_doc Dash.doc].
  destruct (Dash.edit_first (Dash.is_nav_link_to panelId) _ d3)
    as [d4|] eqn:E4; run; cbn [Dash.set_doc Dash.doc].
  - split; [|reflexivity].
    rewrite (activate_link (Dash.is_nav_link_to panelId) d3 d4); auto.
    intros x Hin Hl.
    eapply (links_not_panels_alike (Dash.doc (store w)) d3); eauto.
    eapply Forall2_alike_trans; eauto.
  - split; [exact Act|reflexivity].
Qed.

End SwitchPanel.

Section ChangePage.
Context (E : env) {P : Platform}.

Lemma vue_page_injective (v v' : vue_view) :
  String.eqb (vue_page v) (vue_page v') = true <-> v' = v.
Proof.
  split.
  - destruct v, v'; simpl; intros H; try discriminate; reflexivity.
  - intros ->. apply String.eqb_refl.
Qed.

Lemma changePage_outcome (v : vue_view) (w : world Vue.data) :
  let m := Vue.changePage E (vue_page v) in
  (forall v', vue_active (store (snd (m w))) v' = true <-> v' = v) /\
  requests (emitted m w) = [mk_get (vue_endpoint v)].
Proof.
  cbv zeta. split.
  - intros v'. rewrite <- vue_page_injective. unfold vue_active.
    assert (Vue.currentPage (store (snd (Vue.changePage E (vue_page v) w)))
            = vue_page v) as ->; [|reflexivity].
    destruct v; unfold Vue.changePage, Vue.loadPageData;
      cbn [vue_page String.eqb Ascii.eqb Bool.eqb];
      unfold Vue.loadDashboardData, Vue.loadStrategies, Vue.loadPositions,
        Vue.loadRiskData, Vue.loadSettings, Vue.updateCharts, Vue.showError;
      run_cases; reflexivity.
  - destruct v; unfold Vue.changePage, Vue.loadPageData;
      cbn [vue_page String.eqb Ascii.eqb Bool.eqb];
      unfold Vue.loadDashboardData, Vue.loadStrategies, Vue.loadPositions,
        Vue.loadRiskData, Vue.loadSettings, Vue.updateCharts, Vue.showError;
      eval_emitted; reflexivity.
Qed.

End ChangePage.

(** C7, as amended.  After [changePage] of the Vue client with the name of a
    view, that view and no other is the active one, and a load of it has
    been triggered: one GET of its endpoint.  After [switchPanel] of the
    dashboard script with the id of a panel of the page, that panel and no
    other is marked active, whatever was marked before; [switchPanel] sends
    no request, so no load is triggered by it. *)
Theorem switch_activates_one_view (E : env) (P : Platform) :
  (forall (v : vue_view) (w : world Vue.data),
     let m := Vue.changePage E (vue_page v) in
     (forall v', vue_active (store (snd (m w))) v' = true <-> v' = v) /\
     requests (emitted m w) = [mk_get (vue_endpoint v)]) /\
  (forall (panelId : string) (w : world Dash.state) (e : Dash.elem),
     Dash.first_of (Dash.has_id panelId) (Dash.doc (store w)) = Some e ->
     Dash.is_panel e = true ->
     links_are_not_panels (Dash.doc (store w)) = true ->
     let m := Dash.switchPanel panelId in
     active_panels (Dash.doc (store (snd (m w)))) = [Some panelId] /\
     emitted m w = []).
Proof.
  split.
  - intros v w. apply changePage_outcome.
  - intros panelId w e Hfirst Hpanel Hlinks m.
    destruct (switchPanel_outcome panelId w e Hfirst Hpanel Hlinks)
      as [Hact Htr].
    split; [exact Hact|].
    apply emitted_of_trace. subst m. rewrite Htr, app_nil_r. reflexivity.
Qed.

Lemma switch_activates_one_view_witness :
  let m := Dash.switchPanel "strategies" in
  active_panels (Dash.doc (store (snd (m dash_start)))) = [Some "strategies"]
  /\ emitted m dash_start = [].
Proof.
  apply (proj2 (switch_activates_one_view offline plain_platform)
           "strategies" dash_start
           (Dash.by_id "section" "strategies" ["panel"] ""));
    reflexivity.
Defined.

(** C7 as stated fails on the dashboard script: switching to the strategies
    panel triggers no load. *)
Lemma switchPanel_triggers_no_load :
  ~ triggers_load (Dash.switchPanel "strategies") dash_start.
Proof.
  intros H. apply H. reflexivity.
Qed.

(* ================================================================== *)
(** * Polling *)
(* ================================================================== *)

Section Polling.
Context (E : env) {P : Platform} {OP : Dash.Prototype}.

Lemma firings_spec (period elapsed k : Z) :
  (0 < period)%Z -> (0 <= elapsed)%Z ->
  ((1 <= k)%Z /\ (k * period <= elapsed)%Z) <->
  ((1 <= k)%Z /\ (k <= Z.of_nat (firings period elapsed))%Z).
Proof.
  intros Hp He. unfold firings.
  rewrite Z2Nat.id by (apply Z.div_pos; lia).
  split; intros [H1 H2]; split; auto.
  - apply Z.div_le_lower_bound; lia.
  - pose proof (Z.mul_div_le elapsed period Hp). nia.
Qed.

(** Counting over the firings of a timer, with an invariant of the state. *)
Lemma ticks_count {S} (tick : M S unit) (I : world S -> Prop)
  (url : string) (c : nat) :
  (forall w, I w ->
     exists x, trace (snd (tick w)) = (trace w ++ x)%list /\
               gets_to url x = c /\ I (snd (tick w))) ->
  forall n w, I w ->
    exists y, trace (ticks n tick w) = (trace w ++ y)%list /\
              gets_to url y = n * c /\ I (ticks n tick w).
Proof.
  intros Hstep. induction n as [|n IH]; intros w Hw; simpl.
  - exists []. rewrite app_nil_r. auto.
  - destruct (Hstep w Hw) as [x [Hx [Hc Hi]]].
    destruct (IH _ Hi) as [y [Hy [Hcy Hiy]]].
    exists (x ++ y)%list. rewrite Hy, Hx, app_assoc, gets_to_app.
    repeat split; auto; lia.
Qed.

Lemma polled_count {S} (tick : M S unit) (I : world S -> Prop)
  (url : string) (c : nat) (period elapsed : Z) (w : world S) :
  (forall w, I w ->
     exists x, trace (snd (tick w)) = (trace w ++ x)%list /\
               gets_to url x = c /\ I (snd (tick w))) ->
  I w ->
  gets_to url (polled tick period elapsed w) = firings period elapsed * c.
Proof.
  intros Hstep Hw. unfold polled, poll.
  destruct (ticks_count tick I url c Hstep (firings period elapsed) w Hw)
    as [y [Hy [Hc _]]].
  rewrite Hy, skipn_length_app. exact Hc.
Qed.

(** One firing of the dashboard's timer: one GET each of the overview, the
    positions and the performance data, and none of the strategy list or
    the configuration. *)
Lemma dash_tick_requests (w : world Dash.state) (url : string) :
  exists x,
    trace (snd (Dash.tick E w)) = (trace w ++ x)%list /\
    gets_to url x =
      (if String.eqb "/api/monitor/overview" url then 1 else 0) +
      (if String.eqb "/api/monitor/positions" url then 1 else 0) +
      (if String.eqb "/api/monitor/performance" url then 1 else 0) +
      (if String.eqb "/api/monitor/trades" url then
         if failed (respond E (trace (snd (Dash.updatePositions E
                       (snd (Dash.updateOverview E w)))))
                      performance) then 0 else 1
       else 0).
Proof.
  unfold Dash.tick. run.
  destruct (dash_updateOverview_outcome E w) as [s1 [t1 [R1 [Q1 _]]]].
  rewrite R1. cbn [snd].
  match goal with
  | |- context [Dash.updatePositions E ?w1] =>
      destruct (dash_updatePositions_outcome E w1) as [s2 [t2 [R2 [Q2 _]]]]
  end.
  rewrite R2. cbn [snd trace].
  match goal with
  | |- context [Dash.updateCharts E ?w2] =>
      destruct (dash_updateCharts_outcome E w2) as [s3 [t3 [R3 C3]]]
  end.
  rewrite R3. cbn [snd trace store] in *.
  eexists. split; [trace_norm; reflexivity|].
  repeat (rewrite gets_to_cons || rewrite gets_to_app).
  rewrite (quiet_no_gets _ _ Q1), (quiet_no_gets _ _ Q2).
  cbn [is_get_to mk_get performance].
  destruct (failed (respond E _ performance)) eqn:F.
  - destruct C3 as [_ ->]. rewrite gets_to_cons.
    unfold performance. cbn [is_get_to mk_get].
    change (gets_to url []) with 0.
    destruct (String.eqb "/api/monitor/overview" url),
      (String.eqb "/api/monitor/positions" url),
      (String.eqb "/api/monitor/performance" url),
      (String.eqb "/api/monitor/trades" url); reflexivity.
  - destruct C3 as [tail2 [-> [Q3 _]]].
    rewrite gets_to_cons, (quiet_no_gets _ _ Q3).
    unfold performance, trades. cbn [is_get_to mk_get].
    destruct (String.eqb "/api/monitor/overview" url),
      (String.eqb "/api/monitor/positions" url),
      (String.eqb "/api/monitor/performance" url),
      (String.eqb "/api/monitor/trades" url); reflexivity.
Qed.

Lemma vue_tick_requests (v : vue_view) (w : world Vue.data) :
  Vue.currentPage (store w) = vue_page v ->
  exists x,
    trace (snd (Vue.tick E w)) = (trace w ++ x)%list /\
    gets_to (vue_endpoint v) x = 1 /\
    Vue.currentPage (store (snd (Vue.tick E w))) = vue_page v.
Proof.
  intros H. unfold Vue.tick. run. rewrite H.
  destruct v; unfold Vue.loadPageData;
    cbn [vue_page vue_endpoint String.eqb Ascii.eqb Bool.eqb];
    unfold Vue.loadDashboardData, Vue.loadStrategies, Vue.loadPositions,
      Vue.loadRiskData, Vue.loadSettings, Vue.updateCharts, Vue.showError;
    run_cases; eexists; (split; [trace_norm; reflexivity|]);
    (split; [reflexivity|exact H]).
Qed.

Lemma vue_polled (v : vue_view) (w : world Vue.data) (elapsed : Z) :
  Vue.currentPage (store w) = vue_page v ->
  gets_to (vue_endpoint v) (polled (Vue.tick E) Vue.poll_interval elapsed w)
  = firings Vue.poll_interval elapsed.
Proof.
  intros H.
  rewrite (polled_count (Vue.tick E)
             (fun w => Vue.currentPage (store w) = vue_page v)
             (vue_endpoint v) 1); auto using vue_tick_requests.
  lia.
Qed.

Lemma dash_polled (w : world Dash.state) (url : string) (c : nat)
  (elapsed : Z) :
  (forall w, exists x,
     trace (snd (Dash.tick E w)) = (trace w ++ x)%list /\
     gets_to url x = c) ->
  gets_to url (polled (Dash.tick E) Dash.update_period elapsed w) =
  firings Dash.update_period elapsed * c.
Proof.
  intros Hstep.
  apply (polled_count (Dash.tick E) (fun _ => True) url c); auto.
  intros w0 _. destruct (Hstep w0) as [x [Hx Hc]]. exists x. auto.
Qed.

Lemma dash_tick_count (url : string) (c : nat) :
  (if String.eqb "/api/monitor/overview" url then 1 else 0) +
  (if String.eqb "/api/monitor/positions" url then 1 else 0) +
  (if String.eqb "/api/monitor/performance" url then 1 else 0) = c ->
  String.eqb "/api/monitor/trades" url = false ->
  forall w, exists x,
    trace (snd (Dash.tick E w)) = (trace w ++ x)%list /\ gets_to url x = c.
Proof.
  intros Hc Ht w. destruct (dash_tick_requests w url) as [x [Hx Hg]].
  exists x. split; [exact Hx|]. rewrite Hg, Ht. lia.
Qed.

End Polling.

(** C8, as amended.  Both timers have a fixed period between 5 and 30
    seconds: 30000 ms in the Vue client, 5000 ms in the dashboard script.
    The Vue client polls the active view: every firing loads the page that
    [currentPage] names, so in any stretch of time the active view's
    endpoint is fetched once per firing, twice in 60 seconds.  The dashboard
    script does not poll the active view: every firing fetches the overview,
    the positions and the performance data, whichever panel is active, and
    never the strategy list or the configuration; on an ideal clock that is
    exactly 12 fetches of each of the three in 60 seconds. *)
Theorem polling_cycles (E : env) (P : Platform) (OP : Dash.Prototype) :
  ((5000 <= Vue.poll_interval <= 30000)%Z /\
   (5000 <= Dash.update_period <= 30000)%Z) /\
  (forall (v : vue_view) (w : world Vue.data) (elapsed : Z),
     Vue.currentPage (store w) = vue_page v ->
     gets_to (vue_endpoint v)
       (polled (Vue.tick E) Vue.poll_interval elapsed w) =
     firings Vue.poll_interval elapsed) /\
  firings Vue.poll_interval 60000 = 2 /\
  firings Dash.update_period 60000 = 12 /\
  (forall w : world Dash.state,
     let sent := polled (Dash.tick E) Dash.update_period 60000 w in
     gets_to "/api/monitor/overview" sent = 12 /\
     gets_to "/api/monitor/positions" sent = 12 /\
     gets_to "/api/monitor/performance" sent = 12 /\
     gets_to "/api/strategy/list" sent = 0 /\
     gets_to "/api/config" sent = 0).
Proof.
  split; [|split; [|split; [|split]]].
  - unfold Vue.poll_interval, Dash.update_period. lia.
  - intros v w elapsed H. apply vue_polled, H.
  - reflexivity.
  - reflexivity.
  - intros w sent. subst sent.
    repeat split;
      match goal with
      | |- gets_to ?url _ = ?n =>
          rewrite (dash_polled E w url (Nat.div n 12));
          [reflexivity|apply dash_tick_count; reflexivity]
      end.
Qed.

Lemma polling_cycles_witness :
  gets_to (vue_endpoint VDashboard)
    (polled (Vue.tick offline) Vue.poll_interval 60000
       vue_start) = firings Vue.poll_interval 60000.
Proof.
  apply (proj1 (proj2 (polling_cycles offline plain_platform
                         plain_prototype)) VDashboard vue_start 60000%Z).
  reflexivity.
Defined.

(** C8 as stated fails on the dashboard script, the client with the period
    of 5000 ms: with the strategies panel active, 60 seconds of polling
    fetch the strategy list not once. *)
Lemma strategies_panel_is_not_polled :
  let w := snd (Dash.switchPanel "strategies" dash_start) in
  let sent := polled (@Dash.tick offline plain_platform plain_prototype)
                Dash.update_period 60000 w in
  active_panels (Dash.doc (store w)) = [Some "strategies"] /\
  gets_to (panel_endpoint "strategies") sent <> 12.
Proof.
  split.
  - reflexivity.
  - vm_compute. discriminate.
Qed.

(* ================================================================== *)
(** * The daily profit chart *)
(* ================================================================== *)

Section DailyPnl.
Context {P : Platform} {OP : Dash.Prototype}.

(** ** Objects used as maps *)

Lemma lookup_assign_same (k : string) (v : value) (fs : list (string * value)) :
  lookup k (assign k v fs) = Some v.
Proof.
  induction fs as [|[k' v'] fs IH]; simpl.
  - rewrite String.eqb_refl. reflexivity.
  - destruct (String.eqb k k') eqn:K; simpl; rewrite K; auto.
Qed.

Lemma lookup_assign_other (k k' : string) (v : value)
  (fs : list (string * value)) :
  String.eqb k k' = false ->
  lookup k (assign k' v fs) = lookup k fs.
Proof.
  intros Hk. induction fs as [|[k0 v0] fs IH]; simpl.
  - rewrite Hk. reflexivity.
  - destruct (String.eqb k' k0) eqn:K; simpl.
    + apply String.eqb_eq in K. subst k0. rewrite Hk. reflexivity.
    + rewrite IH. reflexivity.
Qed.

Lemma keys_assign (k : string) (v : value) (fs : list (string * value)) :
  map fst (assign k v fs) =
  match lookup k fs with
  | Some _ => map fst fs
  | None => (map fst fs ++ [k])%list
  end.
Proof.
  induction fs as [|[k' v'] fs IH]; simpl; auto.
  destruct (String.eqb k k') eqn:K; simpl; auto.
  rewrite IH. destruct (lookup k fs); reflexivity.
Qed.

Lemma lookup_none_keys (k : string) (fs : list (string * value)) :
  lookup k fs = None <-> ~ In k (map fst fs).
Proof.
  induction fs as [|[k' v'] fs IH]; simpl.
  - split; auto.
  - destruct (String.eqb k k') eqn:K.
    + apply String.eqb_eq in K. subst. split; [discriminate|].
      intros H. exfalso. apply H. auto.
    + apply String.eqb_neq in K. rewrite IH. split.
      * intros H [Heq|Hin]; auto.
      * intros H Hin. apply H. auto.
Qed.

Lemma lookup_in (k : string) (v : value) (fs : list (string * value)) :
  NoDup (map fst fs) ->
  In (k, v) fs <-> lookup k fs = Some v.
Proof.
  induction fs as [|[k' v'] fs IH]; simpl; intros Hnd.
  - split; [contradiction|discriminate].
  - inversion Hnd as [|? ? Hnot Hnd']; subst.
    destruct (String.eqb k k') eqn:K.
    + apply String.eqb_eq in K. subst k'. split.
      * intros [Heq|Hin]; [congruence|].
        exfalso. apply Hnot. apply (in_map fst) in Hin. exact Hin.
      * intros H. left. congruence.
    + apply String.eqb_neq in K. rewrite <- IH by assumption. split.
      * intros [Heq|Hin]; [congruence|assumption].
      * auto.
Qed.

Lemma keys_assign_nodup (k : string) (v : value)
  (fs : list (string * value)) :
  NoDup (map fst fs) -> NoDup (map fst (assign k v fs)).
Proof.
  intros Hnd. rewrite keys_assign.
  destruct (lookup k fs) eqn:L; auto.
  apply lookup_none_keys in L.
  apply NoDup_app; auto.
  - constructor; [intros []|constructor].
  - intros x Hx [<-|[]]. contradiction.
Qed.

Lemma insert_by_index_perm (kv : string * value)
  (l : list (string * value)) :
  Permutation (Dash.insert_by_index kv l) (kv :: l).
Proof.
  induction l as [|h t IH]; simpl; auto.
  destruct (N.leb _ _); auto.
  rewrite IH. apply perm_swap.
Qed.

Lemma sort_by_index_perm (l : list (string * value)) :
  Permutation (Dash.sort_by_index l) l.
Proof.
  induction l as [|h t IH]; simpl; auto.
  rewrite insert_by_index_perm. auto.
Qed.

(** [Object.keys] and [Object.values] list the properties of the object,
    each once, in one common order. *)
Lemma own_entries_perm (fs : list (string * value)) :
  Permutation (Dash.own_entries fs) fs.
Proof.
  unfold Dash.own_entries. rewrite sort_by_index_perm.
  induction fs as [|a fs IH]; simpl; auto.
  destruct (Dash.is_index a); simpl.
  - apply perm_skip, IH.
  - rewrite <- Permutation_middle. apply perm_skip, IH.
Qed.

(** Membership among the keys is decidable, by [lookup]. *)
Lemma in_keys_stable (k : string) (fs : list (string * value)) :
  ~ ~ In k (map fst fs) -> In k (map fst fs).
Proof.
  intros H. destruct (lookup k fs) eqn:L.
  - destruct (in_dec string_dec k (map fst fs)) as [Hin|Hnot]; auto.
    contradiction.
  - apply lookup_none_keys in L. contradiction.
Qed.

(** ** Sums *)

Lemma sum_profits_snoc (ps : list number) (p : number) :
  sum_profits (ps ++ [p]) = num_add (sum_profits ps) p.
Proof.
  unfold sum_profits. rewrite fold_left_app. reflexivity.
Qed.

Lemma same_number_refl (x : number) : same_number x x.
Proof. left. reflexivity. Qed.

Lemma same_number_trans (x y z : number) :
  same_number x y -> same_number y z -> same_number x z.
Proof.
  intros [->|[Hx Hy]] [->|[Hy' Hz]]; unfold same_number; auto.
Qed.

Lemma same_number_nan (x y : number) :
  same_number x y -> is_nan y = false -> is_nan x = false.
Proof.
  intros [->|[Hx Hy]] H; auto. destruct x; try discriminate; reflexivity.
Qed.

(** Adding the same number to two numbers that are the same. *)
Lemma num_add_same (x y p : number) :
  same_number x y -> same_number (num_add x p) (num_add y p).
Proof.
  intros [->|[Hx Hy]]; [apply same_number_refl|].
  destruct x as [sx| | |]; try discriminate.
  destruct y as [sy| | |]; try discriminate.
  destruct p as [sp|sp| |sp mp ep]; unfold num_add; simpl.
  - right. destruct sx, sy, sp; split; reflexivity.
  - left. reflexivity.
  - left. reflexivity.
  - left. reflexivity.
Qed.

(** [v || 0] is the same number as [v], unless [v] is [NaN]. *)
Lemma or_zero_same (x : number) :
  is_nan x = false ->
  exists x', Dash.or_zero (VNum x) = VNum x' /\ same_number x' x.
Proof.
  intros Hn. unfold Dash.or_zero. cbn [truthy]. rewrite Hn. simpl.
  destruct (is_zero x) eqn:Z; simpl.
  - exists Dash.zero. split; [reflexivity|].
    right. split; [reflexivity|exact Z].
  - exists x. split; [reflexivity|apply same_number_refl].
Qed.

Lemma running_ok_prefix (ps ps1 : list number) (p : number)
  (rest : list number) :
  running_ok ps = true ->
  ps = (ps1 ++ p :: rest)%list ->
  is_nan (sum_profits ps1) = false.
Proof.
  unfold running_ok. intros H ->. rewrite forallb_forall in H.
  specialize (H (List.length ps1)).
  rewrite firstn_app, Nat.sub_diag, firstn_all in H. simpl in H.
  rewrite app_nil_r in H. apply negb_true_iff. apply H.
  apply in_seq. rewrite length_app. simpl. lia.
Qed.

(** ** The tally of [updatePnlChart] *)

Lemma tally_start : tally [] [].
Proof.
  constructor; simpl.
  - constructor.
  - intros d. split; [contradiction|]. intros [t [[] _]].
  - discriminate.
Qed.

Lemma profits_on_snoc (d : string) (done : list value) (t : value) :
  profits_on d (done ++ [t]) =
  (profits_on d done ++ if on_date d t then [profit_of t] else [])%list.
Proof.
  unfold profits_on. rewrite filter_app, map_app. simpl.
  destruct (on_date d t); reflexivity.
Qed.

Lemma profits_on_none (d : string) (done : list value) :
  (forall t, In t done -> date_of t <> Some d) -> profits_on d done = [].
Proof.
  unfold profits_on. induction done as [|t done IH]; simpl; auto.
  intros H. unfold on_date at 1.
  destruct (date_of t) as [d'|] eqn:D.
  - destruct (String.eqb d' d) eqn:K.
    + apply String.eqb_eq in K. subst d'. exfalso. apply (H t); auto.
    + apply IH. intros t' Hin. apply H. auto.
  - apply IH. intros t' Hin. apply H. auto.
Qed.

Lemma on_date_true (d : string) (t : value) :
  on_date d t = true <-> date_of t = Some d.
Proof.
  unfold on_date. destruct (date_of t) as [d'|].
  - rewrite String.eqb_eq. split; congruence.
  - split; discriminate.
Qed.

(** One round of the loop keeps the tally. *)
Lemma accumulate_tally (done : list value) (dailyPnl : list (string * value))
  (t : value) (d0 : string) :
  tally done dailyPnl ->
  date_of t = Some d0 ->
  Dash.inherited_text d0 = None ->
  is_nan (sum_profits (profits_on d0 done)) = false ->
  tally (done ++ [t]) (Dash.accumulate dailyPnl d0 (profit_of t)).
Proof.
  intros [Hnd Hkeys Hsums] Hd Hinh Hnan.
  assert (Hon : on_date d0 t = true) by (apply on_date_true; exact Hd).
  assert (Hother : forall d, String.eqb d d0 = false -> on_date d t = false).
  { intros d K. unfold on_date. rewrite Hd, String.eqb_sym. exact K. }
  unfold Dash.accumulate.
  destruct (lookup d0 dailyPnl) as [v|] eqn:L.
  - destruct (Hsums d0 v L) as [x [-> Hx]].
    destruct (or_zero_same x (same_number_nan _ _ Hx Hnan)) as [x' [-> Hx']].
    cbn [Dash.plus_number]. constructor.
    + apply keys_assign_nodup, Hnd.
    + intros d. rewrite keys_assign, L, Hkeys. split.
      * intros [t' [Hin Ht']]. exists t'. split; auto.
        apply in_or_app. auto.
      * intros [t' [Hin Ht']]. apply in_app_or in Hin.
        destruct Hin as [Hin|[<-|[]]]; [exists t'; auto|].
        apply Hkeys. apply in_keys_stable. rewrite Hd in Ht'.
        injection Ht' as <-. intros Hnot.
        apply lookup_none_keys in Hnot. congruence.
    + intros d v. destruct (String.eqb d d0) eqn:K.
      * apply String.eqb_eq in K. subst d.
        rewrite lookup_assign_same. intros Hv. injection Hv as <-.
        eexists. split; [reflexivity|].
        rewrite profits_on_snoc, Hon, sum_profits_snoc.
        apply num_add_same. eapply same_number_trans; eauto.
      * rewrite lookup_assign_other by exact K. intros Hv.
        rewrite profits_on_snoc, (Hother d K), app_nil_r. auto.
  - rewrite Hinh.
    assert (Hempty : profits_on d0 done = []).
    { apply profits_on_none. intros t' Hin Ht'.
      apply lookup_none_keys in L. apply L. apply Hkeys. eauto. }
    constructor.
    + apply keys_assign_nodup, Hnd.
    + intros d. rewrite keys_assign, L, in_app_iff, Hkeys. simpl. split.
      * intros [[t' [Hin Ht']]|[<-|[]]].
        -- exists t'. split; auto. apply in_or_app. auto.
        -- exists t. split; auto. apply in_or_app. simpl. auto.
      * intros [t' [Hin Ht']]. apply in_app_or in Hin.
        destruct Hin as [Hin|[<-|[]]]; [left; eauto|].
        right. left. congruence.
    + intros d v. destruct (String.eqb d d0) eqn:K.
      * apply String.eqb_eq in K. subst d.
        rewrite lookup_assign_same. intros Hv. injection Hv as <-.
        eexists. split; [reflexivity|].
        rewrite profits_on_snoc, Hon, Hempty. apply same_number_refl.
      * rewrite lookup_assign_other by exact K. intros Hv.
        rewrite profits_on_snoc, (Hother d K), app_nil_r. auto.
Qed.

(** [split('T')[0]] is the date of the time stamp. *)
Lemma before_T_date_prefix (s : string) : Dash.before_T s = date_prefix s.
Proof.
  unfold date_prefix.
  induction s as [|c s IH]; [reflexivity|].
  cbn [Dash.before_T String.index String.prefix].
  destruct (Ascii.eqb c "T") eqn:C.
  - apply Ascii.eqb_eq in C. subst c.
    destruct (ascii_dec "T" "T") as [_|N]; [|congruence].
    destruct s; reflexivity.
  - destruct (ascii_dec "T" c) as [Eq|_].
    { subst c. discriminate. }
    rewrite IH.
    destruct (String.index 0 "T" s) as [n|]; reflexivity.
Qed.

Lemma well_formed_trade_inv (t : value) :
  well_formed_trade t = true ->
  exists s,
    get t "time" = Ok (VStr s) /\
    Dash.inherited_text (date_prefix s) = None /\
    date_of t = Some (date_prefix s) /\
    get t "profit" = Ok (field t "profit").
Proof.
  unfold well_formed_trade, date_of, field.
  destruct (get t "time") as [[| | | |s| |]|] eqn:G; try discriminate.
  destruct (Dash.inherited_text (date_prefix s)) eqn:I; try discriminate.
  intros _. exists s. repeat split; auto.
  destruct t; simpl in *; try discriminate; reflexivity.
Qed.

Lemma steady_sums_inv (items : list value) (t : value) (d : string) :
  steady_sums items = true ->
  In t items -> date_of t = Some d ->
  running_ok (profits_on d items) = true.
Proof.
  unfold steady_sums. rewrite forallb_forall. intros H Hin Hd.
  specialize (H t Hin). rewrite Hd in H. exact H.
Qed.

Lemma profits_on_app (d : string) (l1 l2 : list value) :
  profits_on d (l1 ++ l2) = (profits_on d l1 ++ profits_on d l2)%list.
Proof. unfold profits_on. rewrite filter_app, map_app. reflexivity. Qed.

(** The loop over the trades: it ends normally, with the tally of all of
    them. *)
Lemma daily_pnl_tally (items rest done : list value)
  (dailyPnl : list (string * value)) :
  items = (done ++ rest)%list ->
  forallb well_formed_trade rest = true ->
  steady_sums items = true ->
  tally done dailyPnl ->
  exists dailyPnl',
    Dash.daily_pnl rest dailyPnl = Ok dailyPnl' /\ tally items dailyPnl'.
Proof.
  revert done dailyPnl.
  induction rest as [|t rest IH]; intros done dailyPnl Hitems Hwf Hsteady Ht.
  - rewrite app_nil_r in Hitems. subst done. exists dailyPnl. auto.
  - simpl in Hwf. apply andb_prop in Hwf. destruct Hwf as [Hwt Hwf].
    destruct (well_formed_trade_inv t Hwt) as [s [Gt [Hinh [Hd Gp]]]].
    simpl. unfold Dash.add_trade. rewrite Gt. cbn [Dash.as_string].
    rewrite Gp, before_T_date_prefix. fold (profit_of t).
    apply (IH (done ++ [t])%list).
    + rewrite <- app_assoc. exact Hitems.
    + exact Hwf.
    + exact Hsteady.
    + apply accumulate_tally; auto.
      assert (Hin : In t items)
        by (rewrite Hitems; apply in_or_app; simpl; auto).
      apply (running_ok_prefix _ _ (profit_of t)
               (profits_on (date_prefix s) rest)
               (steady_sums_inv items t _ Hsteady Hin Hd)).
      rewrite Hitems, profits_on_app.
      change (t :: rest) with ([t] ++ rest)%list.
      rewrite profits_on_app. unfold profits_on at 2. simpl.
      assert (on_date (date_prefix s) t = true) as ->
        by (apply on_date_true; exact Hd).
      reflexivity.
Qed.

Lemma combine_map_entries (es : list (string * value)) :
  combine (map VStr (map fst es)) (map snd es) =
  map (fun kv => (VStr (fst kv), snd kv)) es.
Proof.
  induction es as [|[k v] es IH]; simpl; congruence.
Qed.

Lemma VStr_injective_map (l : list string) :
  NoDup l -> NoDup (map VStr l).
Proof.
  induction 1 as [|x l Hx Hl IH]; simpl; constructor; auto.
  rewrite in_map_iff. intros [y [Hy Hin]]. congruence.
Qed.

End DailyPnl.

(** C10.  [updatePnlChart], given a list of trades whose [time] is a string,
    groups them by the part of [time] before the first [T].  The labels of
    the chart are exactly the distinct dates of the list, each once; the
    values pair with the labels, and the value of a date is the sum of
    [parseFloat(trade.profit)] over exactly the trades of that date (added
    in list order, and equal as numbers, so up to the sign of a zero).  The
    profits are taken to be numeric: no running sum of a date is [NaN]; and
    a date is not the name of a member of [Object.prototype]. *)
Theorem updatePnlChart_daily_sums (P : Platform) (OP : Dash.Prototype)
  (items : list value) (w : world Dash.state) (c : Dash.chart) :
  Dash.chart_pnl (store w) = Some c ->
  forallb well_formed_trade items = true ->
  steady_sums items = true ->
  exists c',
    Dash.chart_pnl (store (snd (Dash.updatePnlChart (VArr items) w)))
      = Some c' /\
    List.length (Dash.labels c') = List.length (Dash.points c') /\
    NoDup (Dash.labels c') /\
    (forall l, In l (Dash.labels c') <->
               exists d t, l = VStr d /\ In t items /\ date_of t = Some d) /\
    (forall d v,
       In (VStr d, v) (combine (Dash.labels c') (Dash.points c')) ->
       exists x, v = VNum x /\
                 same_number x (sum_profits (profits_on d items))).
Proof.
  intros Hc Hwf Hsteady.
  destruct (daily_pnl_tally items items [] [] eq_refl Hwf Hsteady tally_start)
    as [dp [Hrun [Hnd Hkeys Hsums]]].
  unfold Dash.updatePnlChart. run. rewrite Hc. cbn [truthy Dash.as_array].
  run. rewrite Hrun. run. cbn [Dash.set_chart_pnl Dash.chart_pnl].
  eexists. split; [reflexivity|]. cbn [Dash.labels Dash.points].
  unfold Dash.object_keys, Dash.object_values.
  pose proof (own_entries_perm dp) as Hperm.
  assert (Hnd' : NoDup (map fst (Dash.own_entries dp))).
  { eapply Permutation_NoDup; [|exact Hnd].
    apply Permutation_map, Permutation_sym, Hperm. }
  split; [|split; [|split]].
  - rewrite !length_map. reflexivity.
  - apply VStr_injective_map, Hnd'.
  - intros l. rewrite in_map_iff. split.
    + intros [d [<- Hin]].
      assert (Hin' : In d (map fst dp)).
      { eapply Permutation_in; [|exact Hin].
        apply Permutation_map, Hperm. }
      apply Hkeys in Hin'. destruct Hin' as [t [Ht Hd]].
      exists d, t. auto.
    + intros [d [t [-> [Ht Hd]]]]. exists d. split; auto.
      assert (Hin' : In d (map fst dp)) by (apply Hkeys; eauto).
      eapply Permutation_in; [|exact Hin'].
      apply Permutation_map, Permutation_sym, Hperm.
  - intros d v. rewrite combine_map_entries, in_map_iff.
    intros [[k v'] [Heq Hin]]. simpl in Heq. injection Heq as -> ->.
    apply Hsums. apply lookup_in; auto.
    eapply Permutation_in; [exact Hperm|exact Hin].
Qed.

Example updatePnlChart_some_trades :
  Dash.chart_pnl
    (store (snd (@Dash.updatePnlChart plain_platform plain_prototype
                   (VArr some_trades) charts_ready))) =
  Some (Dash.mkChart [VStr "2024-01-05"; VStr "2024-01-06"]
                     [VNum (num_of_Z 150); VNum (num_of_Z 7)]).
Proof. vm_compute. reflexivity. Qed.

Lemma updatePnlChart_daily_sums_witness :
  exists c',
    Dash.chart_pnl
      (store (snd (@Dash.updatePnlChart plain_platform plain_prototype
                     (VArr some_trades) charts_ready))) = Some c' /\
    List.length (Dash.labels c') = List.length (Dash.points c') /\
    NoDup (Dash.labels c') /\
    (forall l, In l (Dash.labels c') <->
               exists d t, l = VStr d /\ In t some_trades /\
                           date_of t = Some d) /\
    (forall d v,
       In (VStr d, v) (combine (Dash.labels c') (Dash.points c')) ->
       exists x, v = VNum x /\
                 same_number x
                   (@sum_profits
                      (@profits_on plain_platform d some_trades))).
Proof.
  apply (updatePnlChart_daily_sums plain_platform plain_prototype
           some_trades charts_ready (Dash.mkChart [] [])).
  - reflexivity.
  - vm_compute. reflexivity.
  - vm_compute. reflexivity.
Defined.

(* ================================================================== *)
(** * The value of a number, and the risk classes *)
(* ================================================================== *)

Section RiskClass.

Lemma digits2_bounds (m : positive) :
  (2 ^ (Zpos (digits2_pos m) - 1) <= Zpos m < 2 ^ Zpos (digits2_pos m))%Z.
Proof.
  induction m as [m IH|m IH|]; cbn [digits2_pos].
  - rewrite Pos2Z.inj_succ.
    replace (Z.succ (Zpos (digits2_pos m)) - 1)%Z
      with (Z.succ (Zpos (digits2_pos m) - 1))%Z by lia.
    rewrite !Z.pow_succ_r by lia. lia.
  - rewrite Pos2Z.inj_succ.
    replace (Z.succ (Zpos (digits2_pos m)) - 1)%Z
      with (Z.succ (Zpos (digits2_pos m) - 1))%Z by lia.
    rewrite !Z.pow_succ_r by lia. lia.
  - simpl. lia.
Qed.

(** The mantissa and the exponent of a valid finite number. *)
Lemma bounded_inv (m : positive) (e : Z) :
  bounded prec emax m e = true ->
  (Zpos m < 2 ^ 53)%Z /\ (-1074 <= e <= 971)%Z /\
  (e <> (-1074)%Z -> (2 ^ 52 <= Zpos m)%Z).
Proof.
  unfold bounded, canonical_mantissa, fexp, emin, prec, emax.
  intros H. apply andb_prop in H. destruct H as [Hc He].
  apply Z.eqb_eq in Hc. apply Z.leb_le in He.
  pose proof (digits2_bounds m) as [Hlo Hhi].
  set (d := Zpos (digits2_pos m)) in *.
  assert (Hd : (d <= 53)%Z) by lia.
  split; [|split].
  - eapply Z.lt_le_trans; [exact Hhi|].
    apply Z.pow_le_mono_r; lia.
  - lia.
  - intros Hne. assert (d = 53%Z) by lia.
    replace (2 ^ 52)%Z with (2 ^ (d - 1))%Z by (subst d; f_equal; lia).
    exact Hlo.
Qed.

Lemma pow2_pos (e : Z) : (0 < 2 ^ e)%Z \/ (e < 0)%Z.
Proof.
  destruct (Z.ltb_spec e 0); [right; assumption|left].
  apply Z.pow_pos_nonneg; lia.
Qed.

(** Comparing a valid number with a threshold, as [<] of the language does,
    is comparing its value with the rational. *)
Lemma ltb_threshold (x : number) (mc : positive) (q : Q) :
  valid x = true ->
  threshold mc q ->
  num_ltb x (S754_finite false mc (-53)) = true <-> below x q.
Proof.
  intros Hv [Hmc [Hhalf [Hone Hsame]]].
  unfold num_ltb, SFltb, below.
  assert (Hq : (0 < q)%Q).
  { eapply Qlt_le_trans; [|exact Hhalf]. reflexivity. }
  destruct x as [s|s| |s m e]; cbn [SFcompare real_of ext_lt].
  - split; auto.
  - destruct s; simpl; [split; auto|split; [discriminate|contradiction]].
  - split; [discriminate|contradiction].
  - unfold valid in Hv. cbn [valid_binary] in Hv.
    destruct (bounded_inv m e Hv) as [Hm [He Hnorm]].
    destruct s.
    + (* negative *)
      split; auto. intros _.
      eapply Qlt_trans; [|exact Hq].
      unfold Q_of_finite. cbn [cond_Zopp].
      destruct (Z.leb_spec 0 e).
      * unfold Qlt, inject_Z. cbn [Qnum Qden].
        assert (0 < 2 ^ e)%Z by (apply Z.pow_pos_nonneg; lia). nia.
      * unfold Qlt. cbn [Qnum Qden]. lia.
    + destruct (Z.compare_spec e (-53)) as [Heq|Hlt|Hgt].
      * (* the binade of the threshold *)
        subst e. rewrite <- Hsame.
        change (Pos.compare_cont Eq m mc) with (Pos.compare m mc).
        destruct (Pos.compare_spec m mc);
          split; auto; try discriminate; lia.
      * (* smaller binades *)
        split; auto. intros _.
        unfold Q_of_finite. cbn [cond_Zopp].
        destruct (Z.leb_spec 0 e); [lia|].
        assert (Hp : (2 ^ 54 <= 2 ^ (- e))%Z)
          by (apply Z.pow_le_mono_r; lia).
        unfold Qlt, Qle in *. cbn [Qnum Qden] in *.
        rewrite Z2Pos.id by lia.
        change (2 ^ 54)%Z with 18014398509481984%Z in Hp.
        change (2 ^ 53)%Z with 9007199254740992%Z in Hm.
        nia.
      * (* larger binades *)
        split; [discriminate|]. intros H. exfalso.
        assert (Hn : (2 ^ 52 <= Zpos m)%Z) by (apply Hnorm; lia).
        change (2 ^ 52)%Z with 4503599627370496%Z in Hn.
        unfold Q_of_finite in H. cbn [cond_Zopp] in H.
        destruct (Z.leb_spec 0 e).
        -- assert (1 <= 2 ^ e)%Z
             by (pose proof (Z.pow_pos_nonneg 2 e); lia).
           assert (HX : (1 <= Zpos m * 2 ^ e)%Z) by nia.
           unfold Qlt, Qle, inject_Z in *. cbn [Qnum Qden] in *.
           generalize dependent (Zpos m * 2 ^ e)%Z. intros X HX H.
           nia.
        -- assert (Hp : (2 ^ (- e) <= 2 ^ 52)%Z)
             by (apply Z.pow_le_mono_r; lia).
           assert (0 < 2 ^ (- e))%Z by (apply Z.pow_pos_nonneg; lia).
           change (2 ^ 52)%Z with 4503599627370496%Z in Hp.
           unfold Qlt, Qle in *. cbn [Qnum Qden] in *.
           rewrite Z2Pos.id in H by lia. nia.
Qed.

(** The literals [0.5] and [0.8] of [getRiskClass]. *)
Lemma half_threshold :
  num_lit 5 10 = S754_finite false 4503599627370496 (-53) /\
  threshold 4503599627370496 (1 # 2).
Proof.
  split; [vm_compute; reflexivity|].
  split; [|split; [|split]].
  - vm_compute. split; [discriminate|reflexivity].
  - apply Qle_refl.
  - unfold Qle. simpl. lia.
  - intros m. unfold Q_of_finite, Qlt. simpl. lia.
Qed.

Lemma four_fifths_threshold :
  num_lit 8 10 = S754_finite false 7205759403792794 (-53) /\
  threshold 7205759403792794 (4 # 5).
Proof.
  split; [vm_compute; reflexivity|].
  split; [|split; [|split]].
  - vm_compute. split; [discriminate|reflexivity].
  - unfold Qle. simpl. lia.
  - unfold Qle. simpl. lia.
  - intros m. unfold Q_of_finite, Qlt. simpl. lia.
Qed.

Lemma below_real (x : number) (v : ext) (q : Q) :
  real_of x = Some v -> (below x q <-> ext_lt v (Fin q)).
Proof. unfold below. intros ->. reflexivity. Qed.

Lemma ext_not_lt (v : ext) (q : Q) : ~ ext_lt v (Fin q) <-> ext_le (Fin q) v.
Proof.
  destruct v as [|p|]; simpl.
  - split; [intros H; apply H; exact I|contradiction].
  - split; [apply Qnot_lt_le|apply Qle_not_lt].
  - split; auto.
Qed.

Lemma ext_lt_half_four_fifths (v : ext) :
  ext_lt v (Fin (1 # 2)) -> ext_lt v (Fin (4 # 5)).
Proof.
  destruct v as [|p|]; simpl; auto. intros H. lra.
Qed.

Lemma returns_inj {A} (m : M Vue.data A) (a b : A) :
  returns m a -> returns m b -> a = b.
Proof.
  intros Ha Hb. specialize (Ha vue_start). specialize (Hb vue_start).
  congruence.
Qed.

(** What [getRiskClass] returns, by its two comparisons. *)
Lemma getRiskClass_returns (value : number) :
  returns (Vue.getRiskClass value)
    (if num_ltb value (num_lit 5 10) then "low-risk"
     else if num_ltb value (num_lit 8 10) then "medium-risk"
     else "high-risk").
Proof.
  intros w. unfold Vue.getRiskClass.
  destruct (num_ltb value (num_lit 5 10)); [reflexivity|].
  destruct (num_ltb value (num_lit 8 10)); reflexivity.
Qed.

(** [NaN] is below nothing, and falls through to the last class. *)
Lemma getRiskClass_nan : returns (Vue.getRiskClass S754_nan) "high-risk".
Proof. intros w. reflexivity. Qed.

Lemma getRiskClass_class (value : number) (v : ext) :
  valid value = true -> real_of value = Some v ->
  (returns (Vue.getRiskClass value) "low-risk" <->
   ext_lt v (Fin (1 # 2))) /\
  (returns (Vue.getRiskClass value) "medium-risk" <->
   ext_le (Fin (1 # 2)) v /\ ext_lt v (Fin (4 # 5))) /\
  (returns (Vue.getRiskClass value) "high-risk" <->
   ext_le (Fin (4 # 5)) v).
Proof.
  intros Hv Hr.
  destruct half_threshold as [E5 T5].
  destruct four_fifths_threshold as [E8 T8].
  pose proof (ltb_threshold value _ _ Hv T5) as L5.
  pose proof (ltb_threshold value _ _ Hv T8) as L8.
  rewrite <- E5, (below_real _ _ _ Hr) in L5.
  rewrite <- E8, (below_real _ _ _ Hr) in L8.
  pose proof (getRiskClass_returns value) as R.
  pose proof (ext_not_lt v (1 # 2)) as N5.
  pose proof (ext_not_lt v (4 # 5)) as N8.
  pose proof (ext_lt_half_four_fifths v) as H58.
  destruct (num_ltb value (num_lit 5 10)) eqn:B5;
    [|destruct (num_ltb value (num_lit 8 10)) eqn:B8].
  - (* low *)
    assert (H5 : ext_lt v (Fin (1 # 2))) by (apply L5; reflexivity).
    split; [|split].
    + split; auto.
    + split.
      * intros H. pose proof (returns_inj _ _ _ R H). discriminate.
      * intros [H _]. apply N5 in H. contradiction.
    + split.
      * intros H. pose proof (returns_inj _ _ _ R H). discriminate.
      * intros H. apply N8 in H. exfalso. auto.
  - (* medium *)
    assert (H5 : ~ ext_lt v (Fin (1 # 2)))
      by (intros H; apply L5 in H; discriminate).
    assert (H8 : ext_lt v (Fin (4 # 5))) by (apply L8; reflexivity).
    split; [|split].
    + split.
      * intros H. pose proof (returns_inj _ _ _ R H). discriminate.
      * intros H. contradiction.
    + split; auto. intros _. split; [apply N5|]; assumption.
    + split.
      * intros H. pose proof (returns_inj _ _ _ R H). discriminate.
      * intros H. apply N8 in H. contradiction.
  - (* high *)
    assert (H8 : ~ ext_lt v (Fin (4 # 5)))
      by (intros H; apply L8 in H; discriminate).
    split; [|split].
    + split.
      * intros H. pose proof (returns_inj _ _ _ R H). discriminate.
      * intros H. exfalso. auto.
    + split.
      * intros H. pose proof (returns_inj _ _ _ R H). discriminate.
      * intros [_ H]. contradiction.
    + split; auto. intros _. apply N8. assumption.
Qed.

Lemma getRiskClass_total (value : number) :
  exists class,
    returns (Vue.getRiskClass value) class /\
    In class ["low-risk"; "medium-risk"; "high-risk"].
Proof.
  eexists. split; [apply getRiskClass_returns|].
  destruct (num_ltb value (num_lit 5 10)); [simpl; auto|].
  destruct (num_ltb value (num_lit 8 10)); simpl; auto.
Qed.

Lemma getRiskClass_monotone (x y : number) (vx vy : ext)
  (cx cy : string) :
  valid x = true -> real_of x = Some vx ->
  valid y = true -> real_of y = Some vy ->
  ext_le vx vy ->
  returns (Vue.getRiskClass x) cx ->
  returns (Vue.getRiskClass y) cy ->
  risk_rank cx <= risk_rank cy.
Proof.
  intros Vx Rx Vy Ry Hle Hx Hy.
  destruct (getRiskClass_class x vx Vx Rx) as [Lx [Mx Hix]].
  destruct (getRiskClass_class y vy Vy Ry) as [Ly [My Hiy]].
  destruct (getRiskClass_total x) as [cx' [Hx' Inx]].
  destruct (getRiskClass_total y) as [cy' [Hy' Iny]].
  rewrite (returns_inj _ _ _ Hx Hx'), (returns_inj _ _ _ Hy Hy').
  simpl in Inx, Iny.
  destruct Inx as [<-|[<-|[<-|[]]]]; destruct Iny as [<-|[<-|[<-|[]]]];
    cbn; try lia; exfalso.
  - apply Mx in Hx'. apply Ly in Hy'. destruct Hx' as [H1 _].
    destruct vx, vy; simpl in *; try contradiction; lra.
  - apply Hix in Hx'. apply Ly in Hy'.
    destruct vx, vy; simpl in *; try contradiction; lra.
  - apply Hix in Hx'. apply My in Hy'. destruct Hy' as [_ H2].
    destruct vx, vy; simpl in *; try contradiction; lra.
Qed.

End RiskClass.

(** C4.  For every number that has a value (a real number or an infinity),
    [getRiskClass] returns the low class exactly when the value is below
    0.5, the medium class exactly when it is at least 0.5 and below 0.8, and
    the high class exactly when it is at least 0.8; it returns one of the
    three for every input, and a greater or equal value never gets a lower
    class.  The comparisons are those of binary64 against the literals
    [0.5] and [0.8]; the thresholds are the real numbers 1/2 and 4/5. *)
Theorem getRiskClass_buckets (value : number) (v : ext) :
  valid value = true ->
  real_of value = Some v ->
  (returns (Vue.getRiskClass value) "low-risk" <->
   ext_lt v (Fin (1 # 2))) /\
  (returns (Vue.getRiskClass value) "medium-risk" <->
   ext_le (Fin (1 # 2)) v /\ ext_lt v (Fin (4 # 5))) /\
  (returns (Vue.getRiskClass value) "high-risk" <->
   ext_le (Fin (4 # 5)) v) /\
  (exists class,
     returns (Vue.getRiskClass value) class /\
     In class ["low-risk"; "medium-risk"; "high-risk"]) /\
  (forall (value' : number) (v' : ext) (class class' : string),
     valid value' = true ->
     real_of value' = Some v' ->
     ext_le v v' ->
     returns (Vue.getRiskClass value) class ->
     returns (Vue.getRiskClass value') class' ->
     risk_rank class <= risk_rank class').
Proof.
  intros Hv Hr.
  destruct (getRiskClass_class value v Hv Hr) as [L [Md H]].
  split; [exact L|]. split; [exact Md|]. split; [exact H|].
  split; [apply getRiskClass_total|].
  intros value' v' class class' Hv' Hr' Hle Hc Hc'.
  eapply (getRiskClass_monotone value value'); eauto.
Qed.

Lemma getRiskClass_buckets_witness :
  returns (Vue.getRiskClass sample_value) "medium-risk".
Proof.
  assert (Hv : valid sample_value = true) by (vm_compute; reflexivity).
  assert (Hr : real_of sample_value = Some sample_real)
    by (vm_compute; reflexivity).
  apply (proj1 (proj2 (getRiskClass_buckets sample_value sample_real
                         Hv Hr))).
  split; vm_compute; [discriminate|reflexivity].
Defined.

(* ================================================================== *)
(** * The formatting helpers *)
(* ================================================================== *)

(** The literals of the source and of the specification denote the doubles
    nearest to them. *)
Lemma literals_are_nearest :
  nearest (num_lit 5 10) (1 # 2) /\
  nearest (num_lit 8 10) (4 # 5) /\
  nearest (num_lit 523 10000) (523 # 10000) /\
  valid (num_lit 523 10000) = true.
Proof.
  repeat split; vm_compute; discriminate.
Qed.

(** The number itself, with all its digits, reads back as the number. *)
Lemma span_mid_reads_back (m : positive) (e : Z) :
  Intl.reads_back (Intl.span_of m e) (Intl.mid (Intl.span_of m e)) = true.
Proof.
  unfold Intl.reads_back, Intl.span_of.
  cbn [Intl.low Intl.mid Intl.high Intl.closed].
  set (u := if (2 <=? e)%Z then (2 ^ (e - 2))%Z else (5 ^ (2 - e))%Z).
  assert (Hu : (0 < u)%Z).
  { unfold u. destruct (2 <=? e)%Z eqn:L.
    - apply Z.leb_le in L. apply Z.pow_pos_nonneg; lia.
    - apply Z.leb_gt in L. apply Z.pow_pos_nonneg; lia. }
  assert (Hm : (0 < Zpos m)%Z) by lia.
  destruct ((Zpos m =? 2 ^ (prec - 1))%Z && (emin prec emax <? e)%Z);
    destruct (Z.even (Zpos m));
    apply andb_true_intro; split;
    first [apply Z.leb_le | apply Z.ltb_lt]; nia.
Qed.

Lemma nearest_multiple_reads_back (sp : Intl.span) (p : nat) (d : Z) :
  Intl.nearest_multiple sp p = Some d -> Intl.reads_back sp d = true.
Proof.
  unfold Intl.nearest_multiple.
  set (step := (10 ^ Z.of_nat p)%Z).
  set (below := (Intl.mid sp / step * step)%Z).
  destruct (Intl.reads_back sp below) eqn:B;
    destruct (Intl.reads_back sp (below + step)) eqn:A;
    try discriminate.
  - destruct (_ <? _)%Z; [congruence|].
    destruct (_ <? _)%Z; [congruence|].
    destruct (Z.even _); congruence.
  - congruence.
  - congruence.
Qed.

(** The decimal that a number is printed from reads back as the number. *)
Lemma shortest_reads_back (m : positive) (e : Z) :
  Intl.reads_back (Intl.span_of m e) (Intl.units (Intl.shortest m e)) = true.
Proof.
  unfold Intl.shortest. cbn [Intl.units].
  generalize (List.length (Intl.digits_of (Intl.mid (Intl.span_of m e))) - 1).
  intros p. induction p as [|p IH]; cbn [Intl.shortest_from].
  - destruct (Intl.nearest_multiple _ 0) as [d|] eqn:N.
    + eapply nearest_multiple_reads_back; eauto.
    + apply span_mid_reads_back.
  - destruct (Intl.nearest_multiple _ (S p)) as [d|] eqn:N.
    + eapply nearest_multiple_reads_back; eauto.
    + exact IH.
Qed.

(** C5.  [formatPercent] and [formatMoney] are pure and deterministic:
    called with a number from any state of the component, each returns
    one string, the same on every call, and leaves the state and the trace
    as they were.  [formatPercent(0.0523)] returns ["5.23%"]; the decimal
    that is rounded is the shortest one of the number, so that
    [formatMoney(1.005)] returns ["$1.01"]. *)
Theorem formatters_are_pure :
  (forall (value : number) (w w' : world Vue.data),
     fst (Vue.formatPercent value w) = fst (Vue.formatPercent value w') /\
     fst (Vue.formatMoney value w) = fst (Vue.formatMoney value w') /\
     snd (Vue.formatPercent value w) = w /\
     snd (Vue.formatMoney value w) = w) /\
  (forall value : number,
     exists percent money : string,
       returns (Vue.formatPercent value) percent /\
       returns (Vue.formatMoney value) money) /\
  returns (Vue.formatPercent (num_lit 523 10000)) "5.23%" /\
  returns (Vue.formatMoney (num_lit 1005 1000)) "$1.01" /\
  returns (Vue.formatMoney (num_lit 123456789 100)) "$1,234,567.89".
Proof.
  split; [|split; [|split; [|split]]].
  - intros value w w'. repeat split.
  - intros value. eexists. eexists. split; intros w; reflexivity.
  - intros w. vm_compute. reflexivity.
  - intros w. vm_compute. reflexivity.
  - intros w. vm_compute. reflexivity.
Qed.

Example shortest_decimals_read_back :
  forallb reads_back_ok
    [num_lit 523 10000; num_lit 1005 1000; num_lit 1 3; num_of_Z (10 ^ 23);
     num_of_Z 1; num_of_Z (2 ^ 60); SFmax_float prec emax;
     S754_finite false 1 (-1074); S754_finite false (2 ^ 52) (-1074);
     S754_finite false (2 ^ 52) (-1073)] = true.
Proof. vm_compute. reflexivity. Qed.

Example formatMoney_examples :
  Intl.format Intl.CurrencyUSD (num_lit 123456789 100) = "$1,234,567.89" /\
  Intl.format Intl.CurrencyUSD (SFopp (num_lit 5 1000)) = "-$0.01" /\
  Intl.format Intl.CurrencyUSD (num_of_Z (10 ^ 23)) =
    "$100,000,000,000,000,000,000,000.00" /\
  Intl.format Intl.Percent (num_lit 5 10) = "50.00%" /\
  Intl.format Intl.Decimal (num_lit 999995 1000) = "1,000.00".
Proof. repeat split; vm_compute; reflexivity. Qed.

(* ================================================================== *)
(** * Further properties of the Vue client *)
(* ================================================================== *)

Section VueActions.
Context (E : env) {P : Platform}.

(** X1.  Every load of the dashboard page ends in the [catch]: when the
    request fails, and when it succeeds as well, since the call of the
    missing [updateCharts] throws once [accountStats] has been replaced.
    So the load at [mounted], and every firing of the timer while the
    dashboard is the current page, calls [showError] once. *)
Theorem dashboard_load_always_reports_error (w : world Vue.data) :
  let m := Vue.loadDashboardData E in
  fst (m w) = Ok tt /\
  requests (emitted m w) = [mk_get "/api/dashboard"] /\
  error_logs (emitted m w) = 1 /\
  error_notifications (emitted m w) = 1 /\
  error_notifications (emitted (Vue.mounted E) w) = 1 /\
  (Vue.currentPage (store w) = "dashboard" ->
   error_notifications (emitted (Vue.tick E) w) = 1) /\
  Vue.accountStats (store (snd (m w))) =
    match respond E (trace w) (mk_get "/api/dashboard") with
    | Resolved (Some body) =>
        if nullish body then Vue.accountStats (store w)
        else field body "accountStats"
    | _ => Vue.accountStats (store w)
    end.
Proof.
  cbv zeta.
  assert (L : error_notifications (emitted (Vue.loadDashboardData E) w) = 1).
  { unfold Vue.loadDashboardData, Vue.updateCharts, Vue.showError.
    eval_emitted; reflexivity. }
  split; [|split; [|split; [|split; [|split; [|split]]]]].
  - unfold Vue.loadDashboardData, Vue.updateCharts, Vue.showError.
    run_cases; reflexivity.
  - unfold Vue.loadDashboardData, Vue.updateCharts, Vue.showError.
    eval_emitted; reflexivity.
  - unfold Vue.loadDashboardData, Vue.updateCharts, Vue.showError.
    eval_emitted; reflexivity.
  - exact L.
  - exact L.
  - intros H. unfold Vue.tick, emitted, spawn. run. rewrite H.
    exact L.
  - unfold Vue.loadDashboardData, Vue.updateCharts, Vue.showError, field.
    run.
    destruct (respond E (trace w) _) as [|[body|]] eqn:R; run;
      try reflexivity.
    destruct (get body "accountStats") eqn:G; run.
    + rewrite (get_ok_not_nullish _ _ _ G). reflexivity.
    + rewrite (get_throw_nullish _ _ _ G). reflexivity.
Qed.

(** X2.  [createStrategy] posts the data it is given.  When the promise of
    the POST rejects nothing else happens: the modal stays as it is and
    [showError] is called once.  When it resolves, whatever the answer says,
    the strategy list is fetched once and the modal is closed, also when
    that fetch has failed. *)
Theorem createStrategy_closes_modal (strategyData : value)
  (w : world Vue.data) :
  let m := Vue.createStrategy E strategyData in
  let post := mk_post_json "/api/strategies" strategyData in
  match respond E (trace w) post with
  | Rejected =>
      requests (emitted m w) = [post] /\
      store (snd (m w)) = store w /\
      error_notifications (emitted m w) = 1
  | Resolved _ =>
      requests (emitted m w) = [post; mk_get "/api/strategies"] /\
      Vue.showModal (store (snd (m w))) = false /\
      Vue.modalCallback (store (snd (m w))) = None
  end.
Proof.
  cbv zeta.
  unfold Vue.createStrategy, Vue.loadStrategies, Vue.closeModal,
    Vue.showError, emitted.
  run.
  destruct (respond E (trace w) _) as [|b] eqn:R; run.
  - trace_norm. rewrite skipn_length_app. repeat split; reflexivity.
  - run_cases; trace_norm; rewrite ?skipn_length_app;
      repeat split; reflexivity.
Qed.

(** X3.  [handleAlert] posts to the alert's own address and, when the
    promise of the POST resolves, fetches the risk data once; when it
    rejects, or when the alert has no [id] to read, nothing is fetched, the
    component stays as it is and [showError] is called once. *)
Theorem handleAlert_refetches_risk_data (alert : value)
  (w : world Vue.data) :
  let m := Vue.handleAlert E alert in
  match get alert "id" with
  | Throw _ =>
      requests (emitted m w) = [] /\
      store (snd (m w)) = store w /\
      error_notifications (emitted m w) = 1
  | Ok id =>
      let post := mk_post ("/api/risk/alerts/" ++ to_str id ++ "/handle") in
      match respond E (trace w) post with
      | Rejected =>
          requests (emitted m w) = [post] /\
          store (snd (m w)) = store w /\
          error_notifications (emitted m w) = 1
      | Resolved _ =>
          requests (emitted m w) = [post; mk_get "/api/risk/metrics"]
      end
  end.
Proof.
  cbv zeta. unfold Vue.handleAlert, Vue.loadRiskData, Vue.showError, emitted.
  run.
  destruct (get alert "id") as [id|e] eqn:G; run.
  - destruct (respond E (trace w) _) as [|b] eqn:R; run.
    + trace_norm. rewrite skipn_length_app. repeat split; reflexivity.
    + run_cases; trace_norm; rewrite ?skipn_length_app; reflexivity.
  - trace_norm. rewrite skipn_length_app. repeat split; reflexivity.
Qed.

(** X4.  Saving sends what the component holds and changes nothing in it:
    [saveRiskSettings] posts [riskSettings], [saveSettings] posts the
    exchanges, the notification settings and the system settings, each in
    one request.  The answer is not read: [showSuccess] is called whenever
    the promise of the POST resolves, [showError] only when it rejects. *)
Theorem saving_sends_the_settings_held (w : world Vue.data) :
  let d := store w in
  (let m := Vue.saveRiskSettings E in
   let post := mk_post_json "/api/risk/settings" (Vue.riskSettings d) in
   store (snd (m w)) = d /\
   requests (emitted m w) = [post] /\
   match respond E (trace w) post with
   | Rejected => error_notifications (emitted m w) = 1 /\
                 success_notifications (emitted m w) = 0
   | Resolved _ => error_notifications (emitted m w) = 0 /\
                   success_notifications (emitted m w) = 1
   end) /\
  (let m := Vue.saveSettings E in
   let post := mk_post_json "/api/settings"
                 (VObj [("exchanges", Vue.exchanges d);
                        ("notification", Vue.notificationSettings d);
                        ("system", Vue.systemSettings d)]) in
   store (snd (m w)) = d /\
   requests (emitted m w) = [post] /\
   match respond E (trace w) post with
   | Rejected => error_notifications (emitted m w) = 1 /\
                 success_notifications (emitted m w) = 0
   | Resolved _ => error_notifications (emitted m w) = 0 /\
                   success_notifications (emitted m w) = 1
   end).
Proof.
  cbv zeta. split.
  - unfold Vue.saveRiskSettings, Vue.showSuccess, Vue.showError, emitted.
    run.
    destruct (respond E (trace w) _) as [|b] eqn:R; run; trace_norm;
      rewrite skipn_length_app; repeat split; reflexivity.
  - unfold Vue.saveSettings, Vue.showSuccess, Vue.showError, emitted.
    run.
    destruct (respond E (trace w) _) as [|b] eqn:R; run; trace_norm;
      rewrite skipn_length_app; repeat split; reflexivity.
Qed.

(** X5.  Settings that have just been loaded are saved back as they came:
    after a successful [loadSettings], [saveSettings] posts the three parts
    of the fetched body, unchanged. *)
Theorem loaded_settings_are_saved_back (w : world Vue.data) (body : value) :
  respond E (trace w) (mk_get "/api/settings") = Resolved (Some body) ->
  nullish body = false ->
  let m := Vue.loadSettings E ;; Vue.saveSettings E in
  posts (emitted m w) =
    [mk_post_json "/api/settings"
       (VObj [("exchanges", field body "exchanges");
              ("notification", field body "notification");
              ("system", field body "system")])].
Proof.
  intros R N. cbv zeta.
  unfold Vue.loadSettings, Vue.saveSettings, Vue.showSuccess, Vue.showError,
    emitted, field.
  run. rewrite R. run.
  clear R.
  destruct body; try discriminate N; cbn [get]; run;
    cbn [Vue.exchanges Vue.notificationSettings Vue.systemSettings
         Vue.set_exchanges Vue.set_notificationSettings
         Vue.set_systemSettings];
    destruct (respond E _ _) as [|answer]; run; trace_norm;
    rewrite skipn_length_app; reflexivity.
Qed.

(** X6.  A page that [loadPageData] has no case for is never loaded:
    [changePage] makes it the current page and sends nothing, and from then
    on the timer fires without a request, leaving everything as it is. *)
Theorem unknown_page_is_never_loaded (page : string) (w : world Vue.data)
  (elapsed : Z) :
  known_page page = false ->
  let w1 := snd (Vue.changePage E page w) in
  store w1 = Vue.set_currentPage page (store w) /\
  trace w1 = trace w /\
  poll (Vue.tick E) Vue.poll_interval elapsed w1 = w1.
Proof.
  intros K. unfold known_page in K. simpl in K.
  repeat (apply orb_false_elim in K; destruct K as [? K]).
  assert (L : forall w0, Vue.loadPageData E page w0 = (Ok tt, w0)).
  { intros w0. unfold Vue.loadPageData.
    repeat match goal with
           | H : String.eqb page _ = false |- _ => rewrite H; clear H
           end.
    reflexivity. }
  assert (W : snd (Vue.changePage E page w) =
              mkWorld (Vue.set_currentPage page (store w)) (trace w)).
  { unfold Vue.changePage. run. rewrite L. reflexivity. }
  cbv zeta. rewrite W. cbn [store trace].
  split; [reflexivity|]. split; [reflexivity|].
  set (w1 := mkWorld (Vue.set_currentPage page (store w)) (trace w)).
  assert (T : snd (Vue.tick E w1) = w1).
  { unfold Vue.tick. run. subst w1.
    cbn [store Vue.currentPage Vue.set_currentPage].
    rewrite L. reflexivity. }
  unfold poll. induction (firings Vue.poll_interval elapsed) as [|n IH].
  - reflexivity.
  - cbn [ticks]. rewrite T. exact IH.
Qed.

End VueActions.

(* ================================================================== *)
(** * The filtered strategy list *)
(* ================================================================== *)

Section Filtering.
Context {C : Vue.Casing}.

(** Splits a run of the callback on everything it reads. *)
Ltac branches :=
  run;
  repeat match goal with
         | |- context [get ?v ?k] => destruct (get v k) eqn:?; run
         | |- context [truthy ?v] => destruct (truthy v) eqn:?; run
         | |- context [Vue.lower ?v] => destruct (Vue.lower v) eqn:?; run
         | |- context [strict_eq ?a ?b] =>
             destruct (strict_eq a b) eqn:?; cbn [negb]; run
         end.

Lemma keeps_strategy_reads_only (strategy : value) :
  silent (Vue.keeps_strategy strategy).
Proof.
  intros w. unfold Vue.keeps_strategy. branches; reflexivity.
Qed.

Lemma filterM_selects {S A} (f : A -> M S bool) (l : list A) (w : world S) :
  (forall x, silent (f x)) ->
  snd (Vue.filterM f l w) = w /\
  forall kept, fst (Vue.filterM f l w) = Ok kept -> subseq kept l.
Proof.
  intros Hf. induction l as [|x l [IHw IHk]]; simpl.
  - split; [reflexivity|]. intros kept H. injection H as <-. constructor.
  - unfold bind. pose proof (Hf x w) as Hx.
    destruct (f x w) as [[keep|e] w1]; simpl in Hx; subst w1.
    + destruct (Vue.filterM f l w) as [[rest|e] w2]; simpl in *; subst w2.
      * split; [reflexivity|]. intros kept H. injection H as <-.
        destruct keep; constructor; auto.
      * split; [reflexivity|discriminate].
    + split; [reflexivity|discriminate].
Qed.

(** What the callback answers when no criterion is set. *)
Lemma keeps_strategy_without_filter (strategy : value) (w : world Vue.data) :
  let f := Vue.strategyFilter (store w) in
  nullish f = false ->
  truthy (field f "type") = false ->
  truthy (field f "status") = false ->
  truthy (field f "search") = false ->
  Vue.keeps_strategy strategy w = (Ok true, w).
Proof.
  cbv zeta. unfold field, Vue.keeps_strategy. intros N T U S. run.
  destruct (get (Vue.strategyFilter (store w)) "type") as [t|] eqn:G1;
    [|apply get_throw_nullish in G1; congruence].
  run. rewrite T. run.
  destruct (get (Vue.strategyFilter (store w)) "status") as [u|] eqn:G2;
    [|apply get_throw_nullish in G2; congruence].
  run. rewrite U. run.
  destruct (get (Vue.strategyFilter (store w)) "search") as [s|] eqn:G3;
    [|apply get_throw_nullish in G3; congruence].
  run. rewrite S. reflexivity.
Qed.

Lemma filterM_all {S A} (f : A -> M S bool) (l : list A) (w : world S) :
  (forall x, f x w = (Ok true, w)) ->
  Vue.filterM f l w = (Ok l, w).
Proof.
  intros Hf. induction l as [|x l IH]; simpl; [reflexivity|].
  unfold bind. rewrite Hf, IH. reflexivity.
Qed.

(** X7.  [filteredStrategies] only reads the component, and what it returns
    is the strategy list with some strategies left out, in the order of the
    list.  With no criterion set, the type, the status and the search text
    all empty, it returns the whole list, whatever the strategies are. *)
Theorem filteredStrategies_selects (w : world Vue.data) :
  snd (Vue.filteredStrategies w) = w /\
  (forall v, fst (Vue.filteredStrategies w) = Ok v ->
     exists l kept,
       Vue.strategies (store w) = VArr l /\ v = VArr kept /\
       subseq kept l) /\
  (forall l,
     let f := Vue.strategyFilter (store w) in
     Vue.strategies (store w) = VArr l ->
     nullish f = false ->
     truthy (field f "type") = false ->
     truthy (field f "status") = false ->
     truthy (field f "search") = false ->
     fst (Vue.filteredStrategies w) = Ok (VArr l)).
Proof.
  unfold Vue.filteredStrategies. split; [|split].
  - run. destruct (Vue.items_of _) as [l|]; run; [|reflexivity].
    destruct (filterM_selects Vue.keeps_strategy l w
                keeps_strategy_reads_only) as [Hw _].
    destruct (Vue.filterM _ l w) as [[kept|e] w']; simpl in Hw; subst w';
      reflexivity.
  - intros v. run.
    destruct (Vue.strategies (store w)) as [| | | | |l|] eqn:Hs;
      cbn [Vue.items_of]; run; try discriminate.
    destruct (filterM_selects Vue.keeps_strategy l w
                keeps_strategy_reads_only) as [_ Hk].
    destruct (Vue.filterM _ l w) as [[kept|e] w']; simpl in *;
      [|discriminate].
    intros H. injection H as <-. exists l, kept. auto.
  - cbv zeta. intros l Hs N T U S. run. rewrite Hs. cbn [Vue.items_of]. run.
    rewrite filterM_all; [reflexivity|].
    intros x. apply keeps_strategy_without_filter; assumption.
Qed.

(** What the callback does with a strategy whose name is no string, when
    only a search text is set. *)
Lemma keeps_strategy_searching (strategy : value) (w : world Vue.data)
  (text : string) :
  let f := Vue.strategyFilter (store w) in
  truthy (field f "type") = false ->
  truthy (field f "status") = false ->
  get f "search" = Ok (VStr text) ->
  text <> "" ->
  (exists r, Vue.keeps_strategy strategy w = (r, w) /\
             match r with Ok _ => True | Throw e => e = TypeError end) /\
  (Vue.lower (field strategy "name") = Throw TypeError ->
   Vue.keeps_strategy strategy w = (Throw TypeError, w)).
Proof.
  cbv zeta. unfold field, Vue.keeps_strategy. intros T U S Ht. run.
  assert (N : nullish (Vue.strategyFilter (store w)) = false)
    by (eapply get_ok_not_nullish; eauto).
  destruct (get (Vue.strategyFilter (store w)) "type") as [t|] eqn:G1;
    [|apply get_throw_nullish in G1; congruence].
  run. rewrite T. run.
  destruct (get (Vue.strategyFilter (store w)) "status") as [u|] eqn:G2;
    [|apply get_throw_nullish in G2; congruence].
  run. rewrite U. run. rewrite S. run. cbn [truthy].
  assert (String.eqb text "" = false) as -> by (apply String.eqb_neq; auto).
  cbn [negb Vue.lower]. run.
  destruct (get strategy "name") as [n|e] eqn:G4; run.
  - split.
    + destruct (Vue.lower n) as [ln|e] eqn:L; run.
      * eexists. split; [reflexivity|exact I].
      * eexists. split; [reflexivity|].
        destruct n; simpl in L; congruence.
    + intros L. rewrite L. reflexivity.
  - assert (e = TypeError) as ->
        by (destruct strategy; simpl in G4; congruence).
    split; [|reflexivity]. eexists. split; [reflexivity|reflexivity].
Qed.

(** X8.  Searching needs every strategy to have a name: with a search text
    set and no other criterion, one strategy of the list whose [name] is no
    string makes [filteredStrategies] throw a [TypeError], and no list is
    returned at all. *)
Theorem filteredStrategies_search_needs_names (w : world Vue.data)
  (l : list value) (text : string) (strategy : value) :
  let f := Vue.strategyFilter (store w) in
  Vue.strategies (store w) = VArr l ->
  truthy (field f "type") = false ->
  truthy (field f "status") = false ->
  get f "search" = Ok (VStr text) ->
  text <> "" ->
  In strategy l ->
  (forall s, field strategy "name" <> VStr s) ->
  Vue.filteredStrategies w = (Throw TypeError, w).
Proof.
  cbv zeta. intros Hs T U S Ht Hin Hno.
  assert (Hname : Vue.lower (field strategy "name") = Throw TypeError).
  { destruct (field strategy "name") as [| | | |s| |] eqn:F;
      try reflexivity.
    exfalso. apply (Hno s). reflexivity. }
  unfold Vue.filteredStrategies. run. rewrite Hs. cbn [Vue.items_of]. run.
  assert (F : Vue.filterM Vue.keeps_strategy l w = (Throw TypeError, w)).
  { clear Hs. induction l as [|x l IH]; [contradiction|]. simpl. unfold bind.
    destruct (keeps_strategy_searching x w text T U S Ht)
      as [[r [Hr He]] Hthrow].
    destruct Hin as [->|Hin].
    - rewrite (Hthrow Hname). reflexivity.
    - rewrite Hr. destruct r as [keep|e]; [|subst e; reflexivity].
      rewrite (IH Hin). reflexivity. }
  rewrite F. reflexivity.
Qed.

End Filtering.

(* ================================================================== *)
(** * Relations that every step of a run keeps *)
(* ================================================================== *)

Section Steps.
Context {S : Type} (R : S -> S -> Prop).
Hypothesis R_refl : forall s, R s s.
Hypothesis R_trans : forall a b c, R a b -> R b c -> R a c.

Lemma steps_same_store {A} (m : M S A) :
  (forall w, store (snd (m w)) = store w) -> steps R m.
Proof. intros H w. rewrite H. apply R_refl. Qed.

Lemma steps_ret {A} (a : A) : steps R (@ret S A a).
Proof. apply steps_same_store. reflexivity. Qed.

Lemma steps_throw {A} (e : exn) : steps R (@throw S A e).
Proof. apply steps_same_store. reflexivity. Qed.

Lemma steps_lift {A} (r : result A) : steps R (@lift S A r).
Proof. apply steps_same_store. reflexivity. Qed.

Lemma steps_read : steps R (@read S).
Proof. apply steps_same_store. reflexivity. Qed.

Lemma steps_emit (e : event) : steps R (@emit S e).
Proof. apply steps_same_store. reflexivity. Qed.

Lemma steps_fetch (E : env) (r : request) : steps R (@fetch E S r).
Proof.
  apply steps_same_store. intros w. unfold fetch.
  destruct (respond E (trace w) r); reflexivity.
Qed.

Lemma steps_json (a : response) : steps R (@json S a).
Proof.
  apply steps_same_store. intros w. destruct a as [|[v|]]; reflexivity.
Qed.

Lemma steps_confirm (E : env) (msg : string) : steps R (@confirm E S msg).
Proof. apply steps_same_store. reflexivity. Qed.

Lemma steps_modify (f : S -> S) : (forall s, R s (f s)) -> steps R (modify f).
Proof. intros H w. apply H. Qed.

Lemma steps_bind {A B} (m : M S A) (k : A -> M S B) :
  steps R m -> (forall a, steps R (k a)) -> steps R (bind m k).
Proof.
  intros Hm Hk w. unfold bind. specialize (Hm w).
  destruct (m w) as [[a|e] w1]; simpl in *; auto.
  eapply R_trans; [exact Hm|apply Hk].
Qed.

Lemma steps_try_catch {A} (m : M S A) (h : exn -> M S A) :
  steps R m -> (forall e, steps R (h e)) -> steps R (try_catch m h).
Proof.
  intros Hm Hh w. unfold try_catch. specialize (Hm w).
  destruct (m w) as [[a|e] w1]; simpl in *; auto.
  eapply R_trans; [exact Hm|apply Hh].
Qed.

Lemma steps_spawn {A} (m : M S A) : steps R m -> steps R (spawn m).
Proof. intros Hm w. apply Hm. Qed.

Lemma steps_mapM {A B} (f : A -> M S B) (l : list A) :
  (forall x, steps R (f x)) -> steps R (Dash.mapM f l).
Proof.
  intros Hf. induction l as [|x l IH]; simpl.
  - apply steps_ret.
  - apply steps_bind; auto. intros y.
    apply steps_bind; auto. intros ys. apply steps_ret.
Qed.

Lemma steps_foldM {A B} (f : B -> A -> M S B) (l : list A) (b : B) :
  (forall b x, steps R (f b x)) -> steps R (Dash.foldM f l b).
Proof.
  intros Hf. revert b. induction l as [|x l IH]; intros b; simpl.
  - apply steps_ret.
  - apply steps_bind; auto.
Qed.

End Steps.

(** Proves [steps R m] for a run [m] built from the operations above, given
    that [R] is reflexive ([Hr]) and transitive ([Ht]); [write] proves the
    goals that [modify] leaves. *)
Ltac steps_by Hr Ht write :=
  repeat match goal with
    | |- steps _ (ret _) => apply (steps_ret _ Hr)
    | |- steps _ (throw _) => apply (steps_throw _ Hr)
    | |- steps _ (lift _) => apply (steps_lift _ Hr)
    | |- steps _ read => apply (steps_read _ Hr)
    | |- steps _ (emit _) => apply (steps_emit _ Hr)
    | |- steps _ (fetch _ _) => apply (steps_fetch _ Hr)
    | |- steps _ (json _) => apply (steps_json _ Hr)
    | |- steps _ (confirm _ _) => apply (steps_confirm _ Hr)
    | |- steps _ (spawn _) => apply steps_spawn
    | |- steps _ (Dash.mapM _ _) => apply (steps_mapM _ Hr Ht); intros ?
    | |- steps _ (Dash.foldM _ _ _) =>
        apply (steps_foldM _ Hr Ht); intros ? ?
    | |- steps _ (try_catch _ _) =>
        apply (steps_try_catch _ Ht); [|intros ?]
    | |- steps _ (bind _ _) => apply (steps_bind _ Ht); [|intros ?]
    | |- steps _ (modify _) => apply steps_modify; intros ?; solve [write]
    | H : steps ?R ?m |- steps ?R ?m => exact H
    | H : forall x, steps ?R (@?m x) |- steps ?R _ => apply H
    | |- steps _ (if ?b then _ else _) => destruct b
    | |- steps _ (match ?x with _ => _ end) => destruct x
    end.

Ltac dash_unfold :=
  unfold Dash.content_loaded, Dash.setupEventListeners,
    Dash.startDataUpdates, Dash.tick, Dash.toggleStrategy, Dash.resetConfig,
    Dash.send_config, Dash.switchPanel, Dash.nav_click, Dash.closePosition,
    Dash.loadStrategies, Dash.loadConfig, Dash.renderConfigForm,
    Dash.updateOverview, Dash.updatePositions, Dash.updateCharts,
    Dash.updatePnlChart, Dash.render_strategy, Dash.render_position,
    Dash.append_content, Dash.set_content, Dash.edit_selected, Dash.query,
    Dash.edit_node, Dash.showNotification, Dash.canvas_context,
    console_error, console_log.


(* ================================================================== *)
(** * What the methods of the Vue client leave alone *)
(* ================================================================== *)

Section VueFrames.
Context (E : env) {P : Platform}.

Ltac vue_unfold :=
  unfold Vue.mounted, Vue.tick, Vue.changePage, Vue.loadPageData,
    Vue.toggleStrategy, Vue.createStrategy, Vue.closePosition,
    Vue.handleAlert, Vue.saveRiskSettings, Vue.testExchangeConnection,
    Vue.saveSettings, Vue.showNewStrategyModal, Vue.toggleSidebar,
    Vue.loadDashboardData, Vue.loadStrategies, Vue.loadPositions,
    Vue.loadRiskData, Vue.loadSettings, Vue.updateCharts, Vue.closeModal,
    Vue.showSuccess, Vue.showError, console_error, console_log.

Lemma same_forms_refl (d : Vue.data) : same_forms d d.
Proof. split; reflexivity. Qed.

Lemma same_forms_trans (a b c : Vue.data) :
  same_forms a b -> same_forms b c -> same_forms a c.
Proof. intros [? ?] [? ?]. split; congruence. Qed.

Lemma run_op_same_forms (op : vue_op) : steps same_forms (run_op E op).
Proof.
  destruct op; cbn [run_op]; vue_unfold;
    steps_by same_forms_refl same_forms_trans ltac:(split; reflexivity).
Qed.

Lemma only_view_refl (v : vue_view) (d : Vue.data) : only_view v d d.
Proof. split; reflexivity. Qed.

Lemma only_view_trans (v : vue_view) (a b c : Vue.data) :
  only_view v a b -> only_view v b c -> only_view v a c.
Proof.
  intros [U1 S1] [U2 S2]. split; [congruence|].
  intros v' Hv. rewrite (S2 v' Hv). apply S1, Hv.
Qed.

Lemma load_only_view (v : vue_view) :
  steps (only_view v) (Vue.loadPageData E (vue_page v)).
Proof.
  destruct v; unfold Vue.loadPageData;
    cbn [vue_page String.eqb Ascii.eqb Bool.eqb]; vue_unfold;
    match goal with
    | |- steps (only_view ?v) _ =>
        steps_by (only_view_refl v) (only_view_trans v)
          ltac:(split; [reflexivity|];
                let v' := fresh "v'" in
                intros v' ?; destruct v'; try reflexivity; contradiction)
    end.
Qed.

End VueFrames.

(** X9.  No method of the component writes to [riskSettings] or to
    [strategyFilter]: the risk settings are sent to the server by
    [saveRiskSettings] and never fetched from it, so after any sequence of
    operations from the start the component still holds the values of its
    [data] option there. *)
Theorem risk_settings_are_never_loaded (E : env) (P : Platform) :
  (forall (op : vue_op) (w : world Vue.data),
     same_forms (store w) (store (snd (run_op E op w)))) /\
  (forall ops : list vue_op,
     same_forms Vue.initial (store (run_ops E ops vue_start))).
Proof.
  assert (Step : forall (op : vue_op) (w : world Vue.data),
            same_forms (store w) (store (snd (run_op E op w)))).
  { intros op w. apply (run_op_same_forms E op w). }
  split; [exact Step|].
  intros ops.
  assert (G : forall w, same_forms Vue.initial (store w) ->
                same_forms Vue.initial (store (run_ops E ops w))).
  { induction ops as [|op ops IH]; intros w Hw; simpl; auto.
    apply IH. eapply same_forms_trans; [exact Hw|apply Step]. }
  apply G. apply same_forms_refl.
Qed.

(** X10.  A load of one view of the Vue client changes the data of that
    view and nothing else: the current page, the sidebar, the modal, the
    filter and the risk settings are as they were, and so are the data of
    the four other views. *)
Theorem vue_loads_stay_within_their_view (E : env) (P : Platform)
  (v : vue_view) (w : world Vue.data) :
  only_view v (store w) (store (snd (Vue.loadPageData E (vue_page v) w))).
Proof. apply (load_only_view E v w). Qed.

(* ================================================================== *)
(** * Further properties of the dashboard script *)
(* ================================================================== *)

Lemma quiet_no_notes (t : list event) : quiet t -> notes t = [].
Proof.
  unfold quiet. induction t as [|e t IH]; simpl; auto.
  intros H. apply andb_prop in H. destruct H as [He Ht].
  destruct e; try discriminate; auto.
Qed.

Lemma notes_app (t u : list event) : notes (t ++ u) = (notes t ++ notes u)%list.
Proof.
  induction t as [|e t IH]; simpl; auto.
  destruct e; simpl; rewrite ?IH; reflexivity.
Qed.

Lemma requests_app (t u : list event) :
  requests (t ++ u) = (requests t ++ requests u)%list.
Proof.
  induction t as [|e t IH]; simpl; auto.
  destruct e; simpl; rewrite ?IH; reflexivity.
Qed.

Section DashActions.
Context (E : env) {P : Platform} {OP : Dash.Prototype}.

(** X11.  A user who answers the question with no stops the action at once:
    [closePosition] and [resetConfig] then send nothing, show nothing, log
    nothing and leave the state as it is. *)
Theorem declined_action_does_nothing (w : world Dash.state) :
  (forall exchange symbol : string,
     let q := close_question exchange symbol in
     let m := Dash.closePosition E exchange symbol in
     answer E (trace w) q = false ->
     m w = (Ok tt, mkWorld (store w) (trace w ++ [EConfirm q false]))) /\
  (let m := Dash.resetConfig E in
   answer E (trace w) reset_question = false ->
   m w = (Ok tt, mkWorld (store w)
                         (trace w ++ [EConfirm reset_question false]))).
Proof.
  split.
  - intros exchange symbol q m A. subst q m.
    unfold Dash.closePosition, close_question in *. run. rewrite A.
    reflexivity.
  - intros m A. subst m. unfold Dash.resetConfig, reset_question in *. run.
    rewrite A. reflexivity.
Qed.

(** X12.  Every call of [toggleStrategy] shows exactly one notification:
    that the strategy is now enabled when the answer's [is_active] is
    truthy, that it is disabled when it is not, and that the operation
    failed when the POST did not bring a JSON body with properties.  The
    strategy list that is fetched afterwards adds none, also when that
    fetch fails. *)
Theorem toggleStrategy_notifies_once (strategyName : string)
  (w : world Dash.state) :
  let m := Dash.toggleStrategy E strategyName in
  let post := mk_post ("/api/strategy/" ++ strategyName ++ "/toggle") in
  notes (emitted m w) =
    match respond E (trace w) post with
    | Resolved (Some result) =>
        if nullish result then [("操作失败，请重试", "error")]
        else if truthy (field result "is_active")
             then [(strategyName ++ " 策略已启用", "success")]
             else [(strategyName ++ " 策略已禁用", "warning")]
    | _ => [("操作失败，请重试", "error")]
    end.
Proof.
  cbv zeta.
  unfold Dash.toggleStrategy, Dash.showNotification, emitted, field. run.
  destruct (respond E (trace w) _) as [|[result|]] eqn:R; run.
  - trace_norm. rewrite skipn_length_app. reflexivity.
  - destruct (get result "is_active") as [v|e] eqn:G; run.
    + rewrite (get_ok_not_nullish _ _ _ G).
      destruct (truthy v); run;
        match goal with
        | |- context [Dash.loadStrategies E ?w0] =>
            destruct (dash_loadStrategies_outcome E w0)
              as [s' [tail [Hrun [Q _]]]];
            rewrite Hrun
        end; run; trace_norm; rewrite skipn_length_app;
        cbn [notes]; rewrite (quiet_no_notes _ Q); reflexivity.
    + rewrite (get_throw_nullish _ _ _ G). trace_norm.
      rewrite skipn_length_app. reflexivity.
  - trace_norm. rewrite skipn_length_app. reflexivity.
Qed.

(** X13.  Once the user has confirmed, [resetConfig] shows exactly one
    notification.  It reports success whenever the POST brought a JSON
    body, which it does not look at, and whatever becomes of the fetch of
    the configuration that follows, which goes out exactly once; it reports
    an error, and fetches nothing, when the POST failed. *)
Theorem resetConfig_notifies_once (w : world Dash.state) :
  let m := Dash.resetConfig E in
  let post := mk_post "/api/config/reset" in
  answer E (trace w) reset_question = true ->
  match respond E (trace w ++ [EConfirm reset_question true]) post with
  | Resolved (Some _) =>
      notes (emitted m w) = [("配置已重置为默认值", "success")] /\
      requests (emitted m w) = [post; mk_get "/api/config"]
  | _ =>
      notes (emitted m w) = [("重置配置失败，请重试", "error")] /\
      requests (emitted m w) = [post] /\
      store (snd (m w)) = store w
  end.
Proof.
  cbv zeta. intros A.
  unfold Dash.resetConfig, Dash.showNotification, emitted, reset_question
    in *.
  run. rewrite A. run.
  destruct (respond E _ _) as [|[result|]] eqn:R; run.
  - trace_norm. rewrite skipn_length_app. repeat split; reflexivity.
  - match goal with
    | |- context [Dash.loadConfig E ?w0] =>
        destruct (dash_loadConfig_outcome E w0)
          as [s' [tail [Hrun [Q _]]]];
        rewrite Hrun
    end. run. trace_norm. rewrite skipn_length_app.
    cbn [notes requests]. rewrite notes_app, requests_app.
    rewrite (quiet_no_notes _ Q), (quiet_no_requests _ Q).
    split; reflexivity.
  - trace_norm. rewrite skipn_length_app. repeat split; reflexivity.
Qed.

End DashActions.

(* ================================================================== *)
(** * The charts of the dashboard *)
(* ================================================================== *)

Section DashParts.
Context (E : env) {P : Platform} {OP : Dash.Prototype}.

Lemma same_charts_refl (s : Dash.state) : same_charts s s.
Proof. split; reflexivity. Qed.

Lemma same_charts_trans (a b c : Dash.state) :
  same_charts a b -> same_charts b c -> same_charts a c.
Proof. intros [? ?] [? ?]. split; congruence. Qed.

Ltac charts_kept :=
  dash_unfold;
  steps_by same_charts_refl same_charts_trans ltac:(split; reflexivity).

Lemma loadStrategies_same_charts : steps same_charts (Dash.loadStrategies E).
Proof. charts_kept. Qed.

Lemma loadConfig_same_charts : steps same_charts (Dash.loadConfig E).
Proof. charts_kept. Qed.

Lemma updateOverview_same_charts : steps same_charts (Dash.updateOverview E).
Proof. charts_kept. Qed.

Lemma updatePositions_same_charts :
  steps same_charts (Dash.updatePositions E).
Proof. charts_kept. Qed.


Lemma toggleStrategy_same_charts (name : string) :
  steps same_charts (Dash.toggleStrategy E name).
Proof. charts_kept. Qed.

Lemma resetConfig_same_charts : steps same_charts (Dash.resetConfig E).
Proof. charts_kept. Qed.

Lemma send_config_same_charts (formData : value) :
  steps same_charts (Dash.send_config E formData).
Proof. charts_kept. Qed.

Lemma switchPanel_same_charts (panelId : string) :
  steps same_charts (Dash.switchPanel panelId).
Proof. charts_kept. Qed.

Lemma nav_click_same_charts (link : Dash.elem) :
  steps same_charts (Dash.nav_click link).
Proof.
  unfold Dash.nav_click. destruct (Dash.el_href link).
  - apply switchPanel_same_charts.
  - charts_kept.
Qed.

Lemma closePosition_same_charts (exchange symbol : string) :
  steps same_charts (Dash.closePosition E exchange symbol).
Proof. charts_kept. Qed.

(** [Promise.all] over the five calls of [initializeDashboard]. *)
Lemma steps_initializeDashboard (R : Dash.state -> Dash.state -> Prop) :
  (forall a b c, R a b -> R b c -> R a c) ->
  steps R Dash.initializeCharts ->
  steps R (Dash.loadStrategies E) ->
  steps R (Dash.loadConfig E) ->
  steps R (Dash.updateOverview E) ->
  steps R (Dash.updatePositions E) ->
  steps R (Dash.initializeDashboard E).
Proof.
  intros Ht H0 H1 H2 H3 H4 w. unfold Dash.initializeDashboard.
  specialize (H0 w). destruct (Dash.initializeCharts w) as [r w1].
  cbn [snd] in *.
  eapply Ht; [exact H0|]. eapply Ht; [apply H1|].
  eapply Ht; [apply H2|]. eapply Ht; [apply H3|]. apply H4.
Qed.

(** ** Aligned charts *)

Lemma keeps_aligned_refl (s : Dash.state) : keeps_aligned s s.
Proof. intros H. exact H. Qed.

Lemma keeps_aligned_trans (a b c : Dash.state) :
  keeps_aligned a b -> keeps_aligned b c -> keeps_aligned a c.
Proof. unfold keeps_aligned. auto. Qed.

Lemma same_charts_aligned {A} (m : M Dash.state A) :
  steps same_charts m -> steps keeps_aligned m.
Proof.
  intros H w [He Hp]. destruct (H w) as [Ee Ep].
  split; congruence.
Qed.

(** A loop of property reads gives one result for each item. *)
Lemma mapM_get_length (k : string) (items : list value)
  (w : world Dash.state) :
  exists r,
    Dash.mapM (fun item => lift (get item k)) items w = (r, w) /\
    forall l, r = Ok l -> List.length l = List.length items.
Proof.
  induction items as [|x items [r [Hr Hl]]]; simpl.
  - eexists. split; [reflexivity|]. intros l H. injection H as <-.
    reflexivity.
  - unfold bind, lift at 1. destruct (get x k) as [v|e].
    + rewrite Hr. destruct r as [l|e]; run.
      * eexists. split; [reflexivity|]. intros l' H. injection H as <-.
        simpl. rewrite (Hl l); reflexivity.
      * eexists. split; [reflexivity|]. discriminate.
    + eexists. split; [reflexivity|]. discriminate.
Qed.

Lemma updateEquityChart_aligned (equityHistory : value) :
  steps keeps_aligned (Dash.updateEquityChart equityHistory).
Proof.
  intros w. unfold Dash.updateEquityChart. run.
  destruct (Dash.chart_equity (store w)) eqn:Ce; run;
    [|apply keeps_aligned_refl].
  destruct (truthy equityHistory); run; [|apply keeps_aligned_refl].
  destruct (Dash.as_array equityHistory) as [items|]; run;
    [|apply keeps_aligned_refl].
  destruct (mapM_get_length "time" items w) as [r1 [H1 L1]].
  unfold lift in H1. rewrite H1.
  destruct r1 as [times|]; run; [|apply keeps_aligned_refl].
  destruct (mapM_get_length "equity" items w) as [r2 [H2 L2]].
  unfold lift in H2. rewrite H2.
  destruct r2 as [equities|]; run; [|apply keeps_aligned_refl].
  intros [_ Hp]. split; [|exact Hp].
  cbn [Dash.chart_equity Dash.set_chart_equity aligned Dash.labels
       Dash.points].
  rewrite (L1 times), (L2 equities); reflexivity.
Qed.

Lemma updatePnlChart_aligned (trades : value) :
  steps keeps_aligned (Dash.updatePnlChart trades).
Proof.
  dash_unfold.
  steps_by keeps_aligned_refl keeps_aligned_trans
    ltac:(intros [He _]; split; [exact He|];
          cbn [Dash.chart_pnl Dash.set_chart_pnl aligned Dash.labels
               Dash.points];
          unfold Dash.object_keys, Dash.object_values;
          rewrite !length_map; reflexivity).
Qed.

Lemma updateCharts_aligned : steps keeps_aligned (Dash.updateCharts E).
Proof.
  unfold Dash.updateCharts, console_error.
  pose proof updateEquityChart_aligned as He.
  pose proof updatePnlChart_aligned as Hp.
  steps_by keeps_aligned_refl keeps_aligned_trans ltac:(idtac);
    first [apply He|apply Hp].
Qed.

Lemma initializeCharts_aligned : steps keeps_aligned Dash.initializeCharts.
Proof.
  unfold Dash.initializeCharts. dash_unfold.
  steps_by keeps_aligned_refl keeps_aligned_trans
    ltac:(intros [He Hp]; split; first [assumption|reflexivity]).
Qed.

Lemma initializeDashboard_aligned :
  steps keeps_aligned (Dash.initializeDashboard E).
Proof.
  apply steps_initializeDashboard.
  - apply keeps_aligned_trans.
  - apply initializeCharts_aligned.
  - apply same_charts_aligned, loadStrategies_same_charts.
  - apply same_charts_aligned, loadConfig_same_charts.
  - apply same_charts_aligned, updateOverview_same_charts.
  - apply same_charts_aligned, updatePositions_same_charts.
Qed.

Lemma run_dash_op_aligned (op : dash_op) :
  steps keeps_aligned (run_dash_op E op).
Proof.
  destruct op; cbn [run_dash_op].
  - apply steps_spawn. unfold Dash.content_loaded, Dash.setupEventListeners,
      Dash.startDataUpdates.
    pose proof initializeDashboard_aligned as Hi.
    steps_by keeps_aligned_refl keeps_aligned_trans
      ltac:(intros H; exact H).
  - unfold Dash.tick.
    pose proof (same_charts_aligned _ updateOverview_same_charts) as H1.
    pose proof (same_charts_aligned _ updatePositions_same_charts) as H2.
    pose proof updateCharts_aligned as H3.
    steps_by keeps_aligned_refl keeps_aligned_trans ltac:(idtac).
  - destruct v; cbn [dash_load].
    + apply same_charts_aligned, loadStrategies_same_charts.
    + apply same_charts_aligned, loadConfig_same_charts.
    + apply same_charts_aligned, updateOverview_same_charts.
    + apply same_charts_aligned, updatePositions_same_charts.
    + apply updateCharts_aligned.
  - apply initializeCharts_aligned.
  - apply same_charts_aligned, toggleStrategy_same_charts.
  - apply same_charts_aligned, resetConfig_same_charts.
  - apply same_charts_aligned, send_config_same_charts.
  - apply same_charts_aligned, switchPanel_same_charts.
  - apply same_charts_aligned, nav_click_same_charts.
  - apply same_charts_aligned, closePosition_same_charts.
Qed.

End DashParts.

(** X14.  The two charts always have as many labels as they have points:
    every operation of the script keeps it so, whatever the server sends,
    and so it holds after any sequence of operations from the start. *)
Theorem charts_stay_aligned (E : env) (P : Platform) (OP : Dash.Prototype) :
  (forall (op : dash_op) (w : world Dash.state),
     charts_aligned (store w) ->
     charts_aligned (store (snd (run_dash_op E op w)))) /\
  (forall ops : list dash_op,
     charts_aligned (store (run_dash_ops E ops dash_start))).
Proof.
  assert (Step : forall (op : dash_op) (w : world Dash.state),
            charts_aligned (store w) ->
            charts_aligned (store (snd (run_dash_op E op w)))).
  { intros op w. apply (run_dash_op_aligned E op w). }
  split; [exact Step|].
  intros ops.
  assert (G : forall w, charts_aligned (store w) ->
                charts_aligned (store (run_dash_ops E ops w))).
  { induction ops as [|op ops IH]; intros w Hw; simpl; auto. }
  apply G. split; exact I.
Qed.

(* ================================================================== *)
(** * Start-up of the dashboard *)
(* ================================================================== *)

Section StartUp.
Context (E : env) {P : Platform} {OP : Dash.Prototype}.

Lemma initializeCharts_run (w : world Dash.state) :
  exists r s',
    Dash.initializeCharts w = (r, mkWorld s' (trace w)) /\
    Dash.doc s' = Dash.doc (store w) /\
    match r with
    | Ok _ =>
        Dash.chart_equity s' = Some (Dash.mkChart [] []) /\
        Dash.chart_pnl s' = Some (Dash.mkChart [] [])
    | Throw e => e = TypeError /\ s' = store w
    end.
Proof.
  unfold Dash.initializeCharts, Dash.canvas_context. run.
  destruct (Dash.first_of _ (Dash.doc (store w))) as [e1|]; run.
  - destruct (String.eqb (Dash.el_tag e1) "canvas"); run.
    + destruct (Dash.first_of _ (Dash.doc (store w))) as [e2|]; run.
      * destruct (String.eqb (Dash.el_tag e2) "canvas"); run.
        -- eexists. eexists. split; [reflexivity|]. repeat split.
        -- exists (Throw TypeError), (store w).
           rewrite world_eta. repeat split.
      * exists (Throw TypeError), (store w).
        rewrite world_eta. repeat split.
    + exists (Throw TypeError), (store w). rewrite world_eta. repeat split.
  - exists (Throw TypeError), (store w). rewrite world_eta. repeat split.
Qed.

(** The requests and the notifications of a load of one request. *)
Lemma load_outcome_sends (m : M Dash.state unit) (url msg : string)
  (w : world Dash.state) :
  load_outcome E m url msg w ->
  exists x,
    trace (snd (m w)) = (trace w ++ x)%list /\
    requests x = [mk_get url] /\ notes x = [].
Proof.
  intros [s' [tail [Hrun [Q _]]]]. rewrite Hrun. cbn [snd trace].
  eexists. split; [reflexivity|]. cbn [requests notes].
  rewrite (quiet_no_requests _ Q), (quiet_no_notes _ Q). split; reflexivity.
Qed.

(** X15.  At start-up the script sends four requests, one each for the
    strategy list, the configuration, the overview and the positions, in
    this order, and shows no notification.  It asks for neither the
    performance data nor the trades: when [initializeDashboard] is through,
    the two charts are there and empty, and when a canvas is missing, so
    that its promise rejects, the charts are what they were. *)
Theorem initializeDashboard_leaves_charts_empty (w : world Dash.state) :
  let m := Dash.initializeDashboard E in
  requests (emitted m w) =
    [mk_get "/api/strategy/list"; mk_get "/api/config";
     mk_get "/api/monitor/overview"; mk_get "/api/monitor/positions"] /\
  notes (emitted m w) = [] /\
  match fst (m w) with
  | Ok _ =>
      Dash.chart_equity (store (snd (m w))) = Some (Dash.mkChart [] []) /\
      Dash.chart_pnl (store (snd (m w))) = Some (Dash.mkChart [] [])
  | Throw _ => same_charts (store w) (store (snd (m w)))
  end.
Proof.
  cbv zeta. unfold Dash.initializeDashboard.
  destruct (initializeCharts_run w) as [r [s0 [H0 [_ Hr]]]].
  set (w0 := mkWorld s0 (trace w)) in *.
  set (w1 := snd (Dash.loadStrategies E w0)).
  set (w2 := snd (Dash.loadConfig E w1)).
  set (w3 := snd (Dash.updateOverview E w2)).
  set (w4 := snd (Dash.updatePositions E w3)).
  assert (Hem : emitted (Dash.initializeDashboard E) w =
                skipn (List.length (trace w)) (trace w4)).
  { unfold emitted, Dash.initializeDashboard. rewrite H0. reflexivity. }
  destruct (load_outcome_sends _ _ _ w0 (dash_loadStrategies_outcome E w0))
    as [x1 [T1 [R1 N1]]].
  destruct (load_outcome_sends _ _ _ w1 (dash_loadConfig_outcome E w1))
    as [x2 [T2 [R2 N2]]].
  destruct (load_outcome_sends _ _ _ w2 (dash_updateOverview_outcome E w2))
    as [x3 [T3 [R3 N3]]].
  destruct (load_outcome_sends _ _ _ w3 (dash_updatePositions_outcome E w3))
    as [x4 [T4 [R4 N4]]].
  fold w1 in T1. fold w2 in T2. fold w3 in T3. fold w4 in T4.
  assert (T : trace w4 = (trace w ++ (x1 ++ x2 ++ x3 ++ x4))%list).
  { rewrite T4, T3, T2, T1. subst w0. cbn [trace].
    rewrite <- !app_assoc. reflexivity. }
  assert (C : same_charts s0 (store w4)).
  { eapply same_charts_trans; [apply (loadStrategies_same_charts E w0)|].
    eapply same_charts_trans; [apply (loadConfig_same_charts E w1)|].
    eapply same_charts_trans; [apply (updateOverview_same_charts E w2)|].
    apply (updatePositions_same_charts E w3). }
  fold (Dash.initializeDashboard E). rewrite Hem, T, skipn_length_app.
  rewrite !requests_app, !notes_app, R1, R2, R3, R4, N1, N2, N3, N4.
  split; [reflexivity|]. split; [reflexivity|].
  unfold Dash.initializeDashboard. rewrite H0. fold w0 w1 w2 w3 w4.
  cbn [fst snd]. destruct C as [Ce Cp].
  destruct r as [[]|e].
  - destruct Hr as [He Hp]. split; congruence.
  - destruct Hr as [_ ->]. split; assumption.
Qed.

End StartUp.

(* ================================================================== *)
(** * What a load of the dashboard touches *)
(* ================================================================== *)

Section Frames.
Context (E : env) {P : Platform} {OP : Dash.Prototype}.

Lemma same_node_refl (e : Dash.elem) : same_node e e.
Proof. repeat split. Qed.

Lemma same_node_trans (a b c : Dash.elem) :
  same_node a b -> same_node b c -> same_node a c.
Proof.
  unfold same_node. intros [? [? [? ?]]] [? [? [? ?]]].
  repeat split; congruence.
Qed.

Lemma untouched_refl (v : dash_view) (e : Dash.elem) : untouched v e e.
Proof. split; [apply same_node_refl|reflexivity]. Qed.

Lemma untouched_trans (v : dash_view) (a b c : Dash.elem) :
  untouched v a b -> untouched v b c -> untouched v a c.
Proof.
  intros [N1 U1] [N2 U2]. split.
  - eapply same_node_trans; eauto.
  - intros H. specialize (U1 H). subst b. auto.
Qed.

Lemma Forall2_refl {A} (Q : A -> A -> Prop) (l : list A) :
  (forall x, Q x x) -> Forall2 Q l l.
Proof. intros H. induction l; constructor; auto. Qed.

Lemma Forall2_trans {A} (Q : A -> A -> Prop) (a b c : list A) :
  (forall x y z, Q x y -> Q y z -> Q x z) ->
  Forall2 Q a b -> Forall2 Q b c -> Forall2 Q a c.
Proof.
  intros Ht H. revert c. induction H; intros c Hc; inversion Hc; subst;
    constructor; eauto.
Qed.

Lemma within_refl (v : dash_view) (s : Dash.state) : within v s s.
Proof.
  split; [apply Forall2_refl, untouched_refl|].
  split; [reflexivity|].
  split; destruct v; auto using same_charts_refl.
Qed.

Lemma within_trans (v : dash_view) (a b c : Dash.state) :
  within v a b -> within v b c -> within v a c.
Proof.
  intros [D1 [T1 [C1 G1]]] [D2 [T2 [C2 G2]]].
  split; [eapply Forall2_trans; eauto using untouched_trans|].
  split; [congruence|].
  split; destruct v; auto; try congruence;
    eapply same_charts_trans; eauto.
Qed.

(** The first selected element is edited, and nothing else. *)
Lemma edit_first_rel (Q : Dash.elem -> Dash.elem -> Prop)
  (sel : Dash.elem -> bool) (f : Dash.elem -> Dash.elem)
  (d d' : list Dash.elem) :
  (forall e, Q e e) ->
  (forall e, sel e = true -> Q e (f e)) ->
  Dash.edit_first sel f d = Some d' ->
  Forall2 Q d d'.
Proof.
  intros Hr Hf. revert d'. induction d as [|e d IH]; simpl; intros d' H.
  - discriminate.
  - destruct (sel e) eqn:Se.
    + injection H as <-. constructor; auto using Forall2_refl.
    + destruct (Dash.edit_first sel f d) as [d1|]; [|discriminate].
      injection H as <-. constructor; auto.
Qed.

Lemma place_of_nth (sel : Dash.elem -> bool) (d : list Dash.elem) (i : nat) :
  Dash.place_of sel d = Some i ->
  exists e, nth_error d i = Some e /\ sel e = true.
Proof.
  revert i. induction d as [|x d IH]; simpl; intros i H; [discriminate|].
  destruct (sel x) eqn:Sx.
  - injection H as <-. exists x. auto.
  - destruct (Dash.place_of sel d) as [j|]; [|discriminate].
    injection H as <-. simpl. apply IH. reflexivity.
Qed.

(** Two writes to nodes that were looked up in the same document; a node
    that was not found is [None]. *)
Lemma edit_found_cons (node : option nat) (f : Dash.elem -> Dash.elem)
  (x : Dash.elem) (d : list Dash.elem) :
  edit_found node f (x :: d) =
  match node with
  | Some O => f x :: d
  | Some (Datatypes.S i) => x :: edit_found (Some i) f d
  | None => x :: edit_found None f d
  end.
Proof. destruct node as [[|i]|]; reflexivity. Qed.

Lemma edit_found_twice_rel (Q : Dash.elem -> Dash.elem -> Prop)
  (f1 f2 : Dash.elem -> Dash.elem) (d : list Dash.elem)
  (n1 n2 : option nat) :
  (forall e, Q e e) ->
  (forall i e, n1 = Some i -> nth_error d i = Some e ->
     Q e (f1 e) /\ Q e (f2 (f1 e))) ->
  (forall j e, n2 = Some j -> nth_error d j = Some e -> Q e (f2 e)) ->
  Forall2 Q d (edit_found n2 f2 (edit_found n1 f1 d)).
Proof.
  intros Hr. revert n1 n2.
  induction d as [|x d IH]; intros n1 n2 H1 H2.
  - destruct n1 as [[|i]|], n2 as [[|j]|]; constructor.
  - assert (T : forall m1 m2,
              (forall i e, m1 = Some i -> n1 = Some (Datatypes.S i) ->
                 nth_error d i = Some e -> True) ->
              (match n1 with
               | Some (Datatypes.S i) => m1 = Some i
               | _ => m1 = None
               end) ->
              (match n2 with
               | Some (Datatypes.S j) => m2 = Some j
               | _ => m2 = None
               end) ->
              Forall2 Q d (edit_found m2 f2 (edit_found m1 f1 d))).
    { intros m1 m2 _ M1 M2. apply IH.
      - intros i e -> He.
        destruct n1 as [[|i1]|]; try discriminate.
        injection M1 as <-. apply (H1 (Datatypes.S i) e); auto.
      - intros j e -> He.
        destruct n2 as [[|j1]|]; try discriminate.
        injection M2 as <-. apply (H2 (Datatypes.S j) e); auto. }
    rewrite (edit_found_cons n1).
    destruct n1 as [[|i]|]; rewrite (edit_found_cons n2);
      destruct n2 as [[|j]|]; constructor;
      try apply Hr;
      try (apply (H1 0 x); reflexivity);
      try (apply (H2 0 x); reflexivity);
      try (apply (T None None); auto; fail);
      try (apply (T None (Some j)); auto; fail);
      try (apply (T (Some i) None); auto; fail);
      try (apply (T (Some i) (Some j)); auto; fail).
Qed.


Lemma with_content_same_node (c : string) (e : Dash.elem) :
  same_node e (Dash.with_content c e).
Proof. repeat split. Qed.

Lemma with_classes_same_node (cs : list string) (e : Dash.elem) :
  same_node e (Dash.with_classes cs e).
Proof. repeat split. Qed.

(** A write to the document that stays within the elements of a view. *)
Lemma set_doc_within (v : dash_view) (s : Dash.state) (d : list Dash.elem) :
  Forall2 (untouched v) (Dash.doc s) d ->
  within v s (Dash.set_doc d s).
Proof.
  intros H. split; [exact H|]. split; [reflexivity|].
  split; destruct v; auto; split; reflexivity.
Qed.

Lemma edit_selected_within (v : dash_view) (sel : Dash.elem -> bool)
  (f : Dash.elem -> Dash.elem) :
  (forall e, sel e = true -> touches v e = true) ->
  (forall e, same_node e (f e)) ->
  steps (within v) (Dash.edit_selected sel f).
Proof.
  intros Hsel Hf w. unfold Dash.edit_selected. run.
  destruct (Dash.edit_first sel f (Dash.doc (store w))) as [d|] eqn:Ed; run.
  - apply set_doc_within.
    apply (edit_first_rel _ sel f); auto using untouched_refl.
    intros e Se. split; [apply Hf|].
    intros H. rewrite (Hsel e Se) in H. discriminate.
  - apply within_refl.
Qed.

Lemma set_content_within (v : dash_view) (id : string) :
  (forall e, Dash.has_id id e = true -> touches v e = true) ->
  forall c, steps (within v) (Dash.set_content id c).
Proof.
  intros Hsel c. apply (edit_selected_within v (Dash.has_id id)); auto.
  intros e. apply with_content_same_node.
Qed.

Lemma append_content_within (v : dash_view) (id : string) :
  (forall e, Dash.has_id id e = true -> touches v e = true) ->
  forall c, steps (within v) (Dash.append_content id c).
Proof.
  intros Hsel c. unfold Dash.append_content.
  apply edit_selected_within; auto.
  intros e. apply with_content_same_node.
Qed.

(** The two writes to the status indicator. *)
Lemma status_writes_within (cs : list string) (c : string)
  (w : world Dash.state) :
  let d := Dash.doc (store w) in
  let dot := Dash.place_of (Dash.has_class "status-dot") d in
  let text := Dash.place_of (Dash.has_class "status-text") d in
  Forall2 (untouched DOverview) d
    (edit_found text (Dash.with_content c)
       (edit_found dot (Dash.with_classes cs) d)).
Proof.
  cbv zeta. apply edit_found_twice_rel.
  - apply untouched_refl.
  - intros i e Hi He. apply place_of_nth in Hi.
    destruct Hi as [e' [He' Hc]]. rewrite He in He'. injection He' as <-.
    assert (T : touches DOverview e = true)
      by (cbn [touches]; rewrite Hc; rewrite ?orb_true_r; reflexivity).
    split; (split; [repeat split|rewrite T; discriminate]).
  - intros j e Hj He. apply place_of_nth in Hj.
    destruct Hj as [e' [He' Hc]]. rewrite He in He'. injection He' as <-.
    assert (T : touches DOverview e = true)
      by (cbn [touches]; rewrite Hc; rewrite ?orb_true_r; reflexivity).
    split; [repeat split|rewrite T; discriminate].
Qed.

Lemma loadStrategies_within :
  steps (within DStrategies) (Dash.loadStrategies E).
Proof.
  pose proof (set_content_within DStrategies "strategies-container"
                (fun e H => H)) as Hs.
  unfold Dash.loadStrategies, Dash.render_strategy, console_error.
  steps_by (within_refl DStrategies) (within_trans DStrategies) ltac:(idtac).
Qed.

Lemma updatePositions_within :
  steps (within DPositions) (Dash.updatePositions E).
Proof.
  pose proof (set_content_within DPositions "positions-body"
                (fun e H => H)) as Hs.
  unfold Dash.updatePositions, Dash.render_position, console_error.
  steps_by (within_refl DPositions) (within_trans DPositions) ltac:(idtac).
Qed.

Lemma loadConfig_within : steps (within DConfig) (Dash.loadConfig E).
Proof.
  pose proof (set_content_within DConfig "config-form" (fun e H => H))
    as Hs.
  pose proof (append_content_within DConfig "config-form" (fun e H => H))
    as Ha.
  unfold Dash.loadConfig, Dash.renderConfigForm, console_error.
  steps_by (within_refl DConfig) (within_trans DConfig)
    ltac:(split; [apply Forall2_refl, untouched_refl|];
          repeat split; reflexivity).
Qed.

Lemma updateCharts_within : steps (within DCharts) (Dash.updateCharts E).
Proof.
  unfold Dash.updateCharts, Dash.updateEquityChart, Dash.updatePnlChart,
    console_error.
  steps_by (within_refl DCharts) (within_trans DCharts)
    ltac:(split; [apply Forall2_refl, untouched_refl|];
          repeat split; reflexivity).
Qed.

Lemma updateOverview_within :
  steps (within DOverview) (Dash.updateOverview E).
Proof.
  assert (Hid : forall id,
            In id ["total-equity"; "daily-pnl"; "max-drawdown";
                   "active-positions"] ->
            forall c, steps (within DOverview) (Dash.set_content id c)).
  { intros id Hin. apply set_content_within. intros e He. cbn [touches].
    simpl in Hin.
    destruct Hin as [<-|[<-|[<-|[<-|[]]]]]; rewrite He;
      rewrite ?orb_true_r; reflexivity. }
  pose proof (Hid "total-equity" ltac:(simpl; auto)) as H1.
  pose proof (Hid "daily-pnl" ltac:(simpl; auto)) as H2.
  pose proof (Hid "max-drawdown" ltac:(simpl; auto)) as H3.
  pose proof (Hid "active-positions" ltac:(simpl; auto 6)) as H4.
  clear Hid.
  assert (Tail : forall data,
            steps (within DOverview)
              (statusDot <- Dash.query (Dash.has_class "status-dot") ;;
               statusText <- Dash.query (Dash.has_class "status-text") ;;
               status <- lift (get data "status") ;;
               Dash.edit_node statusDot
                 (Dash.with_classes
                    (Dash.tokens ("status-dot " ++ to_str status))) ;;
               Dash.edit_node statusText
                 (Dash.with_content
                    ("状态: " ++
                     (if strict_eq_str status "running"
                      then "运行中" else "已停止"))))).
  { intros data w. unfold Dash.query, Dash.edit_node. run.
    destruct (get data "status") as [status|]; run;
      [|apply within_refl].
    pose proof (status_writes_within
                  (Dash.tokens ("status-dot " ++ to_str status))
                  ("状态: " ++ (if strict_eq_str status "running"
                                then "运行中" else "已停止")) w) as H.
    cbv zeta in H.
    destruct (Dash.place_of (Dash.has_class "status-dot")
                (Dash.doc (store w))) as [i|]; run;
      [|apply within_refl].
    destruct (Dash.place_of (Dash.has_class "status-text")
                (Dash.doc (store w))) as [j|]; run;
      cbn [edit_found Dash.doc Dash.set_doc] in *.
    - split; [exact H|]. repeat split; reflexivity.
    - split; [exact H|]. repeat split; reflexivity. }
  unfold Dash.updateOverview, console_error.
  apply (steps_try_catch _ (within_trans DOverview));
    [|intros ?; apply steps_emit, within_refl].
  do 5 (apply (steps_bind _ (within_trans DOverview));
        [first [apply steps_fetch|apply steps_json|apply steps_lift];
         apply within_refl|intros ?]).
  apply (steps_bind _ (within_trans DOverview)); [apply H1|intros _].
  apply (steps_bind _ (within_trans DOverview));
    [apply steps_lift, within_refl|intros ?].
  apply (steps_bind _ (within_trans DOverview)); [apply H2|intros _].
  apply (steps_bind _ (within_trans DOverview));
    [apply steps_lift, within_refl|intros ?].
  apply (steps_bind _ (within_trans DOverview)); [apply H3|intros _].
  apply (steps_bind _ (within_trans DOverview));
    [apply steps_lift, within_refl|intros ?].
  apply (steps_bind _ (within_trans DOverview)); [apply H4|intros _].
  apply Tail.
Qed.

End Frames.

(** X16.  A load of the dashboard writes to its own part of the state and
    to nothing else.  The page keeps its nodes, and every element other
    than the ones the load is for is exactly what it was: the strategy
    container for the strategy list, the table body for the positions, the
    form for the configuration, the four figures and the status indicator
    for the overview, no element at all for the charts.  The timer is as
    it was; the charts change in the load of the charts only, and
    [configData] in the load of the configuration only. *)
Theorem loads_stay_within_their_view (E : env) (P : Platform)
  (OP : Dash.Prototype) (v : dash_view) (w : world Dash.state) :
  within v (store w) (store (snd (dash_load E v w))).
Proof.
  destruct v; cbn [dash_load].
  - apply loadStrategies_within.
  - apply loadConfig_within.
  - apply updateOverview_within.
  - apply updatePositions_within.
  - apply updateCharts_within.
Qed.

(* ================================================================== *)
(** * The wiring at start-up *)
(* ================================================================== *)

Section Wiring.
Context (E : env) {P : Platform} {OP : Dash.Prototype}.

Lemma same_page_refl (s : Dash.state) : same_page s s.
Proof. split; [apply Forall2_refl, same_node_refl|reflexivity]. Qed.

Lemma same_page_trans (a b c : Dash.state) :
  same_page a b -> same_page b c -> same_page a c.
Proof.
  intros [D1 T1] [D2 T2]. split; [|congruence].
  eapply Forall2_trans; eauto using same_node_trans.
Qed.

Lemma within_same_page {A} (v : dash_view) (m : M Dash.state A) :
  steps (within v) m -> steps same_page m.
Proof.
  intros H w. destruct (H w) as [D [T _]]. split; [|exact T].
  eapply Forall2_impl; [|exact D]. intros a b [N _]. exact N.
Qed.

Lemma initializeDashboard_same_page :
  steps same_page (Dash.initializeDashboard E).
Proof.
  apply steps_initializeDashboard.
  - apply same_page_trans.
  - unfold Dash.initializeCharts, Dash.canvas_context.
    steps_by same_page_refl same_page_trans
      ltac:(split; [apply Forall2_refl, same_node_refl|reflexivity]).
  - apply (within_same_page DStrategies), loadStrategies_within.
  - apply (within_same_page DConfig), loadConfig_within.
  - apply (within_same_page DOverview), updateOverview_within.
  - apply (within_same_page DPositions), updatePositions_within.
Qed.

Lemma place_of_same_nodes (id : string) (d d' : list Dash.elem) :
  Forall2 same_node d d' ->
  Dash.place_of (Dash.has_id id) d' = Dash.place_of (Dash.has_id id) d.
Proof.
  induction 1 as [|e e' d d' [_ [_ [Hi _]]] _ IH]; simpl; auto.
  assert (L : Dash.has_id id e' = Dash.has_id id e)
    by (unfold Dash.has_id; rewrite Hi; reflexivity).
  rewrite L, IH. reflexivity.
Qed.

Lemma places_from_same_nodes (n : nat) (d d' : list Dash.elem) :
  Forall2 same_node d d' ->
  Dash.places_from n Dash.is_nav_link d' =
  Dash.places_from n Dash.is_nav_link d.
Proof.
  intros H. revert n.
  induction H as [|e e' d d' [Ht [Hn _]] _ IH]; intros n; simpl; auto.
  assert (L : Dash.is_nav_link e' = Dash.is_nav_link e)
    by (unfold Dash.is_nav_link; rewrite Ht, Hn; reflexivity).
  rewrite L, IH. reflexivity.
Qed.

(** X17.  The handler of [DOMContentLoaded] starts the update loop only on
    a page that has both buttons of the configuration panel.  There
    [setupEventListeners] puts a listener on every link of the navigation
    and on the two buttons, and the timer is started with its period of
    5000 ms.  Where one of the buttons is missing the handler throws a
    [TypeError] before [startDataUpdates] is reached, and no timer is
    started: the page then shows what the first loads brought and is never
    refreshed. *)
Theorem update_loop_needs_both_buttons (w : world Dash.state) :
  let d := Dash.doc (store w) in
  let r := Dash.content_loaded E w in
  match Dash.place_of (Dash.has_id "save-config") d,
        Dash.place_of (Dash.has_id "reset-config") d with
  | Some save, Some reset =>
      fst r =
        Ok (map (fun i => (i, Dash.OnNavClick))
                (Dash.places_from 0 Dash.is_nav_link d) ++
            [(save, Dash.OnSaveConfig); (reset, Dash.OnResetConfig)])%list /\
      Dash.updateInterval (store (snd r)) = Some Dash.update_period
  | _, _ =>
      fst r = Throw TypeError /\
      Dash.updateInterval (store (snd r)) = Dash.updateInterval (store w)
  end.
Proof.
  cbv zeta.
  destruct (initializeDashboard_same_page w) as [Hd Ht].
  unfold Dash.content_loaded, Dash.setupEventListeners,
    Dash.startDataUpdates.
  run.
  rewrite !(place_of_same_nodes _ _ _ Hd), (places_from_same_nodes _ _ _ Hd).
  destruct (Dash.place_of (Dash.has_id "save-config") _) as [save|]; run.
  - destruct (Dash.place_of (Dash.has_id "reset-config") _) as [reset|]; run.
    + split; reflexivity.
    + split; [reflexivity|exact Ht].
  - split; [reflexivity|exact Ht].
Qed.

End Wiring.

(* ================================================================== *)
(** * Switching panels, one switch after the other *)
(* ================================================================== *)

Section Switches.

Lemma edit_first_place (sel : Dash.elem -> bool) (f : Dash.elem -> Dash.elem)
  (d : list Dash.elem) :
  Dash.edit_first sel f d =
  option_map (fun i => Dash.edit_at i f d) (Dash.place_of sel d).
Proof.
  induction d as [|e d IH]; simpl; auto.
  destruct (sel e); [reflexivity|]. rewrite IH.
  destruct (Dash.place_of sel d); reflexivity.
Qed.

Lemma nth_error_edit_found (node : option nat) (f : Dash.elem -> Dash.elem)
  (d : list Dash.elem) (k : nat) :
  nth_error (edit_found node f d) k =
  option_map (fun e => if at_place node k then f e else e) (nth_error d k).
Proof.
  destruct node as [i|]; simpl.
  - revert i k. induction d as [|x d IH]; intros i k.
    + destruct i, k; reflexivity.
    + destruct i as [|i], k as [|k]; simpl; auto.
      destruct (nth_error d k); reflexivity.
  - destruct (nth_error d k); reflexivity.
Qed.

Lemma nth_error_edit_at (i : nat) (f : Dash.elem -> Dash.elem)
  (d : list Dash.elem) (k : nat) :
  nth_error (Dash.edit_at i f d) k =
  option_map (fun e => if Nat.eqb k i then f e else e) (nth_error d k).
Proof. apply (nth_error_edit_found (Some i)). Qed.

(** A selector that reads the tag, the id and the href of an element
    selects the same places before and after the classes have changed. *)
Lemma place_of_pointwise (sel : Dash.elem -> bool)
  (g : nat -> Dash.elem -> Dash.elem) (d d' : list Dash.elem) :
  (forall k e, sel (g k e) = sel e) ->
  (forall k, nth_error d' k = option_map (g k) (nth_error d k)) ->
  Dash.place_of sel d' = Dash.place_of sel d.
Proof.
  intros Hsel. revert d' g Hsel.
  induction d as [|e d IH]; intros d' g Hsel H.
  - destruct d' as [|e' d']; [reflexivity|].
    specialize (H 0). discriminate.
  - destruct d' as [|e' d']; [specialize (H 0); discriminate|].
    simpl. pose proof (H 0) as H0. simpl in H0. injection H0 as ->.
    rewrite Hsel.
    rewrite (IH d' (fun k => g (Datatypes.S k))); auto.
    intros k. apply (H (Datatypes.S k)).
Qed.

Lemma remove_add_active (e : Dash.elem) :
  Dash.remove_class "active" (Dash.add_class "active" e) =
  Dash.remove_class "active" e.
Proof.
  unfold Dash.add_class. destruct (Dash.has_class "active" e); auto.
  unfold Dash.remove_class, Dash.with_classes.
  cbn [Dash.el_classes Dash.el_tag Dash.el_in_nav Dash.el_id Dash.el_href
       Dash.el_content].
  rewrite filter_app. cbn [filter]. rewrite String.eqb_refl. cbn [negb].
  rewrite app_nil_r. reflexivity.
Qed.

Lemma filter_filter_same {A} (f : A -> bool) (l : list A) :
  filter f (filter f l) = filter f l.
Proof.
  induction l as [|x l IH]; cbn [filter]; auto.
  destruct (f x) eqn:Fx; cbn [filter]; rewrite ?Fx, IH; reflexivity.
Qed.

Lemma remove_remove_active (e : Dash.elem) :
  Dash.remove_class "active" (Dash.remove_class "active" e) =
  Dash.remove_class "active" e.
Proof.
  unfold Dash.remove_class, Dash.with_classes.
  cbn [Dash.el_classes Dash.el_tag Dash.el_in_nav Dash.el_id Dash.el_href
       Dash.el_content].
  rewrite filter_filter_same. reflexivity.
Qed.

Lemma add_add_active (e : Dash.elem) :
  Dash.add_class "active" (Dash.add_class "active" e) =
  Dash.add_class "active" e.
Proof.
  unfold Dash.add_class at 1. rewrite has_class_add_same. reflexivity.
Qed.

(** The selectors of the script do not look at the mark. *)
Lemma is_panel_alike (e e' : Dash.elem) :
  alike e e' -> Dash.is_panel e' = Dash.is_panel e.
Proof. intros [_ [_ [_ [_ H]]]]. auto. Qed.

Lemma is_nav_link_alike (e e' : Dash.elem) :
  alike e e' -> Dash.is_nav_link e' = Dash.is_nav_link e.
Proof.
  intros [Ht [Hn _]]. unfold Dash.is_nav_link. rewrite Ht, Hn. reflexivity.
Qed.

Lemma has_id_alike (id : string) (e e' : Dash.elem) :
  alike e e' -> Dash.has_id id e' = Dash.has_id id e.
Proof.
  intros [_ [_ [Hi _]]]. unfold Dash.has_id. rewrite Hi. reflexivity.
Qed.

Lemma is_nav_link_to_alike (id : string) (e e' : Dash.elem) :
  alike e e' -> Dash.is_nav_link_to id e' = Dash.is_nav_link_to id e.
Proof.
  intros H. unfold Dash.is_nav_link_to.
  rewrite (is_nav_link_alike _ _ H). destruct H as [_ [_ [_ [Hh _]]]].
  rewrite Hh. reflexivity.
Qed.

Lemma alike_sym (e e' : Dash.elem) : alike e e' -> alike e' e.
Proof. unfold alike. intros [? [? [? [? ?]]]]. repeat split; congruence. Qed.

Lemma alike_unmarked (e : Dash.elem) : alike e (unmarked e).
Proof.
  unfold unmarked. destruct (_ || _);
    [apply alike_remove_active|apply alike_refl].
Qed.

Lemma alike_marked (panel link : option nat) (k : nat) (e : Dash.elem) :
  alike e (marked panel link k e).
Proof.
  unfold marked. cbv zeta.
  eapply alike_trans; [apply alike_unmarked|].
  destruct (at_place panel k).
  - eapply alike_trans; [apply alike_add_active|].
    destruct (at_place link k); [apply alike_add_active|apply alike_refl].
  - destruct (at_place link k); [apply alike_add_active|apply alike_refl].
Qed.

(** The document after [switchPanel], element by element. *)
Lemma switchPanel_pointwise (panelId : string) (w : world Dash.state) :
  let d := Dash.doc (store w) in
  let w' := snd (Dash.switchPanel panelId w) in
  trace w' = trace w /\
  store w' = Dash.set_doc (Dash.doc (store w')) (store w) /\
  fst (Dash.switchPanel panelId w) =
    match link_place panelId d with
    | Some _ => Ok tt
    | None => Throw TypeError
    end /\
  forall k,
    nth_error (Dash.doc (store w')) k =
    option_map (marked (Dash.place_of (Dash.has_id panelId) d)
                       (link_place panelId d) k)
               (nth_error d k).
Proof.
  cbv zeta. unfold Dash.switchPanel, Dash.edit_selected. run.
  cbn [Dash.set_doc Dash.doc].
  set (d := Dash.doc (store w)).
  set (d2 := Dash.for_each Dash.is_nav_link (Dash.remove_class "active")
               (Dash.for_each Dash.is_panel (Dash.remove_class "active") d)).
  assert (M2 : forall k, nth_error d2 k = option_map unmarked (nth_error d k)).
  { intros k. subst d2. unfold Dash.for_each. rewrite map_map.
    rewrite nth_error_map. destruct (nth_error d k) as [e|]; simpl; auto.
    f_equal. unfold unmarked.
    destruct (Dash.is_panel e) eqn:Pe; simpl.
    - rewrite (is_nav_link_alike _ _ (alike_remove_active e)).
      destruct (Dash.is_nav_link e); auto using remove_remove_active.
    - reflexivity. }
  assert (P2 : forall sel : Dash.elem -> bool,
            (forall e, sel (unmarked e) = sel e) ->
            Dash.place_of sel d2 = Dash.place_of sel d).
  { intros sel Hsel.
    apply (place_of_pointwise sel (fun _ => unmarked)); auto. }
  rewrite !edit_first_place.
  rewrite (P2 (Dash.has_id panelId))
    by (intros e; apply has_id_alike, alike_unmarked).
  unfold link_place.
  destruct (Dash.place_of (Dash.has_id panelId) d) as [i|] eqn:Pi; run;
    cbn [store trace fst snd Dash.set_doc Dash.doc option_map].
  - set (d3 := Dash.edit_at i (Dash.add_class "active") d2).
    assert (M3 : forall k,
              nth_error d3 k =
              option_map (fun e => if Nat.eqb k i
                                   then Dash.add_class "active" (unmarked e)
                                   else unmarked e) (nth_error d k)).
    { intros k. subst d3.
      rewrite nth_error_edit_at, M2.
      destruct (nth_error d k); reflexivity. }
    assert (P3 : Dash.place_of (Dash.is_nav_link_to panelId) d3 =
                 Dash.place_of (Dash.is_nav_link_to panelId) d).
    { apply (place_of_pointwise _
               (fun k e => if Nat.eqb k i
                           then Dash.add_class "active" (unmarked e)
                           else unmarked e)); auto.
      intros k e. apply is_nav_link_to_alike.
      destruct (Nat.eqb k i).
      - eapply alike_trans; [apply alike_unmarked|apply alike_add_active].
      - apply alike_unmarked. }
    cbn [store trace Dash.set_doc Dash.doc].
    rewrite edit_first_place, P3.
    destruct (Dash.place_of (Dash.is_nav_link_to panelId) d) as [j|]; run;
      cbn [store trace fst snd Dash.set_doc Dash.doc option_map].
    + split; [reflexivity|]. split; [reflexivity|].
      split; [reflexivity|]. intros k.
      rewrite nth_error_edit_at, M3.
      destruct (nth_error d k); reflexivity.
    + split; [reflexivity|]. split; [reflexivity|].
      split; [reflexivity|]. intros k.
      rewrite M3. unfold marked. simpl.
      destruct (nth_error d k); reflexivity.
  - split; [reflexivity|]. split; [reflexivity|].
      split; [reflexivity|]. intros k.
    rewrite M2. unfold marked. simpl.
    destruct (nth_error d k); reflexivity.
Qed.


Lemma place_of_marked (sel : Dash.elem -> bool) (panel link : option nat)
  (d d' : list Dash.elem) :
  (forall e e', alike e e' -> sel e' = sel e) ->
  (forall k, nth_error d' k =
             option_map (marked panel link k) (nth_error d k)) ->
  Dash.place_of sel d' = Dash.place_of sel d.
Proof.
  intros Hsel H. apply (place_of_pointwise sel (marked panel link)); auto.
  intros k e. apply Hsel, alike_marked.
Qed.

Lemma panel_or_link_alike (e e' : Dash.elem) :
  alike e e' ->
  Dash.is_panel e' || Dash.is_nav_link e' =
  Dash.is_panel e || Dash.is_nav_link e.
Proof.
  intros H. rewrite (is_panel_alike _ _ H), (is_nav_link_alike _ _ H).
  reflexivity.
Qed.

(** Taking the mark off undoes an earlier switch, on the panels and the
    links. *)
Lemma unmarked_marked (panel link : option nat) (k : nat) (e : Dash.elem) :
  (at_place panel k = true ->
   Dash.is_panel e || Dash.is_nav_link e = true) ->
  (at_place link k = true -> Dash.is_nav_link e = true) ->
  unmarked (marked panel link k e) = unmarked e.
Proof.
  intros Hp Hl. unfold unmarked at 1.
  rewrite (panel_or_link_alike _ _ (alike_marked panel link k e)).
  unfold marked. cbv zeta.
  destruct (Dash.is_panel e || Dash.is_nav_link e) eqn:PL.
  - unfold unmarked. rewrite PL.
    destruct (at_place panel k), (at_place link k);
      rewrite ?remove_add_active, ?remove_remove_active; reflexivity.
  - destruct (at_place panel k); [specialize (Hp eq_refl); discriminate|].
    destruct (at_place link k).
    + specialize (Hl eq_refl). rewrite Hl, orb_true_r in PL. discriminate.
    + unfold unmarked. rewrite PL. reflexivity.
Qed.

Lemma at_place_nth (sel : Dash.elem -> bool) (d : list Dash.elem)
  (k : nat) (e : Dash.elem) :
  at_place (Dash.place_of sel d) k = true ->
  nth_error d k = Some e ->
  sel e = true /\ Dash.first_of sel d = Some e.
Proof.
  unfold Dash.first_of. revert k.
  induction d as [|x d IH]; intros k; simpl; [discriminate|].
  destruct (sel x) eqn:Sx.
  - simpl. destruct k; [|discriminate]. simpl.
    intros _ H. injection H as <-. auto.
  - destruct (Dash.place_of sel d) as [i|] eqn:Pd; [|discriminate].
    simpl. destruct k as [|k]; [discriminate|]. simpl. intros Hk He.
    apply (IH k); auto.
Qed.

Lemma link_place_nth (panelId : string) (d : list Dash.elem) (k : nat)
  (e : Dash.elem) :
  at_place (link_place panelId d) k = true ->
  nth_error d k = Some e ->
  Dash.is_nav_link e = true.
Proof.
  unfold link_place.
  destruct (Dash.place_of (Dash.has_id panelId) d); [|discriminate].
  intros Hk He. destruct (at_place_nth _ d k e Hk He) as [Hs _].
  unfold Dash.is_nav_link_to in Hs. apply andb_prop in Hs. tauto.
Qed.

Lemma switched_places (a b : string) (w : world Dash.state) :
  let d := Dash.doc (store w) in
  let d' := Dash.doc (store (snd (Dash.switchPanel a w))) in
  Dash.place_of (Dash.has_id b) d' = Dash.place_of (Dash.has_id b) d /\
  link_place b d' = link_place b d.
Proof.
  cbv zeta.
  destruct (switchPanel_pointwise a w) as [_ [_ [_ Hk]]]. cbv zeta in Hk.
  assert (H1 : Dash.place_of (Dash.has_id b)
                 (Dash.doc (store (snd (Dash.switchPanel a w)))) =
               Dash.place_of (Dash.has_id b) (Dash.doc (store w))).
  { eapply place_of_marked; [|exact Hk]. intros e e'. apply has_id_alike. }
  split; [exact H1|]. unfold link_place. rewrite H1. clear H1.
  destruct (Dash.place_of (Dash.has_id b) (Dash.doc (store w)));
    [|reflexivity].
  eapply place_of_marked; [|exact Hk].
  intros e e'. apply is_nav_link_to_alike.
Qed.

(** One switch after another, element by element. *)
Lemma switch_after_switch (a b : string) (w : world Dash.state) :
  let d := Dash.doc (store w) in
  (forall k e, nth_error d k = Some e ->
     marked (Dash.place_of (Dash.has_id b) d) (link_place b d) k
       (marked (Dash.place_of (Dash.has_id a) d) (link_place a d) k e) =
     marked (Dash.place_of (Dash.has_id b) d) (link_place b d) k e) ->
  Dash.switchPanel b (snd (Dash.switchPanel a w)) = Dash.switchPanel b w.
Proof.
  cbv zeta. intros Hel.
  destruct (switchPanel_pointwise a w) as [Ta [Sa [_ Ka]]].
  destruct (switchPanel_pointwise b w) as [Tb [Sb [Rb Kb]]].
  destruct (switchPanel_pointwise b (snd (Dash.switchPanel a w)))
    as [Tab [Sab [Rab Kab]]].
  cbv zeta in *.
  destruct (switched_places a b w) as [Pb Lb]. cbv zeta in Pb, Lb.
  rewrite Pb, Lb in Kab. rewrite Lb in Rab.
  assert (D : Dash.doc (store (snd (Dash.switchPanel b
                                      (snd (Dash.switchPanel a w))))) =
              Dash.doc (store (snd (Dash.switchPanel b w)))).
  { apply nth_error_ext. intros k. rewrite Kab, Kb, Ka.
    destruct (nth_error (Dash.doc (store w)) k) as [e|] eqn:Ne;
      [|reflexivity].
    simpl. f_equal. apply (Hel k e Ne). }
  destruct (Dash.switchPanel b (snd (Dash.switchPanel a w))) as [r2 w2].
  destruct (Dash.switchPanel b w) as [r1 w1].
  cbn [fst snd] in *. f_equal; [congruence|].
  destruct w1 as [s1 t1], w2 as [s2 t2]. cbn [store trace] in *.
  f_equal; [|congruence].
  rewrite Sab, Sb, Sa, D. reflexivity.
Qed.

(** X18.  Only the last switch counts.  [switchPanel] twice with the same
    panel does what one call does: the same outcome and the same page.
    And a switch to one panel followed by a switch to another leaves the
    page as the second switch alone would, provided that the element the
    first switch marked (the one with its id) is a panel or a link of the
    navigation, which the next switch takes the mark off again. *)
Theorem switchPanel_last_switch_counts (w : world Dash.state) :
  (forall panelId : string,
     Dash.switchPanel panelId (snd (Dash.switchPanel panelId w)) =
     Dash.switchPanel panelId w) /\
  (forall a b : string,
     match Dash.first_of (Dash.has_id a) (Dash.doc (store w)) with
     | Some e => Dash.is_panel e || Dash.is_nav_link e = true
     | None => True
     end ->
     Dash.switchPanel b (snd (Dash.switchPanel a w)) =
     Dash.switchPanel b w).
Proof.
  split.
  - intros p. apply switch_after_switch. intros k e Ne.
    set (ip := Dash.place_of (Dash.has_id p) (Dash.doc (store w))).
    set (il := link_place p (Dash.doc (store w))).
    assert (Hl : at_place il k = true -> Dash.is_nav_link e = true)
      by (intros H; eapply link_place_nth; eauto).
    destruct (Dash.is_panel e || Dash.is_nav_link e) eqn:PL.
    + unfold marked at 1. cbv zeta.
      rewrite unmarked_marked; auto.
    + assert (at_place il k = false) as L.
      { destruct (at_place il k); auto. specialize (Hl eq_refl).
        rewrite Hl, orb_true_r in PL. discriminate. }
      unfold marked, unmarked. cbv zeta. rewrite L, PL.
      destruct (at_place ip k).
      * rewrite (panel_or_link_alike _ _ (alike_add_active e)), PL.
        apply add_add_active.
      * rewrite PL. reflexivity.
  - intros a b Ha. apply switch_after_switch. intros k e Ne.
    unfold marked at 1. cbv zeta. rewrite unmarked_marked; auto.
    + intros Hk.
      destruct (at_place_nth _ _ k e Hk Ne) as [_ Hf].
      rewrite Hf in Ha. exact Ha.
    + intros H. eapply link_place_nth; eauto.
Qed.

Lemma active_panel_unmarked (e : Dash.elem) :
  active_panel (unmarked e) = false.
Proof.
  unfold active_panel, unmarked.
  destruct (Dash.is_panel e) eqn:Pe; simpl.
  - rewrite has_class_remove_same. apply andb_false_r.
  - destruct (Dash.is_nav_link e).
    + rewrite (is_panel_alike _ _ (alike_remove_active e)), Pe. reflexivity.
    + rewrite Pe. reflexivity.
Qed.

Lemma active_link_unmarked (e : Dash.elem) :
  active_link (unmarked e) = false.
Proof.
  unfold active_link, unmarked.
  destruct (Dash.is_nav_link e) eqn:Le; rewrite ?orb_true_r, ?orb_false_r.
  - rewrite has_class_remove_same. apply andb_false_r.
  - destruct (Dash.is_panel e).
    + rewrite (is_nav_link_alike _ _ (alike_remove_active e)), Le.
      reflexivity.
    + rewrite Le. reflexivity.
Qed.

Lemma unmarked_page (d : list Dash.elem) :
  active_panels (map unmarked d) = [] /\
  filter active_link (map unmarked d) = [] /\
  Forall2 alike d (map unmarked d).
Proof.
  unfold active_panels. induction d as [|e d [IH1 [IH2 IH3]]]; simpl.
  - repeat split. constructor.
  - rewrite active_panel_unmarked, active_link_unmarked.
    split; [exact IH1|]. split; [exact IH2|].
    constructor; [apply alike_unmarked|exact IH3].
Qed.

(** X19.  [switchPanel] with an id that no element of the page has throws
    a [TypeError], after it has taken the mark off every panel and every
    link: the page is left with no active panel and no active link, and
    with the same elements otherwise. *)
Theorem switchPanel_to_a_missing_panel (panelId : string)
  (w : world Dash.state) :
  Dash.first_of (Dash.has_id panelId) (Dash.doc (store w)) = None ->
  let r := Dash.switchPanel panelId w in
  fst r = Throw TypeError /\
  trace (snd r) = trace w /\
  Dash.doc (store (snd r)) = map unmarked (Dash.doc (store w)) /\
  active_panels (Dash.doc (store (snd r))) = [] /\
  filter active_link (Dash.doc (store (snd r))) = [] /\
  Forall2 alike (Dash.doc (store w)) (Dash.doc (store (snd r))).
Proof.
  intros Hf. cbv zeta.
  assert (Hp : Dash.place_of (Dash.has_id panelId) (Dash.doc (store w))
               = None).
  { revert Hf. unfold Dash.first_of.
    induction (Dash.doc (store w)) as [|e d IH]; simpl; auto.
    destruct (Dash.has_id panelId e); [discriminate|].
    intros H. rewrite (IH H). reflexivity. }
  destruct (switchPanel_pointwise panelId w) as [Tw [_ [Rw Kw]]].
  cbv zeta in *. unfold link_place in *. rewrite Hp in *.
  assert (D : Dash.doc (store (snd (Dash.switchPanel panelId w))) =
              map unmarked (Dash.doc (store w))).
  { apply nth_error_ext. intros k. rewrite Kw, nth_error_map.
    destruct (nth_error (Dash.doc (store w)) k); reflexivity. }
  split; [exact Rw|]. split; [exact Tw|]. split; [exact D|].
  rewrite D. apply unmarked_page.
Qed.

End Switches.

(* ================================================================== *)
(** * The configuration form and the charts *)
(* ================================================================== *)

Section ConfigAndCharts.
Context (E : env) {P : Platform} {OP : Dash.Prototype}.

(** An element that is there can be written to, and is there afterwards. *)
Lemma edit_first_found (sel : Dash.elem -> bool) (f : Dash.elem -> Dash.elem)
  (d : list Dash.elem) :
  Dash.first_of sel d <> None ->
  (forall e, sel (f e) = sel e) ->
  exists d',
    Dash.edit_first sel f d = Some d' /\
    Dash.first_of sel d' = option_map f (Dash.first_of sel d).
Proof.
  unfold Dash.first_of. intros Hd Hf.
  induction d as [|e d IH]; simpl in *; [congruence|].
  destruct (sel e) eqn:Se.
  - eexists. split; [reflexivity|]. simpl. rewrite Hf, Se. reflexivity.
  - destruct (IH Hd) as [d' [He Hfirst]]. rewrite He.
    eexists. split; [reflexivity|]. simpl. rewrite Se. exact Hfirst.
Qed.

(** The loop of [renderConfigForm] over the entries of the configuration:
    it goes through when no entry is an object, and stops at the first
    entry that is one. *)
Lemma render_entries (entries : list (string * value))
  (w : world Dash.state) :
  has_form (store w) ->
  let loop :=
    Dash.foldM (fun _ kv =>
                  if Dash.is_object (snd kv) then throw ReferenceError
                  else Dash.append_content "config-form"
                         (Dash.renderConfigField (fst kv) (snd kv) ""))
               entries tt in
  fst (loop w) =
    (if existsb (fun kv => Dash.is_object (snd kv)) entries
     then Throw ReferenceError else Ok tt) /\
  trace (snd (loop w)) = trace w /\
  Dash.configData (store (snd (loop w))) = Dash.configData (store w) /\
  (match entries with
   | kv :: _ => Dash.is_object (snd kv) = true
   | [] => True
   end -> snd (loop w) = w).
Proof.
  cbv zeta. revert w. induction entries as [|kv rest IH]; intros w Hform.
  - simpl. repeat split.
  - cbn [Dash.foldM existsb]. unfold bind at 1.
    destruct (Dash.is_object (snd kv)) eqn:Ob.
    + simpl. repeat split.
    + unfold Dash.append_content, Dash.edit_selected. run.
      destruct (edit_first_found (Dash.has_id "config-form")
                  (fun e => Dash.with_content
                              (Dash.el_content e ++
                               Dash.renderConfigField (fst kv) (snd kv) "")
                              e)
                  (Dash.doc (store w)) Hform (fun e => eq_refl))
        as [d' [Hed Hfirst]].
      rewrite Hed. run.
      match goal with
      | |- context [Dash.foldM ?f rest tt ?w0] =>
          assert (Hform' : has_form (store w0));
          [|destruct (IH w0 Hform') as [I1 [I2 [I3 _]]]]
      end.
      { unfold has_form. cbn [store Dash.doc Dash.set_doc].
        rewrite Hfirst. unfold has_form in Hform.
        destruct (Dash.first_of _ (Dash.doc (store w))); [discriminate|].
        contradiction. }
      cbn [orb]. split; [exact I1|]. split; [exact I2|].
      split; [exact I3|]. discriminate.
Qed.

(** X20.  [loadConfig] renders a configuration of plain values only.  The
    fetched object becomes [configData] in any case.  When every value of
    it is a string, a number or a boolean the form is written without an
    error; as soon as one value is an object, an array or [null], the call
    of the [renderConfigSection] that the script does not define throws
    and the error is logged.  The form has been emptied by then: when the
    first entry is such a value the form is left empty. *)
Theorem loadConfig_renders_plain_values_only (w : world Dash.state)
  (fs : list (string * value)) :
  let a := Resolved (Some (VObj fs)) in
  let m := Dash.loadConfig E in
  respond E (trace w) (mk_get "/api/config") = a ->
  has_form (store w) ->
  Dash.configData (store (snd (m w))) = VObj fs /\
  emitted m w =
    (if existsb (fun kv => Dash.is_object (snd kv)) (Dash.own_entries fs)
     then [EFetch (mk_get "/api/config") a;
           EConsoleError "加载配置失败:" (Some ReferenceError)]
     else [EFetch (mk_get "/api/config") a]) /\
  (match Dash.own_entries fs with
   | kv :: _ => Dash.is_object (snd kv) = true
   | [] => True
   end ->
   content_of "config-form" (Dash.doc (store (snd (m w)))) = Some "").
Proof.
  cbv zeta. intros R Hform.
  unfold Dash.loadConfig, Dash.renderConfigForm, Dash.set_content, emitted.
  run. rewrite R. run. cbn [Dash.object_entries]. run.
  destruct (edit_first_found (Dash.has_id "config-form")
              (Dash.with_content "") (Dash.doc (store w)) Hform
              (fun e => eq_refl)) as [d1 [Hed Hfirst]].
  cbn [store Dash.doc Dash.set_configData]. rewrite Hed. run.
  match goal with
  | |- context [Dash.foldM ?f (Dash.own_entries fs) tt ?w0] =>
      assert (Hform' : has_form (store w0));
      [|pose proof (render_entries (Dash.own_entries fs) w0 Hform') as H;
        cbv zeta in H; cbv [throw] in H; destruct H as [I1 [I2 [I3 I4]]];
        destruct (Dash.foldM f (Dash.own_entries fs) tt w0) as [r w1] eqn:F]
  end.
  { unfold has_form. cbn [store Dash.doc Dash.set_doc].
    rewrite Hfirst. unfold has_form in Hform.
    destruct (Dash.first_of _ (Dash.doc (store w))); [discriminate|].
    contradiction. }
  cbn [fst snd store trace Dash.configData Dash.set_doc Dash.set_configData]
    in *.
  assert (C1 : content_of "config-form" d1 = Some "").
  { unfold content_of. rewrite Hfirst. unfold has_form in Hform.
    destruct (Dash.first_of _ (Dash.doc (store w))); [reflexivity|].
    contradiction. }
  destruct (existsb _ (Dash.own_entries fs)); subst r; run.
  - rewrite I2. trace_norm. rewrite skipn_length_app.
    split; [exact I3|]. split; [reflexivity|].
    intros Hfst. rewrite (I4 Hfst). exact C1.
  - rewrite I2. trace_norm. rewrite skipn_length_app.
    split; [exact I3|]. split; [reflexivity|].
    intros Hfst. rewrite (I4 Hfst). exact C1.
Qed.


Lemma mapM_get_fields (k : string) (items : list value)
  (w : world Dash.state) :
  forallb (fun x => negb (nullish x)) items = true ->
  Dash.mapM (fun item => lift (get item k)) items w =
  (Ok (map (fun x => field x k) items), w).
Proof.
  induction items as [|x items IH]; simpl; intros H; [reflexivity|].
  apply andb_prop in H. destruct H as [Hx Hi].
  unfold bind, lift at 1, field at 1.
  destruct (get x k) as [v|e] eqn:G.
  - rewrite (IH Hi). reflexivity.
  - apply get_throw_nullish in G. rewrite G in Hx. discriminate.
Qed.

(** X21.  [updateCharts] can end with one chart updated and the other not.
    The equity chart is written before the trades are looked at: when the
    performance data are in order and the answer to the request for the
    trades is JSON that is no array (an object that reports an error, for
    one), the equity chart shows the new history, the profit chart is what
    it was, and the error is logged once. *)
Theorem updateCharts_may_update_one_chart (w : world Dash.state)
  (perf td : value) (items : list value) (ce cp : Dash.chart) :
  let m := Dash.updateCharts E in
  Dash.chart_equity (store w) = Some ce ->
  Dash.chart_pnl (store w) = Some cp ->
  respond E (trace w) performance = Resolved (Some perf) ->
  respond E (trace w ++ [EFetch performance (Resolved (Some perf))]) trades
    = Resolved (Some td) ->
  get perf "equity_history" = Ok (VArr items) ->
  forallb (fun x => negb (nullish x)) items = true ->
  truthy td = true ->
  Dash.as_array td = Throw TypeError ->
  Dash.chart_equity (store (snd (m w))) =
    Some (Dash.mkChart (map (fun x => field x "time") items)
                       (map (fun x => field x "equity") items)) /\
  Dash.chart_pnl (store (snd (m w))) = Some cp /\
  error_logs (emitted m w) = 1 /\
  error_notifications (emitted m w) = 0.
Proof.
  cbv zeta. intros Ce Cp R1 R2 G Hitems Ttd Atd.
  unfold Dash.updateCharts, Dash.updateEquityChart, Dash.updatePnlChart,
    emitted, performance, trades in *.
  run. rewrite R1. run. rewrite R2. run. rewrite G. run.
  cbn [store]. rewrite Ce. cbn [truthy Dash.as_array]. run.
  pose proof (fun w0 => mapM_get_fields "time" items w0 Hitems) as M1.
  pose proof (fun w0 => mapM_get_fields "equity" items w0 Hitems) as M2.
  unfold lift in M1, M2. rewrite M1. run. rewrite M2. run.
  cbn [store Dash.chart_pnl Dash.set_chart_equity]. rewrite Cp, Ttd, Atd.
  run. cbn [Dash.chart_equity Dash.chart_pnl Dash.set_chart_equity].
  split; [reflexivity|]. split; [exact Cp|].
  trace_norm. rewrite skipn_length_app. split; reflexivity.
Qed.

End ConfigAndCharts.

(* ================================================================== *)
(** * Loads that fail half-way *)
(* ================================================================== *)

Section AllOrNothing.
Context (E : env) {P : Platform} {OP : Dash.Prototype}.

(** A load that fetches a list, renders its items and writes the result to
    one element. *)
Lemma list_load_all_or_nothing (url msg id : string)
  (render : value -> M Dash.state string) (w : world Dash.state) :
  (forall x, silent (render x)) ->
  all_or_nothing
    (try_catch
       (response <- fetch E (mk_get url) ;;
        body <- json response ;;
        items <- lift (Dash.as_array body) ;;
        parts <- Dash.mapM render items ;;
        Dash.set_content id (String.concat "" parts))
       (fun error => console_error msg (Some error)))
    w.
Proof.
  intros Hr. unfold all_or_nothing, emitted, Dash.set_content. run.
  destruct (respond E (trace w) _) as [|[body|]]; run;
    try (intros _; reflexivity).
  destruct (Dash.as_array body) as [items|]; run;
    [|intros _; reflexivity].
  match goal with
  | |- context [Dash.mapM render items ?w0] =>
      rewrite (silent_run _ w0 (mapM_silent render items Hr));
      destruct (fst (Dash.mapM render items w0)) as [parts|]
  end; run; [|intros _; reflexivity].
  destruct (Dash.edit_first _ _ _) as [d|]; run; [|intros _; reflexivity].
  trace_norm. rewrite skipn_length_app. intros H. exfalso. apply H.
  reflexivity.
Qed.

Lemma has_overview_edit (id c : string) (d d' : list Dash.elem) :
  has_overview d ->
  Dash.edit_first (Dash.has_id id) (Dash.with_content c) d = Some d' ->
  has_overview d'.
Proof.
  intros [Hids [Hdot Htext]] Hed.
  assert (Hrel : Forall2 (fun e e' => same_node e e' /\
                            Dash.el_classes e' = Dash.el_classes e) d d').
  { apply (edit_first_rel _ (Dash.has_id id) (Dash.with_content c));
      auto; repeat split. }
  assert (Pc : forall cl,
            Dash.place_of (Dash.has_class cl) d' =
            Dash.place_of (Dash.has_class cl) d).
  { intros cl. clear - Hrel.
    induction Hrel as [|e e' d d' [_ Hc] _ IH]; simpl; auto.
    unfold Dash.has_class at 1 3. rewrite Hc, IH. reflexivity. }
  assert (Fi : forall i,
            Dash.first_of (Dash.has_id i) d <> None ->
            Dash.first_of (Dash.has_id i) d' <> None).
  { intros i. clear - Hrel. unfold Dash.first_of.
    induction Hrel as [|e e' d d' [[_ [_ [Hi _]]] _] _ IH]; simpl; auto.
    unfold Dash.has_id at 1 3. rewrite Hi.
    destruct (Dash.opt_eqb (Dash.el_id e) i); [discriminate|exact IH]. }
  split; [|rewrite !Pc; auto].
  intros i Hin. apply Fi, Hids, Hin.
Qed.

Lemma set_content_ready (id c : string) (w : world Dash.state) :
  has_overview (Dash.doc (store w)) ->
  In id overview_ids ->
  exists d',
    Dash.set_content id c w =
      (Ok tt, mkWorld (Dash.set_doc d' (store w)) (trace w)) /\
    has_overview d'.
Proof.
  intros H Hin. unfold Dash.set_content. run.
  destruct (edit_first_found (Dash.has_id id) (Dash.with_content c)
              (Dash.doc (store w)) (proj1 H id Hin) (fun e => eq_refl))
    as [d' [Hed _]].
  rewrite Hed. run. exists d'. split; [reflexivity|].
  eapply has_overview_edit; eauto.
Qed.

Lemma updateOverview_all_or_nothing (w : world Dash.state) :
  has_overview (Dash.doc (store w)) ->
  all_or_nothing (Dash.updateOverview E) w.
Proof.
  intros H. unfold all_or_nothing, emitted, Dash.updateOverview.
  run.
  destruct (respond E (trace w) _) as [|[data|]]; run;
    try (intros _; reflexivity).
  destruct (get data "total_equity") as [te|] eqn:G0; run;
    [|intros _; reflexivity].
  pose proof (get_ok_not_nullish _ _ _ G0) as Nd.
  assert (Gd : forall k, exists v, get data k = Ok v).
  { intros k. destruct (get data k) as [v|e] eqn:G; eauto.
    apply get_throw_nullish in G. congruence. }
  destruct (get te "okx") as [okx|] eqn:G1; run; [|intros _; reflexivity].
  pose proof (get_ok_not_nullish _ _ _ G1) as Nte.
  destruct (get te "binance") as [binance|] eqn:G2; run;
    [|apply get_throw_nullish in G2; congruence].
  match goal with
  | |- context [Dash.set_content "total-equity" ?c ?w0] =>
      destruct (set_content_ready "total-equity" c w0 H
                  ltac:(simpl; auto)) as [d1 [S1 H1]];
      rewrite S1
  end. run.
  destruct (Gd "daily_pnl") as [v2 ->]. run.
  match goal with
  | |- context [Dash.set_content "daily-pnl" ?c ?w0] =>
      destruct (set_content_ready "daily-pnl" c w0 H1
                  ltac:(simpl; auto)) as [d2 [S2 H2]];
      rewrite S2
  end. run.
  destruct (Gd "max_drawdown") as [v3 ->]. run.
  match goal with
  | |- context [Dash.set_content "max-drawdown" ?c ?w0] =>
      destruct (set_content_ready "max-drawdown" c w0 H2
                  ltac:(simpl; auto)) as [d3 [S3 H3]];
      rewrite S3
  end. run.
  destruct (Gd "active_positions") as [v4 ->]. run.
  match goal with
  | |- context [Dash.set_content "active-positions" ?c ?w0] =>
      destruct (set_content_ready "active-positions" c w0 H3
                  ltac:(simpl; auto 6)) as [d4 [S4 H4]];
      rewrite S4
  end. run.
  unfold Dash.query, Dash.edit_node. run. cbn [Dash.doc Dash.set_doc].
  destruct (Gd "status") as [v5 ->]. run.
  destruct H4 as [_ [Hdot Htext]].
  destruct (Dash.place_of (Dash.has_class "status-dot") d4) as [i|];
    [|contradiction].
  destruct (Dash.place_of (Dash.has_class "status-text") d4) as [j|];
    [|contradiction].
  run. trace_norm. rewrite skipn_length_app. intros H0. exfalso. apply H0.
  reflexivity.
Qed.

End AllOrNothing.

(** X22.  A load of the strategy list, of the positions or of the overview
    that has logged an error has changed nothing: the element it writes to
    is written in one piece at the very end, so a body that is no array, or
    an item of it that cannot be read, leaves the old content in place.
    For the overview this holds on a page that has the six places the load
    writes to; there nothing can go wrong after the first of them has been
    written. *)
Theorem loads_are_all_or_nothing (E : env) (P : Platform)
  (OP : Dash.Prototype) (w : world Dash.state) :
  all_or_nothing (Dash.loadStrategies E) w /\
  all_or_nothing (Dash.updatePositions E) w /\
  (has_overview (Dash.doc (store w)) ->
   all_or_nothing (Dash.updateOverview E) w).
Proof.
  split; [|split].
  - apply list_load_all_or_nothing, render_strategy_silent.
  - apply list_load_all_or_nothing, render_position_silent.
  - apply updateOverview_all_or_nothing.
Qed.

(* ================================================================== *)
(** * Saving the configuration *)
(* ================================================================== *)

Section SaveConfig.
Context (E : env) {P : Platform} {OP : Dash.Prototype}.

(** What [saveConfig] does once the data of the form are collected. *)
Lemma send_config_outcome (formData : value)
  (w : world Dash.state) :
  let m := Dash.send_config E formData in
  let post := mk_post_json "/api/config/update" formData in
  store (snd (m w)) = store w /\
  match Dash.first_of (Dash.has_id "config-form") (Dash.doc (store w)) with
  | Some _ =>
      requests (emitted m w) = [post] /\
      notes (emitted m w) =
        match respond E (trace w) post with
        | Resolved (Some _) => [("配置保存成功", "success")]
        | _ => [("保存配置失败，请重试", "error")]
        end
  | None =>
      requests (emitted m w) = [] /\
      notes (emitted m w) = [("保存配置失败，请重试", "error")]
  end.
Proof.
  cbv zeta. unfold Dash.send_config, Dash.showNotification, emitted. run.
  destruct (Dash.first_of _ (Dash.doc (store w))); run.
  - destruct (respond E (trace w) _) as [|[result|]]; run; trace_norm;
      rewrite skipn_length_app; repeat split; reflexivity.
  - trace_norm. rewrite skipn_length_app. repeat split; reflexivity.
Qed.

(** X23.  [saveConfig] sends the data of the form in one POST and leaves
    the state as it is: neither [configData] nor the form is updated.  It
    does not look at the answer: the notification reports success whenever
    the POST brought a JSON body, and an error otherwise; one notification
    is shown in either case.  On a page without the form nothing is sent
    and the error is reported. *)
Theorem saveConfig_does_not_read_the_answer (formData : value)
  (w : world Dash.state) :
  let m := Dash.send_config E formData in
  let post := mk_post_json "/api/config/update" formData in
  store (snd (m w)) = store w /\
  match Dash.first_of (Dash.has_id "config-form") (Dash.doc (store w)) with
  | Some _ =>
      requests (emitted m w) = [post] /\
      notes (emitted m w) =
        match respond E (trace w) post with
        | Resolved (Some _) => [("配置保存成功", "success")]
        | _ => [("保存配置失败，请重试", "error")]
        end
  | None =>
      requests (emitted m w) = [] /\
      notes (emitted m w) = [("保存配置失败，请重试", "error")]
  end.
Proof. apply send_config_outcome. Qed.

Lemma split_dots_plain (s : string) :
  has_dot s = false -> Dash.split_dots s = [s].
Proof.
  induction s as [|c s IH]; simpl; [reflexivity|].
  destruct (Ascii.eqb c "."); simpl; [discriminate|].
  intros H. rewrite (IH H). reflexivity.
Qed.

Lemma assign_new (k : string) (v : value) (fs : list (string * value)) :
  ~ In k (map fst fs) -> assign k v fs = (fs ++ [(k, v)])%list.
Proof.
  induction fs as [|[k' v'] fs IH]; simpl; intros H; [reflexivity|].
  destruct (String.eqb k k') eqn:K.
  - apply String.eqb_eq in K. subst. exfalso. apply H. auto.
  - rewrite IH; auto.
Qed.

Lemma write_assigns (k : string) (v : value) (fs : list (string * value)) :
  k <> "__proto__" -> Dash.write k v fs = assign k v fs.
Proof.
  intros H. unfold Dash.write.
  destruct (lookup k fs); [reflexivity|].
  destruct (Dash.inherited_text k); [|reflexivity].
  apply String.eqb_neq in H. rewrite H. reflexivity.
Qed.

Lemma form_data_from (inputs : list Dash.input)
  (start : list (string * value)) :
  NoDup (map fst start ++ map Dash.in_id inputs) ->
  (forall i, In i inputs ->
     has_dot (Dash.in_id i) = false /\ Dash.in_id i <> "__proto__") ->
  fold_left Dash.collect inputs (Some start) =
  Some (start ++ map (fun i => (Dash.in_id i, Dash.input_value i)) inputs)%list.
Proof.
  revert start. induction inputs as [|i inputs IH]; intros start Hnd Hin.
  - simpl. rewrite app_nil_r. reflexivity.
  - cbn [fold_left Dash.collect map].
    destruct (Hin i (or_introl eq_refl)) as [Hdot Hproto].
    rewrite (split_dots_plain _ Hdot). cbn [Dash.put].
    rewrite (write_assigns _ _ _ Hproto).
    assert (Hnew : ~ In (Dash.in_id i) (map fst start)).
    { intros H. apply NoDup_remove_2 in Hnd. apply Hnd.
      apply in_or_app. auto. }
    rewrite (assign_new _ _ _ Hnew).
    rewrite IH.
    + rewrite <- app_assoc. reflexivity.
    + rewrite map_app. cbn [map fst]. rewrite <- app_assoc. exact Hnd.
    + intros j Hj. apply Hin. right. exact Hj.
Qed.

(** The value of an input is never [undefined], and a property is written
    for each. *)
Lemma as_json_inputs (inputs : list Dash.input) :
  Dash.as_json
    (VObj (map (fun i => (Dash.in_id i, Dash.input_value i)) inputs)) =
  VObj (Dash.own_entries
          (map (fun i => (Dash.in_id i, Dash.as_json (Dash.input_value i)))
               inputs)).
Proof.
  cbn [Dash.as_json]. f_equal. f_equal. rewrite map_map. cbn [fst snd].
  induction inputs as [|i inputs IH]; [reflexivity|].
  cbn [map filter snd]. rewrite IH.
  unfold Dash.input_value.
  destruct (String.eqb (Dash.in_type i) "checkbox"); [reflexivity|].
  destruct (String.eqb (Dash.in_type i) "number"); [|reflexivity].
  destruct (parse_float_string (Dash.in_value i)); reflexivity.
Qed.

(** Without a key that spells an array index, [Object.keys] lists the
    properties as they were created. *)
Lemma own_entries_plain (fs : list (string * value)) :
  (forall kv, In kv fs -> Dash.array_index (fst kv) = None) ->
  Dash.own_entries fs = fs.
Proof.
  unfold Dash.own_entries. intros H.
  assert (F1 : filter Dash.is_index fs = []).
  { induction fs as [|kv fs IH]; [reflexivity|]. cbn [filter].
    unfold Dash.is_index at 1. rewrite (H kv (or_introl eq_refl)).
    apply IH. intros x Hx. apply H. right. exact Hx. }
  assert (F2 : filter (fun kv => negb (Dash.is_index kv)) fs = fs).
  { clear F1. induction fs as [|kv fs IH]; [reflexivity|]. cbn [filter].
    unfold Dash.is_index at 1. rewrite (H kv (or_introl eq_refl)).
    cbn [negb]. f_equal. apply IH. intros x Hx. apply H. right. exact Hx. }
  rewrite F1, F2. reflexivity.
Qed.

(** X24.  From a form whose inputs have ids without a dot, no two of them
    the same and none of them [__proto__], [saveConfig] collects one
    property for each input, created in the order of the inputs: named by
    the id, and holding the state of the checkbox for a checkbox, the
    number that [parseFloat] reads in the text for a number input, and the
    text itself for any other.  On a page with the form one request is
    sent, and its body is what [JSON.stringify] writes of that object: the
    properties in the order of [Object.keys], which puts the ids that
    spell an array index first, in ascending order, and is the order of
    the inputs when no id spells one; and [null] for a number input whose
    text is no number. *)
Theorem flat_form_is_collected_in_order (inputs : list Dash.input) :
  NoDup (map Dash.in_id inputs) ->
  (forall i, In i inputs ->
     has_dot (Dash.in_id i) = false /\ Dash.in_id i <> "__proto__") ->
  let sent :=
    map (fun i => (Dash.in_id i, Dash.as_json (Dash.input_value i)))
        inputs in
  Dash.form_data inputs =
    Some (map (fun i => (Dash.in_id i, Dash.input_value i)) inputs) /\
  (exists m,
     Dash.saveConfig E inputs = Some m /\
     forall w,
       has_form (store w) ->
       requests (emitted m w) =
         [mk_post_json "/api/config/update"
            (VObj (Dash.own_entries sent))]) /\
  ((forall i, In i inputs -> Dash.array_index (Dash.in_id i) = None) ->
   Dash.own_entries sent = sent) /\
  (forall i, In i inputs ->
     Dash.in_type i = "number" ->
     is_nan (parse_float_string (Dash.in_value i)) = true ->
     In (Dash.in_id i, VNull) sent).
Proof.
  intros Hnd Hin sent.
  assert (F : Dash.form_data inputs =
              Some (map (fun i => (Dash.in_id i, Dash.input_value i))
                        inputs)).
  { unfold Dash.form_data. rewrite (form_data_from inputs []); auto. }
  split; [exact F|]. split; [|split].
  - unfold Dash.saveConfig. rewrite F. cbn [option_map].
    eexists. split; [reflexivity|]. intros w Hform.
    rewrite as_json_inputs. fold sent.
    pose proof (send_config_outcome (VObj (Dash.own_entries sent)) w) as H.
    cbv zeta in H. destruct H as [_ H]. unfold has_form in Hform.
    destruct (Dash.first_of _ (Dash.doc (store w))); [|contradiction].
    apply H.
  - intros Hplain. apply own_entries_plain.
    intros kv Hkv. unfold sent in Hkv. apply in_map_iff in Hkv.
    destruct Hkv as [i [<- Hi]]. apply Hplain. exact Hi.
  - intros i Hi Ht Hn. unfold sent. apply in_map_iff. exists i.
    split; [|exact Hi]. f_equal. unfold Dash.input_value. rewrite Ht.
    cbn [String.eqb Ascii.eqb Bool.eqb].
    destruct (parse_float_string (Dash.in_value i)); try discriminate.
    reflexivity.
Qed.

(** Reading back what [put] has stored. *)
Lemma field_assign_same (k : string) (v : value)
  (fs : list (string * value)) :
  field (VObj (assign k v fs)) k = v.
Proof.
  unfold field. cbn [get]. rewrite lookup_assign_same. reflexivity.
Qed.

Lemma put_cons (k k2 : string) (rest : list string) (v : value)
  (current : list (string * value)) :
  Dash.put (k :: k2 :: rest) v current =
  let into inner :=
    option_map (fun inner' => assign k (VObj inner') current)
               (Dash.put (k2 :: rest) v inner) in
  match lookup k current with
  | Some (VObj inner) => into inner
  | Some x => if truthy x then None else into []
  | None =>
      match Dash.inherited_text k with
      | Some _ => None
      | None => into []
      end
  end.
Proof. reflexivity. Qed.

Lemma put_read (path : list string) (v : value) :
  forall fs fs',
    path <> [] ->
    (forall k, In k path -> k <> "__proto__") ->
    Dash.put path v fs = Some fs' ->
    at_path path (VObj fs') = v.
Proof.
  induction path as [|k rest IH]; intros fs fs' Hne Hk Hput;
    [contradiction|].
  destruct rest as [|k2 rest].
  - cbn [Dash.put] in Hput. injection Hput as <-.
    rewrite write_assigns by (apply Hk; left; reflexivity).
    cbn [at_path]. apply field_assign_same.
  - assert (Step : forall inner,
              option_map (fun inner' => assign k (VObj inner') fs)
                         (Dash.put (k2 :: rest) v inner) = Some fs' ->
              at_path (k :: k2 :: rest) (VObj fs') = v).
    { intros inner H.
      destruct (Dash.put (k2 :: rest) v inner) as [inner'|] eqn:Pi;
        [|discriminate].
      injection H as <-. cbn [at_path]. rewrite field_assign_same.
      apply (IH inner inner'); [discriminate| |exact Pi].
      intros x Hx. apply Hk. right. exact Hx. }
    rewrite put_cons in Hput. cbv zeta in Hput.
    destruct (lookup k fs) as [x|].
    + destruct x; try (destruct (truthy _); [discriminate|]);
        apply (Step _ Hput).
    + destruct (Dash.inherited_text k); [discriminate|].
      apply (Step _ Hput).
Qed.

Lemma put_fresh (path : list string) (v : value) :
  (forall k, In k path -> Dash.inherited_text k = None) ->
  Dash.put path v [] <> None.
Proof.
  induction path as [|k rest IH]; intros Hk; [discriminate|].
  destruct rest as [|k2 rest]; [discriminate|].
  rewrite put_cons. cbn [lookup]. cbv zeta.
  rewrite (Hk k (or_introl eq_refl)).
  assert (Hrest : Dash.put (k2 :: rest) v [] <> None)
    by (apply IH; intros x Hx; apply Hk; right; exact Hx).
  destruct (Dash.put (k2 :: rest) v []); [discriminate|contradiction].
Qed.

(** X25.  An id with dots makes nested objects: the value of the input is
    stored at the end of the path that the dots spell, and reading along
    that path gives it back, whenever the walk of [saveConfig] along the
    path stays within objects.  From an empty [formData] it always does.
    The keys of the path are taken to be other than [__proto__] and the
    members that objects inherit. *)
Theorem dotted_id_is_a_path (path : list string) (v : value) :
  (forall k, In k path -> Dash.inherited_text k = None) ->
  (forall k, In k path -> k <> "__proto__") ->
  path <> [] ->
  (forall current stored,
     Dash.put path v current = Some stored ->
     at_path path (VObj stored) = v) /\
  exists stored,
    Dash.put path v [] = Some stored /\ at_path path (VObj stored) = v.
Proof.
  intros Hk Hp Hne. split.
  - intros current stored. apply put_read; auto.
  - destruct (Dash.put path v []) as [stored|] eqn:Pf.
    + exists stored. split; [reflexivity|]. eapply put_read; eauto.
    + exfalso. eapply put_fresh; eauto.
Qed.

End SaveConfig.


(* ================================================================== *)
(** * The statements above, each on one run *)
(* ================================================================== *)

Lemma dashboard_load_always_reports_error_witness :
  error_notifications (emitted (Vue.tick offline) vue_start) = 1.
Proof.
  apply (proj1 (proj2 (proj2 (proj2 (proj2 (proj2
           (dashboard_load_always_reports_error offline vue_start))))))).
  reflexivity.
Defined.

Lemma loaded_settings_are_saved_back_witness :
  posts (emitted (Vue.loadSettings settings_server ;;
                  Vue.saveSettings settings_server) vue_start) =
    [mk_post_json "/api/settings"
       (VObj [("exchanges", field served_settings "exchanges");
              ("notification", field served_settings "notification");
              ("system", field served_settings "system")])].
Proof.
  apply (loaded_settings_are_saved_back settings_server vue_start
           served_settings); reflexivity.
Defined.

Lemma unknown_page_is_never_loaded_witness :
  let w1 := snd (Vue.changePage offline "reports" vue_start) in
  store w1 = Vue.set_currentPage "reports" (store vue_start) /\
  trace w1 = trace vue_start /\
  poll (Vue.tick offline) Vue.poll_interval 60000 w1 = w1.
Proof.
  apply (unknown_page_is_never_loaded offline "reports" vue_start 60000%Z).
  reflexivity.
Defined.

Lemma filteredStrategies_selects_witness :
  fst (@Vue.filteredStrategies plain_casing vue_listing) =
  Ok (VArr two_strategies).
Proof.
  apply (proj2 (proj2 (@filteredStrategies_selects plain_casing
                         vue_listing)) two_strategies); reflexivity.
Defined.

Lemma filteredStrategies_search_needs_names_witness :
  @Vue.filteredStrategies plain_casing vue_searching =
  (Throw TypeError, vue_searching).
Proof.
  apply (@filteredStrategies_search_needs_names plain_casing vue_searching
           two_strategies "grid"
           (VObj [("id", VStr "arb-1"); ("type", VStr "arbitrage");
                  ("status", VStr "paused")])).
  - reflexivity.
  - reflexivity.
  - reflexivity.
  - reflexivity.
  - discriminate.
  - right. left. reflexivity.
  - intros s. discriminate.
Defined.


Lemma declined_action_does_nothing_witness :
  let E := declining (VObj []) in
  @Dash.closePosition E plain_platform "binance" "BTCUSDT" dash_start =
    (Ok tt, mkWorld (store dash_start)
              [EConfirm (close_question "binance" "BTCUSDT") false]) /\
  @Dash.resetConfig E plain_platform dash_start =
    (Ok tt, mkWorld (store dash_start) [EConfirm reset_question false]).
Proof.
  split.
  - apply (proj1 (@declined_action_does_nothing (declining (VObj []))
                    plain_platform dash_start) "binance" "BTCUSDT").
    reflexivity.
  - apply (proj2 (@declined_action_does_nothing (declining (VObj []))
                    plain_platform dash_start)).
    reflexivity.
Defined.

Lemma resetConfig_notifies_once_witness :
  let m := @Dash.resetConfig (always (VObj [])) plain_platform in
  notes (emitted m dash_start) = [("配置已重置为默认值", "success")] /\
  requests (emitted m dash_start) =
    [mk_post "/api/config/reset"; mk_get "/api/config"].
Proof.
  apply (@resetConfig_notifies_once (always (VObj [])) plain_platform
           dash_start).
  reflexivity.
Defined.

Lemma charts_stay_aligned_witness :
  charts_aligned
    (store (snd (@run_dash_op charts_server plain_platform plain_prototype
                   DoTick both_charts))).
Proof.
  apply (proj1 (charts_stay_aligned charts_server plain_platform
                  plain_prototype) DoTick both_charts).
  split; reflexivity.
Defined.

Lemma switchPanel_last_switch_counts_witness :
  Dash.switchPanel "positions" (snd (Dash.switchPanel "overview" dash_start))
  = Dash.switchPanel "positions" dash_start.
Proof.
  apply (proj2 (switchPanel_last_switch_counts dash_start)
           "overview" "positions").
  reflexivity.
Defined.

Lemma switchPanel_to_a_missing_panel_witness :
  let r := Dash.switchPanel "reports" dash_start in
  fst r = Throw TypeError /\
  trace (snd r) = trace dash_start /\
  Dash.doc (store (snd r)) = map unmarked (Dash.doc (store dash_start)) /\
  active_panels (Dash.doc (store (snd r))) = [] /\
  filter active_link (Dash.doc (store (snd r))) = [] /\
  Forall2 alike (Dash.doc (store dash_start)) (Dash.doc (store (snd r))).
Proof.
  apply (switchPanel_to_a_missing_panel "reports" dash_start).
  reflexivity.
Defined.

Lemma has_form_at_start : has_form (store dash_start).
Proof. unfold has_form. vm_compute. discriminate. Qed.

Lemma loadConfig_renders_plain_values_only_witness :
  let a := Resolved (Some (VObj a_config)) in
  let m := @Dash.loadConfig (always (VObj a_config)) plain_platform in
  Dash.configData (store (snd (m dash_start))) = VObj a_config /\
  emitted m dash_start =
    [EFetch (mk_get "/api/config") a;
     EConsoleError "加载配置失败:" (Some ReferenceError)] /\
  content_of "config-form" (Dash.doc (store (snd (m dash_start)))) = Some "".
Proof.
  destruct (@loadConfig_renders_plain_values_only (always (VObj a_config))
              plain_platform dash_start a_config eq_refl has_form_at_start)
    as [H1 [H2 H3]].
  split; [exact H1|]. split; [exact H2|]. apply H3. reflexivity.
Defined.

Lemma updateCharts_may_update_one_chart_witness :
  let m := @Dash.updateCharts charts_server plain_platform plain_prototype in
  Dash.chart_equity (store (snd (m both_charts))) =
    Some (Dash.mkChart
            (map (fun x => field x "time") an_equity_history)
            (map (fun x => field x "equity") an_equity_history)) /\
  Dash.chart_pnl (store (snd (m both_charts))) = Some (Dash.mkChart [] []) /\
  error_logs (emitted m both_charts) = 1 /\
  error_notifications (emitted m both_charts) = 0.
Proof.
  apply (@updateCharts_may_update_one_chart charts_server plain_platform
           plain_prototype both_charts
           (VObj [("equity_history", VArr an_equity_history)])
           (VObj [("error", VStr "no trades table")])
           an_equity_history (Dash.mkChart [] []) (Dash.mkChart [] []));
    reflexivity.
Defined.

Lemma has_overview_at_start : has_overview (Dash.doc (store dash_start)).
Proof.
  split; [|split].
  - intros id Hin. simpl in Hin.
    destruct Hin as [<-|[<-|[<-|[<-|[]]]]]; vm_compute; discriminate.
  - vm_compute. discriminate.
  - vm_compute. discriminate.
Qed.

Lemma loads_are_all_or_nothing_witness :
  let m := @Dash.updateOverview (always (VObj [])) plain_platform in
  error_logs (emitted m dash_start) = 1 /\
  store (snd (m dash_start)) = store dash_start.
Proof.
  split; [reflexivity|].
  apply (proj2 (proj2 (loads_are_all_or_nothing (always (VObj []))
                         plain_platform plain_prototype dash_start))).
  - exact has_overview_at_start.
  - vm_compute. discriminate.
Defined.

Lemma flat_form_is_collected_in_order_witness :
  @Dash.form_data plain_platform plain_prototype numbered_inputs =
    Some [("b", VBool true); ("2", VNum S754_nan); ("10", VStr "okx")] /\
  exists m,
    @Dash.saveConfig offline plain_platform plain_prototype
      numbered_inputs = Some m /\
    forall w,
      has_form (store w) ->
      requests (emitted m w) =
        [mk_post_json "/api/config/update"
           (VObj [("2", VNull); ("10", VStr "okx"); ("b", VBool true)])].
Proof.
  destruct (@flat_form_is_collected_in_order offline plain_platform
              plain_prototype numbered_inputs
              ltac:(repeat constructor; simpl; intuition discriminate)
              ltac:(simpl; intros i [<-|[<-|[<-|[]]]];
                    split; (reflexivity || discriminate)))
    as [F [S _]].
  split; [exact F|exact S].
Defined.

Lemma dotted_id_is_a_path_witness :
  exists stored,
    @Dash.put plain_prototype ["risk"; "max_loss"] (VStr "2") [] =
      Some stored /\
    at_path ["risk"; "max_loss"] (VObj stored) = VStr "2".
Proof.
  apply (@dotted_id_is_a_path plain_prototype ["risk"; "max_loss"]
           (VStr "2")).
  - simpl. intros k [<-|[<-|[]]]; reflexivity.
  - simpl. intros k [<-|[<-|[]]]; discriminate.
  - discriminate.
Defined.

(* ================================================================== *)
(** * Runs on concrete inputs *)
(* ================================================================== *)

Example getRiskClass_at_the_thresholds :
  fst (Vue.getRiskClass (num_lit 49 100) vue_start) = Ok "low-risk" /\
  fst (Vue.getRiskClass (num_lit 5 10) vue_start) = Ok "medium-risk" /\
  fst (Vue.getRiskClass (num_lit 79 100) vue_start) = Ok "medium-risk" /\
  fst (Vue.getRiskClass (num_lit 8 10) vue_start) = Ok "high-risk" /\
  fst (Vue.getRiskClass (S754_infinity true) vue_start) = Ok "low-risk".
Proof. repeat split; vm_compute; reflexivity. Qed.

Example closePosition_accepted :
  let E := always (VObj [("status", VStr "success")]) in
  requests (emitted (@Dash.closePosition E plain_platform
                       "binance" "BTCUSDT") dash_start) =
  [close_request "binance" "BTCUSDT"; mk_get "/api/monitor/positions"].
Proof. vm_compute. reflexivity. Qed.

Example loadPositions_replaces_both_slices :
  let body := VObj [("positions", VArr [a_position]);
                    ("stats", VObj [("positionCount", VStr "1")])] in
  let d := store (snd (Vue.loadPositions (always body) vue_start)) in
  Vue.positions d = VArr [a_position] /\
  Vue.positionStats d = VObj [("positionCount", VStr "1")].
Proof. split; reflexivity. Qed.

Example nav_click_switches :
  active_panels
    (Dash.doc (store (snd (Dash.nav_click (Dash.nav_link "#positions" [])
                             dash_start)))) = [Some "positions"].
Proof. vm_compute. reflexivity. Qed.

Example object_keys_order :
  Dash.object_keys
    [("b", VNull); ("10", VNull); ("a", VNull); ("9", VNull); ("01", VNull)]
  = ["9"; "10"; "b"; "a"; "01"].
Proof. vm_compute. reflexivity. Qed.
